(** * Frontend/script.js: theme, menu, cursor and scroll-reveal behaviour

    A shallow embedding of the portfolio page's behaviour layer.  The page
    state the script reads and writes (the theme attribute, the stored
    preference, class lists, the body's inline style, the window's scroll
    offset, the registered listeners, the pending timers and the three
    singletons kept on [window]) is one record, [Page]; every function of
    the script is a function on it, written in the order of the source. *)

From Stdlib Require Import Floats.
From Stdlib Require Import ZArith NArith List String Ascii Bool Lia.
From Stdlib Require Import Decimal DecimalString DecimalN DecimalPos.
From Stdlib Require Import Reals Lra.
Import ListNotations.
Local Open Scope string_scope.

(** A decimal literal denotes the nearest binary64 value, in the script as
    here. *)
Set Warnings "-inexact-float".

(** ** The fragment of JavaScript the script relies on *)

Module JS.

(** [ToBoolean] of a string: only the empty string is falsy. *)
Definition truthy (s : string) : bool :=
  match s with EmptyString => false | String _ _ => true end.

(** [a || b] where [a] is a string or [null]. *)
Definition or_else (a : option string) (b : string) : string :=
  match a with
  | Some s => if truthy s then s else b
  | None => b
  end.

(** [Number::toString] of a non-negative integer, as the template literal
    [`-${scrollY}px`] applies it: plain decimal digits (scroll offsets stay
    far below 10^21, where the notation would change). *)
Definition toString (n : N) : string := NilEmpty.string_of_uint (N.to_uint n).

(** [StrWhiteSpaceChar], on the one-byte characters: TAB, LF, VT, FF, CR
    and SPACE. *)
Definition isWhiteSpace (c : ascii) : bool :=
  let n := N_of_ascii c in
  ((9 <=? n) && (n <=? 13) || (n =? 32))%N.

Fixpoint trimStart (s : string) : string :=
  match s with
  | String c r => if isWhiteSpace c then trimStart r else s
  | EmptyString => s
  end.

(** The value of a character as a digit of some radix up to 36. *)
Definition digitValue (c : ascii) : option N :=
  let n := N_of_ascii c in
  if ((48 <=? n) && (n <=? 57))%N then Some (n - 48)%N
  else if ((97 <=? n) && (n <=? 122))%N then Some (n - 87)%N
  else if ((65 <=? n) && (n <=? 90))%N then Some (n - 55)%N
  else None.

(** The longest prefix of [s] made of digits of [radix], read most
    significant digit first; [None] while no digit has been read. *)
Fixpoint digits (radix : N) (s : string) (acc : option N) : option N :=
  match s with
  | String c r =>
      match digitValue c with
      | Some d =>
          if (d <? radix)%N
          then digits radix r
                 (Some (radix * match acc with Some a => a | None => 0 end + d)%N)
          else acc
      | None => acc
      end
  | EmptyString => acc
  end.

(** [parseInt(s)] with no radix argument; [None] is [NaN]. *)
Definition parseInt (s : string) : option Z :=
  let s := trimStart s in
  let '(sign, s) :=
    match s with
    | String "-" r => ((-1)%Z, r)
    | String "+" r => (1%Z, r)
    | _ => (1%Z, s)
    end in
  let '(radix, s) :=
    match s with
    | String "0" (String "x" r) => (16%N, r)
    | String "0" (String "X" r) => (16%N, r)
    | _ => (10%N, s)
    end in
  match digits radix s None with
  | Some n => Some (sign * Z.of_N n)%Z
  | None => None
  end.

(** [x * k] on a number that may be [NaN]. *)
Definition times (x : option Z) (k : Z) : option Z :=
  match x with Some v => Some (v * k)%Z | None => None end.

End JS.

(** ** Class lists *)

Module DOMTokenList.

Definition contains (l : list string) (token : string) : bool :=
  existsb (String.eqb token) l.

Definition add (l : list string) (token : string) : list string :=
  if contains l token then l else l ++ [token].

Definition remove (l : list string) (token : string) : list string :=
  filter (fun t => negb (String.eqb t token)) l.

End DOMTokenList.

(** ** The page *)

(** An element is named by its place in the document.  The script never
    adds or removes a class or an id that one of its selectors looks for, so
    what each selector finds is the same for the whole life of the page; an
    [Env] records it, together with the two capability probes. *)
Definition elem := nat.

Record Env := {
  theme_toggle : option elem;          (* getElementById('theme-toggle') *)
  theme_icon : option elem;            (* querySelector('.theme-icon') *)
  hamburger_icon : option elem;        (* querySelector('.hamburger-icon') *)
  menu_overlay : option elem;          (* querySelector('.menu-overlay') *)
  menu_links : option elem;            (* querySelector('.menu-links') *)
  menu_link_anchors : list elem;       (* querySelectorAll('.menu-links a') *)
  custom_cursor : option elem;         (* getElementById('custom-cursor') *)
  cursor_dot : option elem;            (* getElementById('cursor-dot') *)
  interactive_elements : list elem;    (* querySelectorAll('a, button, ...') *)
  scroll_animate : list elem;          (* querySelectorAll('.scroll-animate') *)
  hero_scroll_animate : list elem;     (* querySelectorAll('#profile .scroll-animate') *)
  body : elem;                         (* document.body, there when the script's functions run *)
  ancestors : elem -> list elem;       (* parent first, root element last *)
  touch_capable : bool;                (* 'ontouchstart' in window || navigator.maxTouchPoints > 0 *)
  has_IntersectionObserver : bool      (* 'IntersectionObserver' in window *)
}.

(** The inline style properties of the body that the script writes. *)
Record Style := {
  overflow : string;
  position : string;
  width : string;
  height : string;
  top : string
}.

Definition set_overflow (v : string) (s : Style) : Style :=
  Build_Style v (position s) (width s) (height s) (top s).
Definition set_position (v : string) (s : Style) : Style :=
  Build_Style (overflow s) v (width s) (height s) (top s).
Definition set_width (v : string) (s : Style) : Style :=
  Build_Style (overflow s) (position s) v (height s) (top s).
Definition set_height (v : string) (s : Style) : Style :=
  Build_Style (overflow s) (position s) (width s) v (top s).
Definition set_top (v : string) (s : Style) : Style :=
  Build_Style (overflow s) (position s) (width s) (height s) v.

(** Events, their targets and the listeners the script registers. *)
Inductive EventType :=
  click | keydown | mousemove | mouseenter | mouseleave | mousedown | mouseup.

Inductive EventTarget := Node (x : elem) | TheDocument.

Record Event := {
  type : EventType;
  target : EventTarget;
  key : string;
  clientX : float;
  clientY : float;
  defaultPrevented : bool;
  propagationStopped : bool
}.

Definition preventDefault (e : Event) : Event :=
  Build_Event (type e) (target e) (key e) (clientX e) (clientY e) true
    (propagationStopped e).
Definition stopPropagation (e : Event) : Event :=
  Build_Event (type e) (target e) (key e) (clientX e) (clientY e)
    (defaultPrevented e) true.

(** One constructor per function literal passed to [addEventListener]. *)
Inductive Listener :=
  | app_themeToggle_click            (* () => this.themeManager.toggle() *)
  | app_hamburger_click              (* () => this.menuManager.toggle() *)
  | app_overlay_click                (* () => this.menuManager.close() *)
  | app_menuLinks_click              (* (e) => e.stopPropagation() *)
  | setup_themeButton_click
  | setup_hamburger_click
  | setup_overlay_click (menuOverlay : elem)
  | setup_document_keydown
  | setup_link_click
  | cursor_mousemove
  | cursor_mouseenter
  | cursor_mouseleave
  | cursor_mousedown
  | cursor_mouseup.

Record Registration := {
  reg_target : EventTarget;
  reg_type : EventType;
  reg_listener : Listener
}.

(** The fields of a [LuxuryCursor] object. *)
Record LuxuryCursorObj := {
  isTouchDevice : bool;
  mouseX : float;
  mouseY : float;
  cursorX : float;
  cursorY : float;
  dotX : float;
  dotY : float;
  isHovering : bool;
  animationFrame : option nat
}.

(** The fields of a [ScrollAnimationManager] object: [observer] is [null] or
    an observer with the targets it currently observes. *)
Record ScrollAnimationManagerObj := {
  observer : option (list elem)
}.

(** Callbacks handed to [setTimeout] and not yet run.  A callback holds on
    to the elements it was given; [None] stands for one that has since been
    replaced in the document, on which the callback has no visible effect. *)
Inductive Timer :=
  | hero_stagger (delay : nat) (heroElements : list (option elem))
  | hero_reveal (delay : nat) (el : option elem).

Record Page := {
  data_theme : option string;            (* the root's data-theme attribute *)
  localStorage_theme : option string;    (* localStorage.getItem('theme') *)
  classList : elem -> list string;
  textContent : elem -> string;
  style_transform : elem -> option (float * float);
  body_style : Style;
  scrollY : N;                           (* window.scrollY, in whole pixels *)
  listeners : list Registration;         (* in registration order *)
  timers : list Timer;
  frame_requests : nat;                  (* requestAnimationFrame calls so far *)
  portfolioApp : bool;                   (* window.portfolioApp is set *)
  luxuryCursor : option LuxuryCursorObj; (* window.luxuryCursor *)
  scrollAnimationManager : option ScrollAnimationManagerObj
}.

Definition set_data_theme v p :=
  Build_Page v (localStorage_theme p) (classList p) (textContent p) (style_transform p) (body_style p) (scrollY p) (listeners p) (timers p) (frame_requests p) (portfolioApp p) (luxuryCursor p) (scrollAnimationManager p).
Definition set_localStorage_theme v p :=
  Build_Page (data_theme p) v (classList p) (textContent p) (style_transform p) (body_style p) (scrollY p) (listeners p) (timers p) (frame_requests p) (portfolioApp p) (luxuryCursor p) (scrollAnimationManager p).
Definition set_classList v p :=
  Build_Page (data_theme p) (localStorage_theme p) v (textContent p) (style_transform p) (body_style p) (scrollY p) (listeners p) (timers p) (frame_requests p) (portfolioApp p) (luxuryCursor p) (scrollAnimationManager p).
Definition set_textContent v p :=
  Build_Page (data_theme p) (localStorage_theme p) (classList p) v (style_transform p) (body_style p) (scrollY p) (listeners p) (timers p) (frame_requests p) (portfolioApp p) (luxuryCursor p) (scrollAnimationManager p).
Definition set_style_transform v p :=
  Build_Page (data_theme p) (localStorage_theme p) (classList p) (textContent p) v (body_style p) (scrollY p) (listeners p) (timers p) (frame_requests p) (portfolioApp p) (luxuryCursor p) (scrollAnimationManager p).
Definition set_body_style v p :=
  Build_Page (data_theme p) (localStorage_theme p) (classList p) (textContent p) (style_transform p) v (scrollY p) (listeners p) (timers p) (frame_requests p) (portfolioApp p) (luxuryCursor p) (scrollAnimationManager p).
Definition set_scrollY v p :=
  Build_Page (data_theme p) (localStorage_theme p) (classList p) (textContent p) (style_transform p) (body_style p) v (listeners p) (timers p) (frame_requests p) (portfolioApp p) (luxuryCursor p) (scrollAnimationManager p).
Definition set_listeners v p :=
  Build_Page (data_theme p) (localStorage_theme p) (classList p) (textContent p) (style_transform p) (body_style p) (scrollY p) v (timers p) (frame_requests p) (portfolioApp p) (luxuryCursor p) (scrollAnimationManager p).
Definition set_timers v p :=
  Build_Page (data_theme p) (localStorage_theme p) (classList p) (textContent p) (style_transform p) (body_style p) (scrollY p) (listeners p) v (frame_requests p) (portfolioApp p) (luxuryCursor p) (scrollAnimationManager p).
Definition set_frame_requests v p :=
  Build_Page (data_theme p) (localStorage_theme p) (classList p) (textContent p) (style_transform p) (body_style p) (scrollY p) (listeners p) (timers p) v (portfolioApp p) (luxuryCursor p) (scrollAnimationManager p).
Definition set_portfolioApp v p :=
  Build_Page (data_theme p) (localStorage_theme p) (classList p) (textContent p) (style_transform p) (body_style p) (scrollY p) (listeners p) (timers p) (frame_requests p) v (luxuryCursor p) (scrollAnimationManager p).
Definition set_luxuryCursor v p :=
  Build_Page (data_theme p) (localStorage_theme p) (classList p) (textContent p) (style_transform p) (body_style p) (scrollY p) (listeners p) (timers p) (frame_requests p) (portfolioApp p) v (scrollAnimationManager p).
Definition set_scrollAnimationManager v p :=
  Build_Page (data_theme p) (localStorage_theme p) (classList p) (textContent p) (style_transform p) (body_style p) (scrollY p) (listeners p) (timers p) (frame_requests p) (portfolioApp p) (luxuryCursor p) v.

(** Updating one element of a per-element store. *)
Definition update {A} (f : elem -> A) (x : elem) (v : A) : elem -> A :=
  fun y => if Nat.eqb y x then v else f y.

(** [x.classList.add(token)], [x.classList.remove(token)],
    [x.classList.contains(token)] and [x.textContent = s].  The script only
    assigns [textContent], and only to the theme icon.  [textContent p x]
    is the text last given to [x] itself: an assignment is not carried over
    to the elements that contain [x], whose text includes it, nor to those
    inside [x], which it removes, so what is stated of [textContent] is
    stated of the written element and of the elements apart from it. *)
Definition classList_add (x : elem) (token : string) (p : Page) : Page :=
  set_classList (update (classList p) x (DOMTokenList.add (classList p x) token)) p.
Definition classList_remove (x : elem) (token : string) (p : Page) : Page :=
  set_classList (update (classList p) x (DOMTokenList.remove (classList p x) token)) p.
Definition classList_contains (x : elem) (token : string) (p : Page) : bool :=
  DOMTokenList.contains (classList p x) token.
Definition assign_textContent (x : elem) (s : string) (p : Page) : Page :=
  set_textContent (update (textContent p) x s) p.

(** [window.scrollTo(0, y)]: a [NaN] offset is treated as 0 and a negative
    one is clamped to the top of the page; the page is taken to be tall
    enough for the offsets the script scrolls to, which are offsets it had
    before. *)
Definition scrollTo (y : option Z) (p : Page) : Page :=
  set_scrollY (match y with Some v => Z.to_N v | None => 0%N end) p.

(** [target.addEventListener(type, listener)]. *)
Definition addEventListener (t : EventTarget) (ty : EventType) (l : Listener)
    (p : Page) : Page :=
  set_listeners (listeners p ++ [Build_Registration t ty l]) p.

(** ** ThemeManager *)

Definition sun_glyph : string := "☀️".
Definition moon_glyph : string := "🌙".

(** [this.htmlElement] is [document.documentElement], which a page that runs
    the script always has: the [if (!this.htmlElement) return] guards never
    fire and the root's attribute is a field of the page.  Writing to
    [localStorage] is taken to succeed. *)
Module ThemeManager.
Section WithEnv.
Variable E : Env.

Definition themeKey : string := "theme".
Definition defaultTheme : string := "light".

Definition getThemeIcon : option elem := theme_icon E.

Definition setTheme (theme : string) (p : Page) : Page :=
  set_data_theme (Some theme) p.

Definition saveTheme (theme : string) (p : Page) : Page :=
  set_localStorage_theme (Some theme) p.

Definition updateIcon (theme : string) (p : Page) : Page :=
  match getThemeIcon with
  | Some themeIcon =>
      assign_textContent themeIcon
        (if theme =? "dark" then sun_glyph else moon_glyph) p
  | None => p
  end.

Definition init (p : Page) : Page :=
  let savedTheme := JS.or_else (localStorage_theme p) defaultTheme in
  let p := setTheme savedTheme p in
  updateIcon savedTheme p.

Definition toggle (p : Page) : Page :=
  let currentTheme := JS.or_else (data_theme p) "light" in
  let newTheme := if currentTheme =? "dark" then "light" else "dark" in
  let p := setTheme newTheme p in
  let p := saveTheme newTheme p in
  updateIcon newTheme p.

End WithEnv.
End ThemeManager.

(** ** MenuManager *)

Module MenuManager.
Section WithEnv.
Variable E : Env.

Definition getOverlay : option elem := menu_overlay E.
Definition getIcon : option elem := hamburger_icon E.

Definition open (p : Page) : Page :=
  match getOverlay, getIcon with
  | Some overlay, Some icon =>
      let scrollY_ := scrollY p in
      let p := classList_add overlay "open" p in
      let p := classList_add icon "open" p in
      let p := classList_add (body E) "menu-open" p in
      let p := set_body_style (set_overflow "hidden" (body_style p)) p in
      let p := set_body_style (set_position "fixed" (body_style p)) p in
      let p := set_body_style (set_width "100%" (body_style p)) p in
      set_body_style (set_top ("-" ++ JS.toString scrollY_ ++ "px") (body_style p)) p
  | _, _ => p
  end.

Definition close (p : Page) : Page :=
  let overlay := getOverlay in
  let icon := getIcon in
  let scrollY_ := top (body_style p) in
  let p := match overlay with Some o => classList_remove o "open" p | None => p end in
  let p := match icon with Some i => classList_remove i "open" p | None => p end in
  let p := classList_remove (body E) "menu-open" p in
  let p := set_body_style (set_overflow "" (body_style p)) p in
  let p := set_body_style (set_position "" (body_style p)) p in
  let p := set_body_style (set_width "" (body_style p)) p in
  let p := set_body_style (set_height "" (body_style p)) p in
  let p := set_body_style (set_top "" (body_style p)) p in
  if JS.truthy scrollY_
  then scrollTo (JS.times (JS.parseInt (JS.or_else (Some scrollY_) "0")) (-1)) p
  else p.

Definition toggle (p : Page) : Page :=
  match getOverlay, getIcon with
  | Some overlay, Some icon =>
      let isOpen := classList_contains overlay "open" p in
      if isOpen then close p else open p
  | _, _ => p
  end.

Definition isOpen (p : Page) : bool :=
  match getOverlay with
  | Some overlay => classList_contains overlay "open" p || false
  | None => false
  end.

End WithEnv.
End MenuManager.

(** ** The global functions kept for inline handlers *)

Section Globals.
Variable E : Env.

(** The [if (e) { e.preventDefault(); e.stopPropagation(); }] prologue. *)
Definition cancel (e : option Event) : option Event :=
  match e with
  | Some e => Some (stopPropagation (preventDefault e))
  | None => None
  end.

Definition toggleTheme (e : option Event) (p : Page) : option Event * Page :=
  let e := cancel e in
  let currentTheme := JS.or_else (data_theme p) "light" in
  let newTheme := if currentTheme =? "dark" then "light" else "dark" in
  let p := set_data_theme (Some newTheme) p in
  let p := set_localStorage_theme (Some newTheme) p in
  let p :=
    match theme_icon E with
    | Some themeIcon =>
        assign_textContent themeIcon
          (if newTheme =? "dark" then sun_glyph else moon_glyph) p
    | None => p
    end in
  (e, p).

Definition toggleMenu (e : option Event) (p : Page) : option Event * Page :=
  let e := cancel e in
  match menu_overlay E, hamburger_icon E with
  | Some overlay, Some icon =>
      let isOpen := classList_contains overlay "open" p in
      if isOpen then
        let p := classList_remove overlay "open" p in
        let p := classList_remove icon "open" p in
        let p := classList_remove (body E) "menu-open" p in
        let p := set_body_style (set_overflow "" (body_style p)) p in
        let p := set_body_style (set_position "" (body_style p)) p in
        let p := set_body_style (set_width "" (body_style p)) p in
        let p := set_body_style (set_height "" (body_style p)) p in
        (e, p)
      else
        let scrollY_ := scrollY p in
        let p := classList_add overlay "open" p in
        let p := classList_add icon "open" p in
        let p := classList_add (body E) "menu-open" p in
        let p := set_body_style (set_overflow "hidden" (body_style p)) p in
        let p := set_body_style (set_position "fixed" (body_style p)) p in
        let p := set_body_style (set_width "100%" (body_style p)) p in
        let p := set_body_style
                   (set_top ("-" ++ JS.toString scrollY_ ++ "px") (body_style p)) p in
        (e, p)
  | _, _ => (e, p)
  end.

Definition handleMenuLink (p : Page) : Page :=
  let p := match menu_overlay E with Some o => classList_remove o "open" p | None => p end in
  let p := match hamburger_icon E with Some i => classList_remove i "open" p | None => p end in
  let p := classList_remove (body E) "menu-open" p in
  let scrollY_ := top (body_style p) in
  let p := set_body_style (set_overflow "" (body_style p)) p in
  let p := set_body_style (set_position "" (body_style p)) p in
  let p := set_body_style (set_width "" (body_style p)) p in
  let p := set_body_style (set_height "" (body_style p)) p in
  let p := set_body_style (set_top "" (body_style p)) p in
  if JS.truthy scrollY_
  then scrollTo (JS.times (JS.parseInt (JS.or_else (Some scrollY_) "0")) (-1)) p
  else p.

Definition initializeTheme (p : Page) : Page :=
  let savedTheme := JS.or_else (localStorage_theme p) "light" in
  let p := set_data_theme (Some savedTheme) p in
  match theme_icon E with
  | Some themeIcon =>
      assign_textContent themeIcon
        (if savedTheme =? "dark" then sun_glyph else moon_glyph) p
  | None => p
  end.

End Globals.

(** ** LuxuryCursor *)

Definition set_mouse (x y : float) (c : LuxuryCursorObj) : LuxuryCursorObj :=
  Build_LuxuryCursorObj (isTouchDevice c) x y (cursorX c) (cursorY c) (dotX c)
    (dotY c) (isHovering c) (animationFrame c).
Definition set_cursorX (v : float) (c : LuxuryCursorObj) : LuxuryCursorObj :=
  Build_LuxuryCursorObj (isTouchDevice c) (mouseX c) (mouseY c) v (cursorY c)
    (dotX c) (dotY c) (isHovering c) (animationFrame c).
Definition set_cursorY (v : float) (c : LuxuryCursorObj) : LuxuryCursorObj :=
  Build_LuxuryCursorObj (isTouchDevice c) (mouseX c) (mouseY c) (cursorX c) v
    (dotX c) (dotY c) (isHovering c) (animationFrame c).
Definition set_dotX (v : float) (c : LuxuryCursorObj) : LuxuryCursorObj :=
  Build_LuxuryCursorObj (isTouchDevice c) (mouseX c) (mouseY c) (cursorX c)
    (cursorY c) v (dotY c) (isHovering c) (animationFrame c).
Definition set_dotY (v : float) (c : LuxuryCursorObj) : LuxuryCursorObj :=
  Build_LuxuryCursorObj (isTouchDevice c) (mouseX c) (mouseY c) (cursorX c)
    (cursorY c) (dotX c) v (isHovering c) (animationFrame c).
Definition set_isHovering (v : bool) (c : LuxuryCursorObj) : LuxuryCursorObj :=
  Build_LuxuryCursorObj (isTouchDevice c) (mouseX c) (mouseY c) (cursorX c)
    (cursorY c) (dotX c) (dotY c) v (animationFrame c).
Definition set_animationFrame (v : option nat) (c : LuxuryCursorObj) : LuxuryCursorObj :=
  Build_LuxuryCursorObj (isTouchDevice c) (mouseX c) (mouseY c) (cursorX c)
    (cursorY c) (dotX c) (dotY c) (isHovering c) v.

(** [x.style.transform = `translate(${tx}px, ${ty}px) translate(-50%, -50%)`]:
    the two offsets are kept as numbers. *)
Definition assign_transform (x : elem) (tx ty : float) (p : Page) : Page :=
  set_style_transform (update (style_transform p) x (Some (tx, ty))) p.

(** Numbers are binary64 floats, as in the engine: every operation of
    [animate] rounds, and [0.12] and [0.35] are the floats nearest to the
    decimals. *)
Module LuxuryCursor.
Section WithEnv.
Variable E : Env.
Local Open Scope float_scope.

(** [this.cursor] and [this.cursorDot] are what the constructor found for
    [custom-cursor] and [cursor-dot]; they are not [null] wherever [animate]
    and [init] run, since the constructor checks both before it calls
    [init]. *)
Definition animate (this : LuxuryCursorObj) (p : Page) : LuxuryCursorObj * Page :=
  let cursorLerp := 0.12 in
  let dx := mouseX this - cursorX this in
  let dy := mouseY this - cursorY this in
  let this := set_cursorX (cursorX this + dx * cursorLerp) this in
  let this := set_cursorY (cursorY this + dy * cursorLerp) this in
  let dotLerp := 0.35 in
  let dotDx := mouseX this - dotX this in
  let dotDy := mouseY this - dotY this in
  let this := set_dotX (dotX this + dotDx * dotLerp) this in
  let this := set_dotY (dotY this + dotDy * dotLerp) this in
  let p := match custom_cursor E with
           | Some c => assign_transform c (cursorX this) (cursorY this) p
           | None => p
           end in
  let p := match cursor_dot E with
           | Some d => assign_transform d (dotX this) (dotY this) p
           | None => p
           end in
  let handle := S (frame_requests p) in
  let p := set_frame_requests handle p in
  (set_animationFrame (Some handle) this, p).

Definition init (this : LuxuryCursorObj) (p : Page) : LuxuryCursorObj * Page :=
  if isTouchDevice this then (this, p) else
  let p := match custom_cursor E with Some c => classList_add c "active" p | None => p end in
  let p := match cursor_dot E with Some d => classList_add d "active" p | None => p end in
  let p := addEventListener TheDocument mousemove cursor_mousemove p in
  let p := fold_left
             (fun (p : Page) (el : elem) =>
                let p := addEventListener (Node el) mouseenter cursor_mouseenter p in
                addEventListener (Node el) mouseleave cursor_mouseleave p)
             (interactive_elements E) p in
  let p := addEventListener TheDocument mousedown cursor_mousedown p in
  let p := addEventListener TheDocument mouseup cursor_mouseup p in
  animate this p.

(** [new LuxuryCursor()]. *)
Definition new (p : Page) : LuxuryCursorObj * Page :=
  let this := Build_LuxuryCursorObj (touch_capable E) 0 0 0 0 0 0 false None in
  match custom_cursor E, cursor_dot E with
  | Some _, Some _ => if negb (isTouchDevice this) then init this p else (this, p)
  | _, _ => (this, p)
  end.

End WithEnv.
End LuxuryCursor.

(** ** ScrollAnimationManager *)

(** [setTimeout(callback, delay)]. *)
Definition setTimeout (t : Timer) (p : Page) : Page :=
  set_timers (timers p ++ [t]) p.

(** The observer's options (threshold 0.1, root margin) only tell the engine
    when an entry counts as intersecting; the entries it reports are inputs
    of the callback. *)
Module ScrollAnimationManager.
Section WithEnv.
Variable E : Env.

(** [new ScrollAnimationManager()]. *)
Definition new : ScrollAnimationManagerObj := Build_ScrollAnimationManagerObj None.

Definition observe (x : elem) (this : ScrollAnimationManagerObj) : ScrollAnimationManagerObj :=
  match observer this with
  | Some targets =>
      if existsb (Nat.eqb x) targets then this
      else Build_ScrollAnimationManagerObj (Some (targets ++ [x])%list)
  | None => this
  end.

Definition unobserve (x : elem) (this : ScrollAnimationManagerObj) : ScrollAnimationManagerObj :=
  match observer this with
  | Some targets =>
      Build_ScrollAnimationManagerObj
        (Some (filter (fun y => negb (Nat.eqb y x)) targets))
  | None => this
  end.

(** The function given to [new IntersectionObserver]; an entry is its
    target and its [isIntersecting] flag. *)
Definition callback (entries : list (elem * bool)) (p : Page) : Page :=
  fold_left
    (fun (p : Page) (entry : elem * bool) =>
       if snd entry then
         let p := classList_add (fst entry) "animate" p in
         match scrollAnimationManager p with
         | Some this => set_scrollAnimationManager (Some (unobserve (fst entry) this)) p
         | None => p
         end
       else p)
    entries p.

(** [init] runs on the object just stored in [window.scrollAnimationManager]. *)
Definition init (p : Page) : Page :=
  match scrollAnimationManager p with
  | Some this =>
      if negb (has_IntersectionObserver E) then
        fold_left (fun (p : Page) (el : elem) => classList_add el "animate" p) (scroll_animate E) p
      else
        let this := Build_ScrollAnimationManagerObj (Some []) in
        let this := fold_left (fun (this : ScrollAnimationManagerObj) (el : elem) => observe el this) (scroll_animate E) this in
        let p := set_scrollAnimationManager (Some this) p in
        let heroElements := hero_scroll_animate E in
        if (0 <? List.length heroElements)%nat
        then setTimeout (hero_stagger 100 (map Some heroElements)) p
        else p
  | None => p
  end.

(** What a timer does when it fires. *)
Definition run_timer (t : Timer) (p : Page) : Page :=
  match t with
  | hero_stagger _ heroElements =>
      fold_left
        (fun (p : Page) (ie : nat * option elem) =>
           setTimeout (hero_reveal (fst ie * 100) (snd ie)) p)
        (combine (seq 0 (List.length heroElements)) heroElements) p
  | hero_reveal _ (Some el) => classList_add el "animate" p
  | hero_reveal _ None => p
  end.

End WithEnv.
End ScrollAnimationManager.

(** ** PortfolioApp *)

(** [new PortfolioApp()] builds the two managers, which hold no state of
    their own beyond the elements of [E]. *)
Module PortfolioApp.
Section WithEnv.
Variable E : Env.

Definition attachEventListeners (p : Page) : Page :=
  let p := match theme_toggle E with
           | Some themeToggle => addEventListener (Node themeToggle) click app_themeToggle_click p
           | None => p
           end in
  let p := match hamburger_icon E with
           | Some hamburgerIcon => addEventListener (Node hamburgerIcon) click app_hamburger_click p
           | None => p
           end in
  let p := match menu_overlay E with
           | Some menuOverlay => addEventListener (Node menuOverlay) click app_overlay_click p
           | None => p
           end in
  match menu_links E with
  | Some menuLinks => addEventListener (Node menuLinks) click app_menuLinks_click p
  | None => p
  end.

Definition init (p : Page) : Page :=
  let p := ThemeManager.init E p in
  attachEventListeners p.

End WithEnv.
End PortfolioApp.

(** ** Listeners and event dispatch *)

Definition EventType_eqb (a b : EventType) : bool :=
  match a, b with
  | click, click | keydown, keydown | mousemove, mousemove
  | mouseenter, mouseenter | mouseleave, mouseleave
  | mousedown, mousedown | mouseup, mouseup => true
  | _, _ => false
  end.

Definition EventTarget_eqb (a b : EventTarget) : bool :=
  match a, b with
  | Node x, Node y => Nat.eqb x y
  | TheDocument, TheDocument => true
  | _, _ => false
  end.

Section Dispatch.
Variable E : Env.

(** A global function called with the event at hand. *)
Definition call_with (f : option Event -> Page -> option Event * Page)
    (e : Event) (p : Page) : Event * Page :=
  let '(e', p) := f (Some e) p in
  (match e' with Some e' => e' | None => e end, p).

(** The listeners of [LuxuryCursor.init] act on the object the constructor
    returned, which [initializeApp] keeps in [window.luxuryCursor]. *)
Definition on_cursor (f : LuxuryCursorObj -> LuxuryCursorObj) (p : Page) : Page :=
  match luxuryCursor p with
  | Some this => set_luxuryCursor (Some (f this)) p
  | None => p
  end.

Definition on_cursor_elements (f : elem -> Page -> Page) (p : Page) : Page :=
  let p := match custom_cursor E with Some c => f c p | None => p end in
  match cursor_dot E with Some d => f d p | None => p end.

(** The body of each listener. *)
Definition handleEvent (l : Listener) (e : Event) (p : Page) : Event * Page :=
  match l with
  | app_themeToggle_click => (e, ThemeManager.toggle E p)
  | app_hamburger_click => (e, MenuManager.toggle E p)
  | app_overlay_click => (e, MenuManager.close E p)
  | app_menuLinks_click => (stopPropagation e, p)
  | setup_themeButton_click =>
      let e := preventDefault e in
      let e := stopPropagation e in
      call_with (toggleTheme E) e p
  | setup_hamburger_click =>
      let e := preventDefault e in
      let e := stopPropagation e in
      call_with (toggleMenu E) e p
  | setup_overlay_click menuOverlay =>
      if EventTarget_eqb (target e) (Node menuOverlay) then
        let e := preventDefault e in
        let e := stopPropagation e in
        call_with (toggleMenu E) e p
      else (e, p)
  | setup_document_keydown =>
      if key e =? "Escape" then
        match menu_overlay E with
        | Some overlay =>
            if classList_contains overlay "open" p
            then call_with (toggleMenu E) e p
            else (e, p)
        | None => (e, p)
        end
      else (e, p)
  | setup_link_click => (e, handleMenuLink E p)
  | cursor_mousemove => (e, on_cursor (set_mouse (clientX e) (clientY e)) p)
  | cursor_mouseenter =>
      let p := on_cursor (set_isHovering true) p in
      (e, on_cursor_elements (fun x => classList_add x "hover") p)
  | cursor_mouseleave =>
      let p := on_cursor (set_isHovering false) p in
      (e, on_cursor_elements (fun x => classList_remove x "hover") p)
  | cursor_mousedown => (e, on_cursor_elements (fun x => classList_add x "click") p)
  | cursor_mouseup => (e, on_cursor_elements (fun x => classList_remove x "click") p)
  end.

(** The listeners of one target for one event type, in registration order. *)
Definition listeners_at (t : EventTarget) (ty : EventType) (p : Page) : list Listener :=
  map reg_listener
    (filter (fun r => EventTarget_eqb (reg_target r) t && EventType_eqb (reg_type r) ty)
       (listeners p)).

Fixpoint invoke (ls : list Listener) (e : Event) (p : Page) : Event * Page :=
  match ls with
  | [] => (e, p)
  | l :: ls => let '(e, p) := handleEvent l e p in invoke ls e p
  end.

(** Bubbling: every listener of the current target runs, also after one of
    them stopped the propagation; the targets further up are then skipped. *)
Fixpoint propagate (path : list EventTarget) (e : Event) (p : Page) : Event * Page :=
  match path with
  | [] => (e, p)
  | t :: path =>
      let '(e, p) := invoke (listeners_at t (type e) p) e p in
      if propagationStopped e then (e, p) else propagate path e p
  end.

Definition bubbles (ty : EventType) : bool :=
  match ty with mouseenter | mouseleave => false | _ => true end.

Definition event_path (t : EventTarget) (ty : EventType) : list EventTarget :=
  match t with
  | Node x =>
      if bubbles ty then (Node x :: map Node (ancestors E x) ++ [TheDocument])%list
      else [Node x]
  | TheDocument => [TheDocument]
  end.

Definition dispatchEvent (e : Event) (p : Page) : Event * Page :=
  propagate (event_path (target e) (type e)) e p.

End Dispatch.

(** ** The set-up functions and the initializer *)

Section Startup.
Variable E : Env.

(** [x] is [root] or lies below it. *)
Definition within (root x : elem) : bool :=
  Nat.eqb x root || existsb (Nat.eqb root) (ancestors E x).

Definition target_within (root : elem) (t : EventTarget) : bool :=
  match t with Node x => within root x | TheDocument => false end.

(** What is left of a reference to [y] once the subtree at [x] has been
    replaced. *)
Definition detach (x : elem) (y : option elem) : option elem :=
  match y with
  | Some y => if within x y then None else Some y
  | None => None
  end.

Definition detach_timer (x : elem) (t : Timer) : Timer :=
  match t with
  | hero_stagger delay heroElements => hero_stagger delay (map (detach x) heroElements)
  | hero_reveal delay el => hero_reveal delay (detach x el)
  end.

Definition detach_observer (x : elem) (this : ScrollAnimationManagerObj)
    : ScrollAnimationManagerObj :=
  match observer this with
  | Some targets =>
      Build_ScrollAnimationManagerObj
        (Some (filter (fun y => negb (within x y)) targets))
  | None => this
  end.

(** [const newButton = themeButton.cloneNode(true);
     themeButton.parentNode.replaceChild(newButton, themeButton)]: the copy
    takes the place of the button with the same attributes, classes and
    text, but with none of the listeners added to the button or below it.
    The observer and the timers keep the elements they were given, which
    are no longer in the document: the copies are not observed and no timer
    acts on them.  (The cursor elements, which the [LuxuryCursor] object
    holds, are taken to lie outside the button.) *)
Definition replaceWithClone (x : elem) (p : Page) : Page :=
  let p := set_listeners
             (filter (fun r => negb (target_within x (reg_target r))) (listeners p)) p in
  let p := set_timers (map (detach_timer x) (timers p)) p in
  set_scrollAnimationManager
    (option_map (detach_observer x) (scrollAnimationManager p)) p.

Definition setupThemeButton (p : Page) : Page :=
  match theme_toggle E with
  | Some themeButton =>
      let p := replaceWithClone themeButton p in
      addEventListener (Node themeButton) click setup_themeButton_click p
  | None => p
  end.

Definition setupMenuButton (p : Page) : Page :=
  let p := match hamburger_icon E with
           | Some hamburgerIcon => addEventListener (Node hamburgerIcon) click setup_hamburger_click p
           | None => p
           end in
  let p := match menu_overlay E with
           | Some menuOverlay => addEventListener (Node menuOverlay) click (setup_overlay_click menuOverlay) p
           | None => p
           end in
  let p := addEventListener TheDocument keydown setup_document_keydown p in
  fold_left (fun (p : Page) (link : elem) => addEventListener (Node link) click setup_link_click p)
    (menu_link_anchors E) p.

Definition initializeApp (p : Page) : Page :=
  let p := initializeTheme E p in
  let p := setupThemeButton p in
  let p := setupMenuButton p in
  let p := if negb (portfolioApp p)
           then PortfolioApp.init E (set_portfolioApp true p)
           else p in
  let p := match luxuryCursor p with
           | None => let '(this, p) := LuxuryCursor.new E p in set_luxuryCursor (Some this) p
           | Some _ => p
           end in
  match scrollAnimationManager p with
  | None =>
      ScrollAnimationManager.init E
        (set_scrollAnimationManager (Some ScrollAnimationManager.new) p)
  | Some _ => p
  end.

End Startup.

(** ** What can happen to a loaded page *)

Inductive Action :=
  | input (ty : EventType) (x : elem) (k : string) (cx cy : float)
      (* the user clicks, types or moves the pointer on element x *)
  | scrolled (y : N)
      (* the scroll offset changes by the user's hand or by layout *)
  | animation_frame
  | timeout (n : nat)
      (* the n-th pending timer fires *)
  | intersection (entries : list (elem * bool))
      (* the engine reports intersection changes of observed targets *)
  | call_initializeApp
  | call_toggleTheme
  | call_toggleMenu
  | call_handleMenuLink.

Section Behaviour.
Variable E : Env.

Definition animation_frame_callback (p : Page) : Page :=
  match luxuryCursor p with
  | Some this =>
      match animationFrame this with
      | Some _ => let '(this, p) := LuxuryCursor.animate E this p in
                  set_luxuryCursor (Some this) p
      | None => p
      end
  | None => p
  end.

Definition fire (n : nat) (p : Page) : Page :=
  match nth_error (timers p) n with
  | Some t =>
      let p := set_timers (firstn n (timers p) ++ skipn (S n) (timers p)) p in
      ScrollAnimationManager.run_timer t p
  | None => p
  end.

Definition step (a : Action) (p : Page) : Page :=
  match a with
  | input ty x k cx cy =>
      snd (dispatchEvent E (Build_Event ty (Node x) k cx cy false false) p)
  | scrolled y => set_scrollY y p
  | animation_frame => animation_frame_callback p
  | timeout n => fire n p
  | intersection entries => ScrollAnimationManager.callback entries p
  | call_initializeApp => initializeApp E p
  | call_toggleTheme => snd (toggleTheme E None p)
  | call_toggleMenu => snd (toggleMenu E None p)
  | call_handleMenuLink => handleMenuLink E p
  end.

Definition run (acts : list Action) (p : Page) : Page :=
  fold_left (fun (p : Page) (a : Action) => step a p) acts p.

End Behaviour.

(** ** Vocabulary of the statements *)

(** The two ways the script toggles the theme. *)
Inductive ThemeToggle :=
  | by_ThemeManager
  | by_toggleTheme (e : option Event).

Definition theme_toggle_once (E : Env) (t : ThemeToggle) (p : Page) : Page :=
  match t with
  | by_ThemeManager => ThemeManager.toggle E p
  | by_toggleTheme e => snd (toggleTheme E e p)
  end.

Definition theme_toggles (E : Env) (ts : list ThemeToggle) (p : Page) : Page :=
  fold_left (fun (p : Page) (t : ThemeToggle) => theme_toggle_once E t p) ts p.

(** The number a string of decimal digits denotes, read from the left on
    top of the digits already read. *)
Fixpoint uint_value (u : uint) (acc : N) : N :=
  match u with
  | Nil => acc
  | D0 u => uint_value u (10 * acc + 0)
  | D1 u => uint_value u (10 * acc + 1)
  | D2 u => uint_value u (10 * acc + 2)
  | D3 u => uint_value u (10 * acc + 3)
  | D4 u => uint_value u (10 * acc + 4)
  | D5 u => uint_value u (10 * acc + 5)
  | D6 u => uint_value u (10 * acc + 6)
  | D7 u => uint_value u (10 * acc + 7)
  | D8 u => uint_value u (10 * acc + 8)
  | D9 u => uint_value u (10 * acc + 9)
  end%N.

(** An element carries the [animate] marker. *)
Definition animated (x : elem) (p : Page) : bool :=
  classList_contains x "animate" p.

(** The observer of [window.scrollAnimationManager] watches [x]. *)
Definition observed (x : elem) (p : Page) : bool :=
  match scrollAnimationManager p with
  | Some this =>
      match observer this with
      | Some targets => existsb (Nat.eqb x) targets
      | None => false
      end
  | None => false
  end.

(** The state the scroll-reveal of [x] ends in: [x] is marked, the manager
    exists and its observer does not watch [x]. *)
Definition revealed (x : elem) (p : Page) : Prop :=
  animated x p = true /\ observed x p = false /\ scrollAnimationManager p <> None.

(** The three guards of [initializeApp]. *)
Definition has_app (p : Page) : Prop := portfolioApp p = true.
Definition has_cursor (p : Page) : Prop := luxuryCursor p <> None.
Definition has_manager (p : Page) : Prop := scrollAnimationManager p <> None.






(** The same recurrence in exact arithmetic, as the claim reads it, and
    [n] steps of it. *)
Definition ease (lambda pointer position : R) : R :=
  (position + (pointer - position) * lambda)%R.

Fixpoint eases (lambda pointer : R) (n : nat) (position : R) : R :=
  match n with
  | O => position
  | S n => ease lambda pointer (eases lambda pointer n position)
  end.


(** [n] animation frames in a row, with no pointer event in between. *)
Fixpoint ticks (E : Env) (n : nat) (this : LuxuryCursorObj) (p : Page)
    : LuxuryCursorObj * Page :=
  match n with
  | O => (this, p)
  | S n => let '(this, p) := ticks E n this p in LuxuryCursor.animate E this p
  end.

(** The targets whose listeners a dispatch along [path] invokes. *)
Fixpoint reached (E : Env) (path : list EventTarget) (e : Event) (p : Page)
    : list EventTarget :=
  match path with
  | [] => []
  | t :: path =>
      let '(e, p) := invoke E (listeners_at t (type e) p) e p in
      t :: (if propagationStopped e then [] else reached E path e p)
  end.

(** A registration that fits a link area: a click listener on one of the
    elements [below] is a link handler, and one on [menuLinks] is a link
    handler or the propagation stop. *)
Definition fits_link_area (below : list elem) (menuLinks : elem) (r : Registration)
    : bool :=
  match reg_type r, reg_listener r with
  | click, setup_link_click => true
  | click, app_menuLinks_click =>
      negb (existsb (fun y => EventTarget_eqb (reg_target r) (Node y)) below)
  | click, _ =>
      negb (existsb (fun y => EventTarget_eqb (reg_target r) (Node y))
              (below ++ [menuLinks]))
  | _, _ => true
  end.

Definition link_area (below : list elem) (menuLinks : elem) (p : Page) : bool :=
  forallb (fits_link_area below menuLinks) (listeners p).

(** ** A sample page *)

(** A page with nothing on it yet: no class, no text, no inline style, no
    listener, no timer, none of the singletons. *)
Definition blank_page : Page :=
  Build_Page None None (fun _ => []) (fun _ => "") (fun _ => None)
    (Build_Style "" "" "" "" "") 0%N [] [] 0 false None None.

(** A page with a body (element 0), a menu overlay (1) holding the link
    list (2) with one link (3), a hamburger icon (4), a theme button (5)
    holding the theme icon (6), a close hint (7) inside the overlay but
    outside the link list, and two sections tagged for scroll animation
    (8, in the hero, and 9).  Touch input, so no custom cursor. *)
Definition demo_env : Env :=
  Build_Env (Some 5) (Some 6) (Some 4) (Some 1) (Some 2) [3] None None [3; 4; 5]
    [8; 9] [8] 0
    (fun x => match x with
              | 0 => []
              | 2 | 7 => [1; 0]
              | 3 => [2; 1; 0]
              | 6 => [5; 0]
              | _ => [0]
              end)
    true true.

(** The same document on an engine without intersection observation. *)
Definition legacy_env : Env :=
  Build_Env (Some 5) (Some 6) (Some 4) (Some 1) (Some 2) [3] None None [3; 4; 5]
    [8; 9] [8] 0 (ancestors demo_env) true false.

(** The demo page scrolled down by 100 pixels, menu closed. *)
Definition scrolled_page : Page := set_scrollY 100%N blank_page.

(** The demo page with the menu open over a page that was at offset 100:
    what [MenuManager.open] and [window.toggleMenu] both leave, with the
    window at offset 0 while the body is fixed. *)
Definition open_menu_page : Page :=
  set_scrollY 0%N (MenuManager.open demo_env scrolled_page).

(** The demo page once the script has run, on an engine with intersection
    observation. *)
Definition loaded_page : Page := initializeApp demo_env blank_page.


(** The loaded demo page with the menu open. *)
Definition loaded_open_page : Page := MenuManager.open demo_env loaded_page.

(** ** Vocabulary of the further properties *)

(** The icon, when the page has one, shows the glyph of the displayed
    theme. *)
Definition icon_shows_theme (E : Env) (p : Page) : Prop :=
  forall i, theme_icon E = Some i ->
    textContent p i
    = if JS.or_else (data_theme p) "light" =? "dark" then sun_glyph else moon_glyph.

(** The operations on the menu that the script offers. *)
Inductive MenuOp :=
  | op_open
  | op_close
  | op_toggle
  | op_toggleMenu (e : option Event)
  | op_handleMenuLink.

Definition menu_op (E : Env) (o : MenuOp) (p : Page) : Page :=
  match o with
  | op_open => MenuManager.open E p
  | op_close => MenuManager.close E p
  | op_toggle => MenuManager.toggle E p
  | op_toggleMenu e => snd (toggleMenu E e p)
  | op_handleMenuLink => handleMenuLink E p
  end.

(** The body is locked for scrolling, or free of every trace of the lock. *)
Definition body_locked (E : Env) (p : Page) : bool :=
  classList_contains (body E) "menu-open" p
  && (overflow (body_style p) =? "hidden")
  && (position (body_style p) =? "fixed")
  && (width (body_style p) =? "100%").

Definition body_unlocked (E : Env) (p : Page) : bool :=
  negb (classList_contains (body E) "menu-open" p)
  && (overflow (body_style p) =? "")
  && (position (body_style p) =? "")
  && (width (body_style p) =? "")
  && (height (body_style p) =? "").

(** [LuxuryCursor.destroy()]: the handle it passes to
    [cancelAnimationFrame], if it passes one.  A handle is a positive
    number, so [if (this.animationFrame)] holds exactly when one is
    stored. *)
Definition destroy (this : LuxuryCursorObj) : option nat :=
  match animationFrame this with
  | Some (S h) => Some (S h)
  | _ => None
  end.

(** The sample document on a pointer device, with the two cursor elements
    (10 and 11). *)
Definition desktop_env : Env :=
  Build_Env (Some 5) (Some 6) (Some 4) (Some 1) (Some 2) [3] (Some 10) (Some 11)
    [3; 4; 5] [8; 9] [8] 0 (ancestors demo_env) false true.

(** A document with none of the elements the script looks for. *)
Definition bare_env : Env :=
  Build_Env None None None None None [] None None [] [] [] 0 (fun _ => []) true true.



(** The listeners [LuxuryCursor.init] adds, in the order it adds them. *)
Definition cursor_listeners (E : Env) : list Registration :=
  (Build_Registration TheDocument mousemove cursor_mousemove
   :: flat_map
        (fun el : elem =>
           [Build_Registration (Node el) mouseenter cursor_mouseenter;
            Build_Registration (Node el) mouseleave cursor_mouseleave])
        (interactive_elements E)
   ++ [Build_Registration TheDocument mousedown cursor_mousedown;
       Build_Registration TheDocument mouseup cursor_mouseup])%list.

(** Events of two opposite kinds handled one after the other: [true] is the
    kind whose listener puts a marker on the cursor elements, [false] the
    kind whose listener takes it off. *)
Definition hover_listener (b : bool) : Listener :=
  if b then cursor_mouseenter else cursor_mouseleave.

Definition press_listener (b : bool) : Listener :=
  if b then cursor_mousedown else cursor_mouseup.

Definition handle_all (E : Env) (h : bool -> Listener) (evs : list (bool * Event))
    (p : Page) : Page :=
  fold_left
    (fun (p : Page) (be : bool * Event) => snd (handleEvent E (h (fst be)) (snd be) p))
    evs p.

(** The timers the stagger timer sets for the hero elements: the [index]-th
    one is due after [index * 100] ms. *)
Definition hero_reveals (heroElements : list (option elem)) : list Timer :=
  map (fun ie : nat * option elem => hero_reveal (fst ie * 100) (snd ie))
    (combine (seq 0 (List.length heroElements)) heroElements).

(** What [initializeApp] run on [p] has made of the theme and left of the
    menu on a page [q]: the stored theme is displayed and shown by the
    icon, the storage, the body style and the scroll offset are those of
    [p], and so is every class but [active] and [animate]. *)
Definition startup_kept (E : Env) (p q : Page) : Prop :=
  data_theme q = Some (JS.or_else (localStorage_theme p) "light")
  /\ localStorage_theme q = localStorage_theme p
  /\ icon_shows_theme E q
  /\ body_style q = body_style p
  /\ scrollY q = scrollY p
  /\ forall x t, t <> "active" -> t <> "animate" ->
       classList_contains x t q = classList_contains x t p.

(** What [initializeApp] run on [p] has left on a page [q] of a document
    that has none of the script's elements. *)
Definition bare_view (p q : Page) : Prop :=
  listeners q
  = (listeners p ++ [Build_Registration TheDocument keydown setup_document_keydown])%list
  /\ data_theme q = Some (JS.or_else (localStorage_theme p) "light")
  /\ classList q = classList p
  /\ textContent q = textContent p
  /\ style_transform q = style_transform p
  /\ timers q = timers p
  /\ frame_requests q = frame_requests p.

(** * Properties *)

(** ** Theme *)

Section ThemeFacts.
Variable E : Env.

Lemma updateIcon_data_theme theme p :
  data_theme (ThemeManager.updateIcon E theme p) = data_theme p.
Proof. unfold ThemeManager.updateIcon, ThemeManager.getThemeIcon. now destruct (theme_icon E). Qed.

Lemma updateIcon_localStorage theme p :
  localStorage_theme (ThemeManager.updateIcon E theme p) = localStorage_theme p.
Proof. unfold ThemeManager.updateIcon, ThemeManager.getThemeIcon. now destruct (theme_icon E). Qed.

(** The two toggles are the same function of the page. *)
Lemma toggleTheme_is_toggle e p :
  snd (toggleTheme E e p) = ThemeManager.toggle E p.
Proof. reflexivity. Qed.

Lemma toggle_once_is_toggle t p :
  theme_toggle_once E t p = ThemeManager.toggle E p.
Proof. destruct t; reflexivity. Qed.

Lemma toggle_data_theme p :
  data_theme (ThemeManager.toggle E p)
  = Some (if JS.or_else (data_theme p) "light" =? "dark" then "light" else "dark").
Proof. unfold ThemeManager.toggle. now rewrite updateIcon_data_theme. Qed.

Lemma toggle_persists p :
  localStorage_theme (ThemeManager.toggle E p) = data_theme (ThemeManager.toggle E p).
Proof.
  unfold ThemeManager.toggle.
  now rewrite updateIcon_data_theme, updateIcon_localStorage.
Qed.

Lemma toggle_from_dark p :
  data_theme p = Some "dark" -> data_theme (ThemeManager.toggle E p) = Some "light".
Proof. intros H. rewrite toggle_data_theme, H. reflexivity. Qed.

Lemma toggle_from_other p :
  data_theme p <> Some "dark" -> data_theme (ThemeManager.toggle E p) = Some "dark".
Proof.
  intros H. rewrite toggle_data_theme.
  destruct (data_theme p) as [s|]; [|reflexivity].
  unfold JS.or_else. destruct s as [|c s]; [reflexivity|].
  change (JS.truthy (String c s)) with true. cbv iota.
  destruct (String.eqb_spec (String c s) "dark") as [Heq|]; [|reflexivity].
  now rewrite Heq in H.
Qed.

Lemma theme_toggles_snoc ts t p :
  theme_toggles E (ts ++ [t]) p = theme_toggle_once E t (theme_toggles E ts p).
Proof. unfold theme_toggles. now rewrite fold_left_app. Qed.

Lemma theme_toggles_parity ts :
  forall p,
    (data_theme p = Some "light" ->
     data_theme (theme_toggles E ts p)
     = Some (if Nat.even (List.length ts) then "light" else "dark"))
    /\ (data_theme p = Some "dark" ->
        data_theme (theme_toggles E ts p)
        = Some (if Nat.even (List.length ts) then "dark" else "light")).
Proof.
  induction ts as [|t ts IH]; intros p; [now split|].
  change (theme_toggles E (t :: ts) p)
    with (theme_toggles E ts (theme_toggle_once E t p)).
  rewrite toggle_once_is_toggle.
  assert (Hpar : Nat.even (List.length (t :: ts)) = negb (Nat.even (List.length ts))).
  { cbn [List.length]. rewrite Nat.even_succ, <- Nat.negb_even. reflexivity. }
  rewrite Hpar.
  split; intros H.
  - destruct (IH (ThemeManager.toggle E p)) as [_ IHd].
    rewrite IHd by (apply toggle_from_other; rewrite H; discriminate).
    now destruct (Nat.even (List.length ts)).
  - destruct (IH (ThemeManager.toggle E p)) as [IHl _].
    rewrite IHl by now apply toggle_from_dark.
    now destruct (Nat.even (List.length ts)).
Qed.

(** C1.  From the default state (attribute [light], nothing stored), after
    any sequence of N toggles, each made by [ThemeManager.toggle] or by
    [window.toggleTheme], the attribute is [light] when N is even and [dark]
    when N is odd; after the last toggle of a non-empty sequence the stored
    value is the attribute; and one toggle, from any page, turns [dark] into
    [light] and anything else into [dark], and stores what it applied. *)
Theorem theme_toggle_sequence (ts : list ThemeToggle) (p : Page) :
  data_theme p = Some "light" ->
  localStorage_theme p = None ->
  data_theme (theme_toggles E ts p)
  = Some (if Nat.even (List.length ts) then "light" else "dark")
  /\ (ts <> [] ->
      localStorage_theme (theme_toggles E ts p) = data_theme (theme_toggles E ts p))
  /\ (forall (t : ThemeToggle) (q : Page),
        (data_theme q = Some "dark" ->
         data_theme (theme_toggle_once E t q) = Some "light")
        /\ (data_theme q <> Some "dark" ->
            data_theme (theme_toggle_once E t q) = Some "dark")
        /\ localStorage_theme (theme_toggle_once E t q)
           = data_theme (theme_toggle_once E t q)).
Proof.
  intros Hlight _. split; [|split].
  - now apply theme_toggles_parity.
  - intros Hne. destruct (exists_last Hne) as (ts' & t & ->).
    rewrite theme_toggles_snoc, toggle_once_is_toggle. apply toggle_persists.
  - intros t q. rewrite toggle_once_is_toggle.
    auto using toggle_from_dark, toggle_from_other, toggle_persists.
Qed.

End ThemeFacts.

(** Three toggles from the default state of the demo page, the second one
    through the global function with no event. *)
Lemma theme_toggle_sequence_witness :
  data_theme (theme_toggles demo_env
                [by_ThemeManager; by_toggleTheme None; by_ThemeManager]
                (set_data_theme (Some "light") blank_page))
  = Some "dark".
Proof.
  exact (proj1 (theme_toggle_sequence demo_env
                  [by_ThemeManager; by_toggleTheme None; by_ThemeManager]
                  (set_data_theme (Some "light") blank_page)
                  eq_refl eq_refl)).
Defined.

Section StartupTheme.
Variable E : Env.

Lemma init_data_theme p :
  data_theme (ThemeManager.init E p) = Some (JS.or_else (localStorage_theme p) "light").
Proof. unfold ThemeManager.init. now rewrite updateIcon_data_theme. Qed.

Lemma init_icon p i :
  theme_icon E = Some i ->
  textContent (ThemeManager.init E p) i
  = if JS.or_else (localStorage_theme p) "light" =? "dark" then sun_glyph else moon_glyph.
Proof.
  intros Hi. unfold ThemeManager.init, ThemeManager.updateIcon, ThemeManager.getThemeIcon.
  rewrite Hi. cbn. unfold update. now rewrite Nat.eqb_refl.
Qed.

Lemma or_else_nonempty s d : s <> "" -> JS.or_else (Some s) d = s.
Proof. destruct s; [congruence|reflexivity]. Qed.

(** C3, as the script has it.  At startup [init] applies the stored value
    itself whenever it is a non-empty string, recognised or not, and the
    default [light] only when nothing or the empty string is stored.  The
    icon, when the page has one, is the sun exactly when the applied value is
    [dark] and the moon otherwise.  [init] writes nothing to the store, and
    [initializeTheme] does the same as [init]. *)
Theorem init_applies_stored_theme (p : Page) :
  ((localStorage_theme p = None \/ localStorage_theme p = Some "") ->
   data_theme (ThemeManager.init E p) = Some "light"
   /\ forall i, theme_icon E = Some i ->
                textContent (ThemeManager.init E p) i = moon_glyph)
  /\ (localStorage_theme p = Some "dark" ->
      data_theme (ThemeManager.init E p) = Some "dark"
      /\ forall i, theme_icon E = Some i ->
                   textContent (ThemeManager.init E p) i = sun_glyph)
  /\ (forall s, localStorage_theme p = Some s -> s <> "" ->
        data_theme (ThemeManager.init E p) = Some s
        /\ (s <> "dark" ->
            forall i, theme_icon E = Some i ->
                      textContent (ThemeManager.init E p) i = moon_glyph))
  /\ localStorage_theme (ThemeManager.init E p) = localStorage_theme p
  /\ initializeTheme E p = ThemeManager.init E p.
Proof.
  repeat split.
  - rewrite init_data_theme. now destruct H as [-> | ->].
  - intros i Hi. rewrite (init_icon _ _ Hi). now destruct H as [-> | ->].
  - rewrite init_data_theme, H. reflexivity.
  - intros i Hi. rewrite (init_icon _ _ Hi), H. reflexivity.
  - rewrite init_data_theme, H. now rewrite or_else_nonempty.
  - intros Hd i Hi. rewrite (init_icon _ _ Hi), H, or_else_nonempty by assumption.
    now destruct (String.eqb_spec s "dark").
  - unfold ThemeManager.init. now rewrite updateIcon_localStorage.
Qed.

End StartupTheme.

(** C3 as stated fails: with [blue] stored, [init] shows [blue], not the
    default. *)
Lemma init_unrecognized_counterexample :
  ~ (forall (E : Env) (p : Page) (s : string),
       localStorage_theme p = Some s -> s <> "light" -> s <> "dark" ->
       data_theme (ThemeManager.init E p) = Some "light").
Proof.
  intros H.
  specialize (H demo_env (set_localStorage_theme (Some "blue") blank_page) "blue"
                eq_refl).
  cbn in H. discriminate H; discriminate.
Qed.

(** ** Writing the scroll offset into [top] and reading it back *)

Module JSFacts.

Lemma digits_px u : forall acc,
  JS.digits 10 (NilEmpty.string_of_uint u ++ "px") (Some acc)
  = Some (uint_value u acc).
Proof.
  induction u; intros acc; cbn [NilEmpty.string_of_uint append uint_value];
    try reflexivity;
    (cbn [JS.digits]; match goal with |- context [JS.digitValue ?c] =>
       let v := eval vm_compute in (JS.digitValue c) in
       change (JS.digitValue c) with v end;
     cbv iota; match goal with |- context [N.ltb ?a 10] =>
       change (N.ltb a 10) with true end;
     cbv iota; apply IHu).
Qed.

Lemma of_uint_acc_value u : forall acc,
  N.pos (Pos.of_uint_acc u acc) = uint_value u (N.pos acc).
Proof.
  induction u; intros acc; cbn [Pos.of_uint_acc uint_value]; try reflexivity;
    rewrite IHu; f_equal; lia.
Qed.

Lemma of_uint_value u : N.of_uint u = uint_value u 0.
Proof.
  unfold N.of_uint.
  induction u; cbn [Pos.of_uint uint_value]; try reflexivity;
    try (rewrite of_uint_acc_value; reflexivity).
  exact IHu.
Qed.

Lemma to_uint_nonnil n : N.to_uint n <> Nil.
Proof.
  destruct n as [|p]; [discriminate|].
  cbn [N.to_uint]. apply DecimalPos.Unsigned.to_uint_nonnil.
Qed.

(** [parseInt(`-${n}px`)] is [-n], for every offset [n]. *)
Lemma parseInt_top (n : N) :
  JS.parseInt ("-" ++ JS.toString n ++ "px") = Some (- Z.of_N n)%Z.
Proof.
  unfold JS.toString.
  assert (Hv : uint_value (N.to_uint n) 0 = n)
    by (rewrite <- of_uint_value; apply DecimalN.Unsigned.of_to).
  pose proof (to_uint_nonnil n) as Hnil.
  destruct (N.to_uint n) as [|u|u|u|u|u|u|u|u|u|u]; [congruence| ..];
    unfold JS.parseInt;
    cbn [append NilEmpty.string_of_uint JS.trimStart];
    match goal with |- context [JS.isWhiteSpace ?c] =>
      change (JS.isWhiteSpace c) with false end; cbv iota.
  1: destruct u as [|u|u|u|u|u|u|u|u|u|u].
  all: cbn [append NilEmpty.string_of_uint JS.digits];
    repeat match goal with |- context [JS.digitValue ?c] =>
      let v := eval vm_compute in (JS.digitValue c) in
      change (JS.digitValue c) with v end;
    cbv iota;
    repeat match goal with |- context [N.ltb ?a 10] =>
      change (N.ltb a 10) with true end;
    cbv iota;
    try rewrite digits_px;
    cbn [uint_value] in Hv;
    try (rewrite Hv; f_equal; lia);
    try (subst n; reflexivity).
Qed.

Lemma truthy_top (n : N) : JS.truthy ("-" ++ JS.toString n ++ "px") = true.
Proof. reflexivity. Qed.

End JSFacts.

(** ** Class lists *)

Lemma contains_add_same l t : DOMTokenList.contains (DOMTokenList.add l t) t = true.
Proof.
  unfold DOMTokenList.add. destruct (DOMTokenList.contains l t) eqn:H; [exact H|].
  unfold DOMTokenList.contains. rewrite existsb_app. cbn.
  now rewrite String.eqb_refl, orb_true_r.
Qed.

Lemma contains_add_mono l t t' :
  DOMTokenList.contains l t = true -> DOMTokenList.contains (DOMTokenList.add l t') t = true.
Proof.
  intros H. unfold DOMTokenList.add. destruct (DOMTokenList.contains l t'); [exact H|].
  unfold DOMTokenList.contains in *. now rewrite existsb_app, H.
Qed.

Lemma contains_remove_same l t :
  DOMTokenList.contains (DOMTokenList.remove l t) t = false.
Proof.
  unfold DOMTokenList.contains, DOMTokenList.remove.
  induction l as [|a l IH]; [reflexivity|]. cbn.
  destruct (String.eqb_spec a t) as [->|Hne]; cbn; [exact IH|].
  rewrite IH, orb_false_r. apply String.eqb_neq. congruence.
Qed.

Lemma contains_remove_mono l t t' :
  DOMTokenList.contains l t = false -> DOMTokenList.contains (DOMTokenList.remove l t') t = false.
Proof.
  unfold DOMTokenList.contains, DOMTokenList.remove.
  induction l as [|a l IH]; [reflexivity|]. cbn. intros H.
  apply orb_false_iff in H as [Ha Hl].
  destruct (negb (a =? t')); cbn; [rewrite Ha|]; auto.
Qed.

Lemma classList_contains_add x y t t' p :
  classList_contains x t p = true -> classList_contains x t (classList_add y t' p) = true.
Proof.
  unfold classList_contains, classList_add. cbn. unfold update. intros H.
  destruct (Nat.eqb_spec x y) as [->|]; [now apply contains_add_mono|exact H].
Qed.

Lemma classList_contains_add_same x t p :
  classList_contains x t (classList_add x t p) = true.
Proof.
  unfold classList_contains, classList_add. cbn. unfold update.
  rewrite Nat.eqb_refl. apply contains_add_same.
Qed.

Lemma classList_contains_remove x y t t' p :
  classList_contains x t p = false ->
  classList_contains x t (classList_remove y t' p) = false.
Proof.
  unfold classList_contains, classList_remove. cbn. unfold update. intros H.
  destruct (Nat.eqb_spec x y) as [->|]; [now apply contains_remove_mono|exact H].
Qed.

Lemma classList_contains_remove_same x t p :
  classList_contains x t (classList_remove x t p) = false.
Proof.
  unfold classList_contains, classList_remove. cbn. unfold update.
  rewrite Nat.eqb_refl. apply contains_remove_same.
Qed.

(** ** Menu *)

Section MenuFacts.
Variable E : Env.
Variables overlay icon : elem.
Hypothesis Hoverlay : menu_overlay E = Some overlay.
Hypothesis Hicon : hamburger_icon E = Some icon.

Lemma open_top p :
  top (body_style (MenuManager.open E p)) = "-" ++ JS.toString (scrollY p) ++ "px".
Proof.
  unfold MenuManager.open, MenuManager.getOverlay, MenuManager.getIcon.
  rewrite Hoverlay, Hicon. reflexivity.
Qed.

Lemma open_is_open p : classList_contains overlay "open" (MenuManager.open E p) = true.
Proof.
  unfold MenuManager.open, MenuManager.getOverlay, MenuManager.getIcon.
  rewrite Hoverlay, Hicon. cbv zeta.
  change (classList_contains overlay "open"
            (classList_add (body E) "menu-open"
               (classList_add icon "open" (classList_add overlay "open" p))) = true).
  do 2 apply classList_contains_add. apply classList_contains_add_same.
Qed.

Lemma toggle_closed p :
  classList_contains overlay "open" p = false ->
  MenuManager.toggle E p = MenuManager.open E p.
Proof.
  intros H. unfold MenuManager.toggle, MenuManager.getOverlay, MenuManager.getIcon.
  now rewrite Hoverlay, Hicon, H.
Qed.

Lemma toggle_open p :
  classList_contains overlay "open" p = true ->
  MenuManager.toggle E p = MenuManager.close E p.
Proof.
  intros H. unfold MenuManager.toggle, MenuManager.getOverlay, MenuManager.getIcon.
  now rewrite Hoverlay, Hicon, H.
Qed.

(** On a closed menu the global function does what [MenuManager.open] does. *)
Lemma toggleMenu_closed e p :
  classList_contains overlay "open" p = false ->
  snd (toggleMenu E e p) = MenuManager.open E p.
Proof.
  intros H. unfold toggleMenu, MenuManager.open, MenuManager.getOverlay, MenuManager.getIcon.
  now rewrite Hoverlay, Hicon, H.
Qed.

End MenuFacts.

Section CloseFacts.
Variable E : Env.

Lemma handleMenuLink_is_close p : handleMenuLink E p = MenuManager.close E p.
Proof.
  unfold handleMenuLink, MenuManager.close, MenuManager.getOverlay, MenuManager.getIcon.
  destruct (menu_overlay E), (hamburger_icon E); reflexivity.
Qed.

Lemma close_scrollY p :
  scrollY (MenuManager.close E p)
  = if JS.truthy (top (body_style p))
    then match JS.parseInt (top (body_style p)) with
         | Some v => Z.to_N (v * -1)
         | None => 0%N
         end
    else scrollY p.
Proof.
  unfold MenuManager.close, MenuManager.getOverlay, MenuManager.getIcon.
  destruct (menu_overlay E), (hamburger_icon E); cbv zeta;
    destruct (top (body_style p)) as [|c s] eqn:Htop; cbn [JS.truthy]; cbv iota;
    try reflexivity;
    cbn [JS.or_else JS.truthy]; unfold scrollTo, JS.times;
    destruct (JS.parseInt (String c s)); reflexivity.
Qed.

(** [close] scrolls the window to the offset written in [top]. *)
Lemma close_restores p n :
  top (body_style p) = "-" ++ JS.toString n ++ "px" ->
  scrollY (MenuManager.close E p) = n.
Proof.
  intros H. rewrite close_scrollY, H, JSFacts.truthy_top, JSFacts.parseInt_top. lia.
Qed.

(** With nothing written in [top], [close] does not scroll. *)
Lemma close_idle p :
  top (body_style p) = "" -> scrollY (MenuManager.close E p) = scrollY p.
Proof. intros H. now rewrite close_scrollY, H. Qed.

Lemma close_clears_top p : top (body_style (MenuManager.close E p)) = "".
Proof.
  unfold MenuManager.close, MenuManager.getOverlay, MenuManager.getIcon.
  destruct (menu_overlay E), (hamburger_icon E); cbv zeta;
    destruct (JS.truthy (top (body_style p))); reflexivity.
Qed.

Lemma close_is_closed p x :
  menu_overlay E = Some x ->
  classList_contains x "open" (MenuManager.close E p) = false.
Proof.
  intros Hx. unfold MenuManager.close, MenuManager.getOverlay, MenuManager.getIcon.
  rewrite Hx. cbv zeta.
  assert (H : forall q, classList_contains x "open"
                (classList_remove (body E) "menu-open"
                   (match hamburger_icon E with
                    | Some i => classList_remove i "open" (classList_remove x "open" q)
                    | None => classList_remove x "open" q
                    end)) = false).
  { intros q. apply classList_contains_remove.
    destruct (hamburger_icon E); [apply classList_contains_remove|];
      apply classList_contains_remove_same. }
  destruct (JS.truthy (top (body_style p))); apply H.
Qed.

End CloseFacts.

Section ToggleMenuFacts.
Variable E : Env.
Variables overlay icon : elem.
Hypothesis Hoverlay : menu_overlay E = Some overlay.
Hypothesis Hicon : hamburger_icon E = Some icon.

(** The closing branch of [window.toggleMenu] writes neither [top] nor the
    scroll offset. *)
Lemma toggleMenu_open_keeps e p :
  classList_contains overlay "open" p = true ->
  scrollY (snd (toggleMenu E e p)) = scrollY p
  /\ top (body_style (snd (toggleMenu E e p))) = top (body_style p).
Proof.
  intros H. unfold toggleMenu. rewrite Hoverlay, Hicon, H. now split.
Qed.

Lemma toggleMenu_open_is_closed e p :
  classList_contains overlay "open" p = true ->
  classList_contains overlay "open" (snd (toggleMenu E e p)) = false.
Proof.
  intros H. unfold toggleMenu. rewrite Hoverlay, Hicon, H. cbv zeta.
  change (classList_contains overlay "open"
            (classList_remove (body E) "menu-open"
               (classList_remove icon "open" (classList_remove overlay "open" p)))
          = false).
  do 2 apply classList_contains_remove. apply classList_contains_remove_same.
Qed.

(** Where the two closing paths agree: class lists and the four style
    properties both reset. *)
Lemma toggleMenu_open_agrees e p :
  classList_contains overlay "open" p = true ->
  classList (snd (toggleMenu E e p)) = classList (MenuManager.close E p)
  /\ overflow (body_style (snd (toggleMenu E e p))) = overflow (body_style (MenuManager.close E p))
  /\ position (body_style (snd (toggleMenu E e p))) = position (body_style (MenuManager.close E p))
  /\ width (body_style (snd (toggleMenu E e p))) = width (body_style (MenuManager.close E p))
  /\ height (body_style (snd (toggleMenu E e p))) = height (body_style (MenuManager.close E p)).
Proof.
  intros H. unfold toggleMenu, MenuManager.close, MenuManager.getOverlay, MenuManager.getIcon.
  rewrite Hoverlay, Hicon, H. cbv zeta.
  destruct (JS.truthy (top (body_style p))); repeat split.
Qed.

End ToggleMenuFacts.

(** C2, on the failing path.  On a closed menu both opening paths are
    [MenuManager.open], which writes the offset S into [top].  Whatever
    offset [y] the window has while the body is fixed, closing with
    [MenuManager.close], [MenuManager.toggle] or [handleMenuLink] scrolls
    back to S; closing with [window.toggleMenu] leaves the window at [y] and
    the offset still written in [top]. *)
Theorem menu_round_trip (E : Env) (overlay icon : elem) (p : Page) (y : N) :
  menu_overlay E = Some overlay ->
  hamburger_icon E = Some icon ->
  classList_contains overlay "open" p = false ->
  let opened := set_scrollY y (MenuManager.open E p) in
  snd (toggleMenu E None p) = MenuManager.open E p
  /\ MenuManager.toggle E p = MenuManager.open E p
  /\ scrollY (MenuManager.close E opened) = scrollY p
  /\ scrollY (MenuManager.toggle E opened) = scrollY p
  /\ scrollY (handleMenuLink E opened) = scrollY p
  /\ scrollY (snd (toggleMenu E None opened)) = y
  /\ top (body_style (snd (toggleMenu E None opened)))
     = "-" ++ JS.toString (scrollY p) ++ "px".
Proof.
  intros Hov Hic Hclosed opened.
  assert (Hopen : classList_contains overlay "open" opened = true)
    by apply (open_is_open E overlay icon Hov Hic p).
  assert (Htop : top (body_style opened) = "-" ++ JS.toString (scrollY p) ++ "px")
    by apply (open_top E overlay icon Hov Hic p).
  assert (Hclose : scrollY (MenuManager.close E opened) = scrollY p)
    by now apply close_restores.
  destruct (toggleMenu_open_keeps E overlay icon Hov Hic None opened Hopen) as [Hy Ht].
  repeat split.
  - now apply (toggleMenu_closed E overlay icon).
  - now apply (toggle_closed E overlay icon).
  - exact Hclose.
  - now rewrite (toggle_open E overlay icon Hov Hic opened Hopen).
  - now rewrite handleMenuLink_is_close.
  - exact Hy.
  - now rewrite Ht.
Qed.

(** At offset 100 on the demo page, with the window at 0 while the menu is
    open: the class-based close scrolls back to 100, the global toggle
    leaves the window at 0 and [-100px] in [top]. *)
Lemma menu_round_trip_witness :
  scrollY (MenuManager.close demo_env open_menu_page) = 100%N
  /\ scrollY (snd (toggleMenu demo_env None open_menu_page)) = 0%N
  /\ top (body_style (snd (toggleMenu demo_env None open_menu_page))) = "-100px".
Proof.
  pose proof (menu_round_trip demo_env 1 4 scrolled_page 0%N eq_refl eq_refl eq_refl)
    as (_ & _ & Hclose & _ & _ & Hy & Htop).
  exact (conj Hclose (conj Hy Htop)).
Defined.

(** The same on the loaded demo page, through the listeners.  The page is
    at offset 100, the menu is opened, the window is at 0 while the body is
    fixed.  The Escape key, which only [window.toggleMenu] handles, closes
    the menu and leaves the window at 0 with [-100px] in [top]; a click on
    the backdrop, which both overlay listeners handle, ends at offset 100
    with [top] cleared. *)
Lemma escape_key_keeps_offset :
  MenuManager.isOpen demo_env
    (run demo_env [scrolled 100%N; call_toggleMenu; scrolled 0%N;
                   input keydown 0 "Escape" 0 0] loaded_page) = false
  /\ scrollY
       (run demo_env [scrolled 100%N; call_toggleMenu; scrolled 0%N;
                      input keydown 0 "Escape" 0 0] loaded_page) = 0%N
  /\ top (body_style
            (run demo_env [scrolled 100%N; call_toggleMenu; scrolled 0%N;
                           input keydown 0 "Escape" 0 0] loaded_page)) = "-100px"
  /\ scrollY
       (run demo_env [scrolled 100%N; call_toggleMenu; scrolled 0%N;
                      input click 1 "" 0 0] loaded_page) = 100%N
  /\ top (body_style
            (run demo_env [scrolled 100%N; call_toggleMenu; scrolled 0%N;
                           input click 1 "" 0 0] loaded_page)) = "".
Proof. repeat split; vm_compute; reflexivity. Qed.

(** C4, on the failing path.  [close] is a total function of the page: no
    access in it can fail.  When [top] is empty, as [MenuManager.close]
    and [handleMenuLink] leave it, [close] does not scroll.  After the
    menu was opened at offset S and closed by [window.toggleMenu], the menu
    is closed but [top] still holds S: when the page has since been scrolled
    to [y], calling [close] moves the window back to S. *)
Theorem close_when_closed (E : Env) (overlay icon : elem) (p : Page) (y : N) :
  menu_overlay E = Some overlay ->
  hamburger_icon E = Some icon ->
  classList_contains overlay "open" p = false ->
  let q := run E [call_toggleMenu; call_toggleMenu; scrolled y] p in
  (forall r, top (body_style r) = "" -> scrollY (MenuManager.close E r) = scrollY r)
  /\ (forall r, scrollY (MenuManager.close E (MenuManager.close E r))
                = scrollY (MenuManager.close E r))
  /\ (forall r, scrollY (MenuManager.close E (handleMenuLink E r))
                = scrollY (handleMenuLink E r))
  /\ MenuManager.isOpen E q = false
  /\ scrollY q = y
  /\ scrollY (MenuManager.close E q) = scrollY p.
Proof.
  intros Hov Hic Hclosed q.
  split; [exact (close_idle E)|].
  split; [intros r; apply close_idle, close_clears_top|].
  split; [intros r; rewrite handleMenuLink_is_close; apply close_idle, close_clears_top|].
  assert (Hopen : classList_contains overlay "open" (snd (toggleMenu E None p)) = true).
  { rewrite (toggleMenu_closed E overlay icon Hov Hic None p Hclosed).
    apply (open_is_open E overlay icon Hov Hic). }
  destruct (toggleMenu_open_keeps E overlay icon Hov Hic None _ Hopen) as [_ Ht].
  rewrite (toggleMenu_closed E overlay icon Hov Hic None p Hclosed) in Ht at 2.
  rewrite (open_top E overlay icon Hov Hic) in Ht.
  repeat split.
  - unfold MenuManager.isOpen, MenuManager.getOverlay. rewrite Hov, orb_false_r.
    apply (toggleMenu_open_is_closed E overlay icon Hov Hic None _ Hopen).
  - apply close_restores. exact Ht.
Qed.

(** The demo page at offset 100: the menu is opened and closed by the
    global toggle, the user scrolls to 500, and [close] on the closed menu
    moves the window to 100. *)
Lemma close_when_closed_witness :
  MenuManager.isOpen demo_env
    (run demo_env [call_toggleMenu; call_toggleMenu; scrolled 500%N] scrolled_page) = false
  /\ scrollY (run demo_env [call_toggleMenu; call_toggleMenu; scrolled 500%N] scrolled_page)
     = 500%N
  /\ scrollY (MenuManager.close demo_env
                (run demo_env [call_toggleMenu; call_toggleMenu; scrolled 500%N]
                   scrolled_page)) = 100%N.
Proof.
  pose proof (close_when_closed demo_env 1 4 scrolled_page 500%N eq_refl eq_refl eq_refl)
    as (_ & _ & _ & Hclosed & Hy & Hjump).
  exact (conj Hclosed (conj Hy Hjump)).
Defined.

(** C5, on the failing path.  The two theme toggles are one function of the
    page, and on a closed menu so are the two menu toggles.  On an open
    menu with offset [n] written in [top] they agree on the class lists and
    on four style properties, and differ on the other two results:
    [MenuManager.toggle] clears [top] and scrolls to [n], the global
    [toggleMenu] leaves both as they were. *)
Theorem toggle_implementations (E : Env) (overlay icon : elem) (p : Page) (n : N) :
  menu_overlay E = Some overlay ->
  hamburger_icon E = Some icon ->
  classList_contains overlay "open" p = true ->
  top (body_style p) = "-" ++ JS.toString n ++ "px" ->
  (forall e q, snd (toggleTheme E e q) = ThemeManager.toggle E q)
  /\ (forall e q, classList_contains overlay "open" q = false ->
                  snd (toggleMenu E e q) = MenuManager.toggle E q)
  /\ classList (snd (toggleMenu E None p)) = classList (MenuManager.toggle E p)
  /\ overflow (body_style (snd (toggleMenu E None p)))
     = overflow (body_style (MenuManager.toggle E p))
  /\ position (body_style (snd (toggleMenu E None p)))
     = position (body_style (MenuManager.toggle E p))
  /\ width (body_style (snd (toggleMenu E None p)))
     = width (body_style (MenuManager.toggle E p))
  /\ height (body_style (snd (toggleMenu E None p)))
     = height (body_style (MenuManager.toggle E p))
  /\ top (body_style (MenuManager.toggle E p)) = ""
  /\ top (body_style (snd (toggleMenu E None p))) = "-" ++ JS.toString n ++ "px"
  /\ scrollY (MenuManager.toggle E p) = n
  /\ scrollY (snd (toggleMenu E None p)) = scrollY p.
Proof.
  intros Hov Hic Hopen Htop.
  rewrite (toggle_open E overlay icon Hov Hic p Hopen).
  destruct (toggleMenu_open_keeps E overlay icon Hov Hic None p Hopen) as [Hy Ht].
  destruct (toggleMenu_open_agrees E overlay icon Hov Hic None p Hopen)
    as (Hc & Ho & Hp & Hw & Hh).
  split; [intros e q; apply toggleTheme_is_toggle|].
  split.
  { intros e q Hq. rewrite (toggleMenu_closed E overlay icon Hov Hic e q Hq).
    symmetry. now apply (toggle_closed E overlay icon). }
  repeat split; try assumption.
  - apply close_clears_top.
  - now rewrite Ht.
  - now apply close_restores.
Qed.

(** The demo page with the menu open over offset 100 and the window at 0:
    the class-based toggle ends at offset 100 with [top] cleared, the global
    one at offset 0 with [-100px] still in [top]. *)
Lemma toggle_implementations_witness :
  scrollY (MenuManager.toggle demo_env open_menu_page) = 100%N
  /\ scrollY (snd (toggleMenu demo_env None open_menu_page)) = scrollY open_menu_page
  /\ top (body_style (MenuManager.toggle demo_env open_menu_page)) = ""
  /\ top (body_style (snd (toggleMenu demo_env None open_menu_page))) = "-100px".
Proof.
  pose proof (toggle_implementations demo_env 1 4 open_menu_page 100%N
                eq_refl eq_refl eq_refl eq_refl)
    as (_ & _ & _ & _ & _ & _ & _ & Htop & Htop' & Hy & Hy').
  exact (conj Hy (conj Hy' (conj Htop Htop'))).
Defined.

(** ** Scroll animation *)

Section RevealFacts.
Variable E : Env.

Lemma animated_add x y t p :
  animated x p = true -> animated x (classList_add y t p) = true.
Proof. apply classList_contains_add. Qed.

Lemma mark_all_keeps l : forall p x,
  animated x p = true ->
  animated x (fold_left (fun (p : Page) (el : elem) => classList_add el "animate" p) l p)
  = true.
Proof.
  induction l as [|a l IH]; intros p x H; [exact H|].
  cbn [fold_left]. apply IH. now apply animated_add.
Qed.

Lemma mark_all_marks l : forall p x,
  In x l ->
  animated x (fold_left (fun (p : Page) (el : elem) => classList_add el "animate" p) l p)
  = true.
Proof.
  induction l as [|a l IH]; intros p x Hin; [destruct Hin|].
  cbn [fold_left]. destruct Hin as [->|Hin]; [|now apply IH].
  apply mark_all_keeps. apply classList_contains_add_same.
Qed.

Lemma mark_all_elsewhere l : forall p x,
  ~ In x l ->
  classList (fold_left (fun (p : Page) (el : elem) => classList_add el "animate" p) l p) x
  = classList p x.
Proof.
  induction l as [|a l IH]; intros p x Hin; [reflexivity|].
  cbn [fold_left]. rewrite IH by (intros H; apply Hin; now right).
  cbn. unfold update. destruct (Nat.eqb_spec x a) as [->|]; [|reflexivity].
  exfalso. apply Hin. now left.
Qed.

Lemma mark_all_frame l : forall p,
  let p' := fold_left (fun (p : Page) (el : elem) => classList_add el "animate" p) l p in
  scrollAnimationManager p' = scrollAnimationManager p
  /\ timers p' = timers p
  /\ listeners p' = listeners p.
Proof.
  induction l as [|a l IH]; intros p; [now repeat split|].
  cbn [fold_left]. apply (IH (classList_add a "animate" p)).
Qed.

(** C9.  Without intersection observation, [init] on the freshly built
    manager returns with every tagged element marked; the manager's
    observer is still [null], no timer was set and no listener added, and
    no other element's classes changed. *)
Theorem init_without_observer (p : Page) :
  has_IntersectionObserver E = false ->
  scrollAnimationManager p = Some ScrollAnimationManager.new ->
  (forall x, In x (scroll_animate E) ->
             animated x (ScrollAnimationManager.init E p) = true)
  /\ scrollAnimationManager (ScrollAnimationManager.init E p)
     = Some (Build_ScrollAnimationManagerObj None)
  /\ (forall x, observed x (ScrollAnimationManager.init E p) = false)
  /\ timers (ScrollAnimationManager.init E p) = timers p
  /\ listeners (ScrollAnimationManager.init E p) = listeners p
  /\ (forall x, ~ In x (scroll_animate E) ->
                classList (ScrollAnimationManager.init E p) x = classList p x).
Proof.
  intros Hno Hnew. unfold ScrollAnimationManager.init. rewrite Hnew, Hno. cbn [negb].
  destruct (mark_all_frame (scroll_animate E) p) as (Hm & Ht & Hl).
  repeat split.
  - intros x Hx. now apply mark_all_marks.
  - now rewrite Hm, Hnew.
  - intros x. unfold observed. now rewrite Hm, Hnew.
  - exact Ht.
  - exact Hl.
  - intros x Hx. now apply mark_all_elsewhere.
Qed.

End RevealFacts.

(** On the engine without observation both tagged sections of the demo page
    are marked when [init] returns, and nothing is observed. *)
Lemma init_without_observer_witness :
  animated 8 (ScrollAnimationManager.init legacy_env
                (set_scrollAnimationManager (Some ScrollAnimationManager.new) blank_page))
  = true
  /\ animated 9 (ScrollAnimationManager.init legacy_env
                   (set_scrollAnimationManager (Some ScrollAnimationManager.new) blank_page))
     = true
  /\ timers (ScrollAnimationManager.init legacy_env
               (set_scrollAnimationManager (Some ScrollAnimationManager.new) blank_page))
     = [].
Proof.
  pose proof (init_without_observer legacy_env
                (set_scrollAnimationManager (Some ScrollAnimationManager.new) blank_page)
                eq_refl eq_refl) as (Hmark & _ & _ & Ht & _).
  exact (conj (Hmark 8 (or_introl eq_refl))
           (conj (Hmark 9 (or_intror (or_introl eq_refl))) Ht)).
Defined.

(** A property that every step of a fold keeps is kept by the fold. *)
Lemma fold_left_keeps {A} (P : Page -> Prop) (f : Page -> A -> Page) :
  (forall p a, P p -> P (f p a)) ->
  forall l p, P p -> P (fold_left f l p).
Proof.
  intros Hf l. induction l as [|a l IH]; intros p H; [exact H|].
  cbn [fold_left]. apply IH, Hf, H.
Qed.

Section RevealInvariant.
Variable E : Env.
Variable x : elem.

Lemma revealed_add y t p : revealed x p -> revealed x (classList_add y t p).
Proof.
  intros (Ha & Ho & Hm). repeat split; [|exact Ho|exact Hm].
  now apply animated_add.
Qed.

Lemma animated_remove y t p :
  t <> "animate" -> animated x p = true -> animated x (classList_remove y t p) = true.
Proof.
  intros Ht. unfold animated, classList_contains, classList_remove. cbn. unfold update.
  destruct (Nat.eqb_spec x y) as [->|]; [|auto].
  unfold DOMTokenList.contains, DOMTokenList.remove.
  rewrite !existsb_exists. intros (s & Hin & Hs). exists s. split; [|exact Hs].
  apply filter_In. split; [exact Hin|].
  apply String.eqb_eq in Hs. subst s.
  apply negb_true_iff, String.eqb_neq. congruence.
Qed.

Lemma revealed_remove y t p :
  t <> "animate" -> revealed x p -> revealed x (classList_remove y t p).
Proof.
  intros Ht (Ha & Ho & Hm). repeat split; [|exact Ho|exact Hm].
  now apply animated_remove.
Qed.

Lemma existsb_filter_false (f : elem -> bool) l :
  existsb (Nat.eqb x) l = false -> existsb (Nat.eqb x) (filter f l) = false.
Proof.
  induction l as [|a l IH]; [reflexivity|]. cbn. intros H.
  apply orb_false_iff in H as [Ha Hl].
  destruct (f a); cbn; [rewrite Ha|]; auto.
Qed.

Lemma revealed_unobserve y this p :
  scrollAnimationManager p = Some this ->
  revealed x p ->
  revealed x (set_scrollAnimationManager (Some (ScrollAnimationManager.unobserve y this)) p).
Proof.
  intros Hthis (Ha & Ho & Hm). repeat split; [exact Ha| |discriminate].
  unfold observed in *. rewrite Hthis in Ho. cbn.
  unfold ScrollAnimationManager.unobserve.
  destruct (observer this) as [targets|] eqn:Hobs; cbn; [|now rewrite Hobs].
  now apply existsb_filter_false.
Qed.

(** One step of a proof that a function of the page keeps [revealed]. *)
Ltac reveal_step :=
  match goal with
  | H : revealed _ ?p |- revealed _ ?p => exact H
  | |- revealed _ (classList_add _ _ _) => apply revealed_add
  | |- revealed _ (classList_remove _ _ _) => apply revealed_remove; [discriminate|]
  | |- revealed ?y (fold_left _ _ _) =>
      apply (fold_left_keeps (revealed y)); [intros ? ?; intro|]
  | |- revealed _ (match ?o with _ => _ end) => destruct o eqn:?
  | |- revealed _ (snd (_, _)) => cbn [snd]
  | |- revealed _ (snd (match ?o with _ => _ end)) => destruct o eqn:?
  | |- revealed ?y (?f _ _ _ ?p) => change (revealed y p)
  | |- revealed ?y (?f _ _ ?p) => change (revealed y p)
  | |- revealed ?y (?f _ ?p) => change (revealed y p)
  end.

Ltac reveal := cbv beta zeta; repeat (reveal_step; cbv beta zeta).

Lemma revealed_theme_toggle p : revealed x p -> revealed x (ThemeManager.toggle E p).
Proof.
  intros H. unfold ThemeManager.toggle, ThemeManager.updateIcon, ThemeManager.getThemeIcon,
    ThemeManager.saveTheme, ThemeManager.setTheme. reveal.
Qed.

Lemma revealed_theme_init p : revealed x p -> revealed x (ThemeManager.init E p).
Proof.
  intros H. unfold ThemeManager.init, ThemeManager.updateIcon, ThemeManager.getThemeIcon,
    ThemeManager.setTheme. reveal.
Qed.

Lemma revealed_initializeTheme p : revealed x p -> revealed x (initializeTheme E p).
Proof. intros H. unfold initializeTheme. reveal. Qed.

Lemma revealed_open p : revealed x p -> revealed x (MenuManager.open E p).
Proof.
  intros H. unfold MenuManager.open, MenuManager.getOverlay, MenuManager.getIcon. reveal.
Qed.

Lemma revealed_close p : revealed x p -> revealed x (MenuManager.close E p).
Proof.
  intros H. unfold MenuManager.close, MenuManager.getOverlay, MenuManager.getIcon, scrollTo.
  reveal.
Qed.

Lemma revealed_menu_toggle p : revealed x p -> revealed x (MenuManager.toggle E p).
Proof.
  intros H. unfold MenuManager.toggle, MenuManager.getOverlay, MenuManager.getIcon.
  destruct (menu_overlay E), (hamburger_icon E); try exact H.
  cbv zeta. destruct (classList_contains _ _ _); auto using revealed_open, revealed_close.
Qed.

Lemma revealed_toggleTheme e p : revealed x p -> revealed x (snd (toggleTheme E e p)).
Proof. rewrite toggleTheme_is_toggle. apply revealed_theme_toggle. Qed.

Lemma revealed_toggleMenu e p : revealed x p -> revealed x (snd (toggleMenu E e p)).
Proof. intros H. unfold toggleMenu. reveal. Qed.

Lemma revealed_handleMenuLink p : revealed x p -> revealed x (handleMenuLink E p).
Proof. rewrite handleMenuLink_is_close. apply revealed_close. Qed.

Lemma snd_call_with f e p : snd (call_with f e p) = snd (f (Some e) p).
Proof. unfold call_with. now destruct (f (Some e) p). Qed.

Lemma revealed_handleEvent l e p :
  revealed x p -> revealed x (snd (handleEvent E l e p)).
Proof.
  intros H. destruct l; unfold handleEvent;
    try (cbn [snd];
         auto using revealed_theme_toggle, revealed_menu_toggle, revealed_close,
           revealed_handleMenuLink; fail);
    cbv zeta;
    repeat match goal with
      | |- revealed _ (snd (if ?b then _ else _)) => destruct b
      | |- revealed _ (snd (match ?o with _ => _ end)) => destruct o
      end;
    rewrite ?snd_call_with;
    auto using revealed_toggleTheme, revealed_toggleMenu;
    cbn [snd]; unfold on_cursor_elements, on_cursor; reveal.
Qed.

Lemma revealed_invoke ls : forall e p,
  revealed x p -> revealed x (snd (invoke E ls e p)).
Proof.
  induction ls as [|l ls IH]; intros e p H; [exact H|].
  cbn [invoke]. pose proof (revealed_handleEvent l e p H) as Hl.
  destruct (handleEvent E l e p) as [e' p']. now apply IH.
Qed.

Lemma revealed_propagate path : forall e p,
  revealed x p -> revealed x (snd (propagate E path e p)).
Proof.
  induction path as [|t path IH]; intros e p H; [exact H|].
  cbn [propagate]. pose proof (revealed_invoke (listeners_at t (type e) p) e p H) as Hi.
  destruct (invoke E (listeners_at t (type e) p) e p) as [e' p'].
  destruct (propagationStopped e'); [exact Hi|now apply IH].
Qed.

Lemma revealed_animate this p :
  revealed x p -> revealed x (snd (LuxuryCursor.animate E this p)).
Proof. intros H. unfold LuxuryCursor.animate. reveal. Qed.

Lemma revealed_cursor_new p : revealed x p -> revealed x (snd (LuxuryCursor.new E p)).
Proof.
  intros H. unfold LuxuryCursor.new.
  destruct (custom_cursor E) as [c|] eqn:Hc, (cursor_dot E) as [d|] eqn:Hd; try exact H.
  cbv zeta. destruct (negb _); [|exact H].
  unfold LuxuryCursor.init. destruct (isTouchDevice _); [exact H|].
  rewrite Hc, Hd. apply revealed_animate. reveal.
Qed.

Lemma revealed_replaceWithClone y p :
  revealed x p -> revealed x (replaceWithClone E y p).
Proof.
  intros (Ha & Ho & Hm). unfold replaceWithClone. cbv zeta.
  repeat split; [exact Ha| |].
  - unfold observed in *. cbn.
    destruct (scrollAnimationManager p) as [this|]; [|reflexivity].
    cbn. unfold detach_observer.
    destruct (observer this) as [targets|] eqn:Hobs; cbn; [|now rewrite Hobs].
    now apply existsb_filter_false.
  - cbn. now destruct (scrollAnimationManager p).
Qed.

Lemma revealed_initializeApp p : revealed x p -> revealed x (initializeApp E p).
Proof.
  intros H. unfold initializeApp. cbv zeta.
  set (p1 := setupMenuButton E (setupThemeButton E (initializeTheme E p))).
  assert (H1 : revealed x p1).
  { unfold p1, setupMenuButton, setupThemeButton.
    pose proof (revealed_initializeTheme p H) as H0.
    destruct (theme_toggle E) as [tb|]; reveal.
    all: try (apply revealed_replaceWithClone; exact H0). }
  set (p2 := if negb (portfolioApp p1) then _ else p1).
  assert (H2 : revealed x p2).
  { unfold p2. destruct (negb (portfolioApp p1)); [|exact H1].
    unfold PortfolioApp.init, PortfolioApp.attachEventListeners. reveal.
    all: apply revealed_theme_init; exact H1. }
  set (p3 := match luxuryCursor p2 with None => _ | Some _ => p2 end).
  assert (H3 : revealed x p3).
  { unfold p3. destruct (luxuryCursor p2); [exact H2|].
    pose proof (revealed_cursor_new p2 H2) as Hn.
    destruct (LuxuryCursor.new E p2) as [this q]. exact Hn. }
  destruct (scrollAnimationManager p3) eqn:Hm; [exact H3|].
  now destruct H3 as (_ & _ & Hne).
Qed.

Lemma revealed_run_timer t p :
  revealed x p -> revealed x (ScrollAnimationManager.run_timer t p).
Proof. intros H. unfold ScrollAnimationManager.run_timer, setTimeout. reveal. Qed.

Lemma revealed_callback entries : forall p,
  revealed x p -> revealed x (ScrollAnimationManager.callback entries p).
Proof.
  unfold ScrollAnimationManager.callback.
  induction entries as [|entry entries IH]; intros p H; [exact H|].
  cbn [fold_left]. apply IH. destruct (snd entry); [|exact H].
  cbv zeta.
  change (scrollAnimationManager (classList_add (fst entry) "animate" p))
    with (scrollAnimationManager p).
  destruct (scrollAnimationManager p) as [this|] eqn:Hthis.
  - apply revealed_unobserve; [exact Hthis|]. now apply revealed_add.
  - now apply revealed_add.
Qed.

Lemma revealed_step a p : revealed x p -> revealed x (step E a p).
Proof.
  intros H. destruct a; cbn [step].
  - apply revealed_propagate, H.
  - exact H.
  - unfold animation_frame_callback.
    destruct (luxuryCursor p) as [this|]; [|exact H].
    destruct (animationFrame this); [|exact H].
    pose proof (revealed_animate this p H) as Ha.
    destruct (LuxuryCursor.animate E this p) as [this' q]. exact Ha.
  - unfold fire. destruct (nth_error (timers p) n); [|exact H].
    apply revealed_run_timer. exact H.
  - apply revealed_callback, H.
  - apply revealed_initializeApp, H.
  - apply revealed_toggleTheme, H.
  - apply revealed_toggleMenu, H.
  - apply revealed_handleMenuLink, H.
Qed.

Lemma revealed_run acts : forall p, revealed x p -> revealed x (run E acts p).
Proof.
  unfold run. induction acts as [|a acts IH]; intros p H; [exact H|].
  cbn [fold_left]. apply IH, revealed_step, H.
Qed.

End RevealInvariant.

Section RevealOnce.
Variable x : elem.

Lemma callback_manager entries : forall p,
  scrollAnimationManager p <> None ->
  scrollAnimationManager (ScrollAnimationManager.callback entries p) <> None.
Proof.
  unfold ScrollAnimationManager.callback.
  induction entries as [|entry entries IH]; intros p H; [exact H|].
  cbn [fold_left]. apply IH. destruct (snd entry); [|exact H]. cbv zeta.
  change (scrollAnimationManager (classList_add (fst entry) "animate" p))
    with (scrollAnimationManager p).
  destruct (scrollAnimationManager p); [discriminate|congruence].
Qed.

Lemma unobserve_self targets :
  existsb (Nat.eqb x) (filter (fun y => negb (Nat.eqb y x)) targets) = false.
Proof.
  induction targets as [|a l IH]; [reflexivity|]. cbn.
  destruct (Nat.eqb_spec a x) as [->|Hne]; cbn; [exact IH|].
  rewrite IH, orb_false_r. apply Nat.eqb_neq. congruence.
Qed.

Lemma callback_reveals entries : forall p,
  In (x, true) entries ->
  scrollAnimationManager p <> None ->
  revealed x (ScrollAnimationManager.callback entries p).
Proof.
  induction entries as [|entry entries IH]; intros p Hin Hm; [destruct Hin|].
  change (ScrollAnimationManager.callback (entry :: entries) p)
    with (ScrollAnimationManager.callback entries
            (ScrollAnimationManager.callback [entry] p)).
  destruct Hin as [->|Hin].
  - apply revealed_callback.
    unfold ScrollAnimationManager.callback. cbn [fold_left snd fst].
    change (scrollAnimationManager (classList_add x "animate" p))
      with (scrollAnimationManager p).
    destruct (scrollAnimationManager p) as [this|] eqn:Hthis; [|congruence].
    repeat split; [apply classList_contains_add_same| |discriminate].
    unfold observed, ScrollAnimationManager.unobserve. cbn.
    destruct (observer this) as [targets|] eqn:Hobs; cbn; [|now rewrite Hobs].
    apply unobserve_self.
  - apply IH; [exact Hin|]. now apply callback_manager.
Qed.

End RevealOnce.

(** C8.  When the observer's callback receives an intersecting entry for
    [x] on a page whose manager exists, [x] is marked and no longer
    observed when the callback returns, and it stays marked and unobserved
    after any further sequence of inputs, scrolls, frames, timers,
    intersection reports (also non-intersecting ones for [x]), calls of the
    global functions and re-runs of [initializeApp]. *)
Theorem reveal_is_one_shot (E : Env) (entries : list (elem * bool)) (p : Page) (x : elem) :
  In (x, true) entries ->
  scrollAnimationManager p <> None ->
  animated x (ScrollAnimationManager.callback entries p) = true
  /\ observed x (ScrollAnimationManager.callback entries p) = false
  /\ forall acts : list Action,
       animated x (run E acts (ScrollAnimationManager.callback entries p)) = true
       /\ observed x (run E acts (ScrollAnimationManager.callback entries p)) = false.
Proof.
  intros Hin Hm. pose proof (callback_reveals x entries p Hin Hm) as H.
  split; [apply H|]. split; [apply H|].
  intros acts. pose proof (revealed_run E x acts _ H) as Hr.
  split; apply Hr.
Qed.

(** On the loaded demo page section 9 scrolls into view, then out again,
    the user opens the menu with the hamburger icon and the initializer
    runs once more: 9 is still marked and not observed. *)
Lemma reveal_is_one_shot_witness :
  animated 9
    (run demo_env
       [intersection [(9, false)]; input click 4 "" 0 0; call_initializeApp]
       (ScrollAnimationManager.callback [(8, false); (9, true)] loaded_page)) = true
  /\ observed 9
       (run demo_env
          [intersection [(9, false)]; input click 4 "" 0 0; call_initializeApp]
          (ScrollAnimationManager.callback [(8, false); (9, true)] loaded_page)) = false.
Proof.
  assert (Hm : scrollAnimationManager loaded_page <> None) by (cbv; discriminate).
  exact (proj2 (proj2 (reveal_is_one_shot demo_env [(8, false); (9, true)] loaded_page 9
                         (or_intror (or_introl eq_refl)) Hm))
           [intersection [(9, false)]; input click 4 "" 0 0; call_initializeApp]).
Defined.

(** ** The cursor follower *)

Section ExactArithmetic.
Local Open Scope R_scope.

Lemma ease_gap lambda m x : m - ease lambda m x = (1 - lambda) * (m - x).
Proof. unfold ease. ring. Qed.





Lemma eases_gap lambda m n x : m - eases lambda m n x = (1 - lambda) ^ n * (m - x).
Proof.
  induction n as [|n IH]; cbn [eases pow]; [ring|].
  rewrite ease_gap, IH. ring.
Qed.




End ExactArithmetic.

(** The recurrence as the engine computes it. *)

Section Binary64.








Variable E : Env.







End Binary64.



(** ** Running the initializer again *)

Section InitializeTwice.
Variable E : Env.

Lemma replaceWithClone_flags y p :
  portfolioApp (replaceWithClone E y p) = portfolioApp p
  /\ luxuryCursor (replaceWithClone E y p) = luxuryCursor p
  /\ (has_manager p -> has_manager (replaceWithClone E y p)).
Proof.
  unfold replaceWithClone, has_manager. cbn.
  repeat split. now destruct (scrollAnimationManager p).
Qed.

Lemma setup_keeps (P : Page -> Prop) p :
  (forall y q, P q -> P (replaceWithClone E y q)) ->
  (forall t ty l q, P q -> P (addEventListener t ty l q)) ->
  (forall v q, P q -> P (set_data_theme v q)) ->
  (forall y s q, P q -> P (assign_textContent y s q)) ->
  P p -> P (setupMenuButton E (setupThemeButton E (initializeTheme E p))).
Proof.
  intros Hclone Hadd Htheme Htext H.
  assert (H0 : P (initializeTheme E p)).
  { unfold initializeTheme. cbv zeta. destruct (theme_icon E); auto. }
  assert (H1 : P (setupThemeButton E (initializeTheme E p))).
  { unfold setupThemeButton. destruct (theme_toggle E); auto. }
  unfold setupMenuButton. cbv zeta.
  apply fold_left_keeps; [auto|].
  apply Hadd. destruct (menu_overlay E), (hamburger_icon E); auto.
Qed.

Lemma setup_has_app p :
  has_app p -> has_app (setupMenuButton E (setupThemeButton E (initializeTheme E p))).
Proof.
  apply setup_keeps; auto.
Qed.

Lemma setup_has_cursor p :
  has_cursor p -> has_cursor (setupMenuButton E (setupThemeButton E (initializeTheme E p))).
Proof.
  apply setup_keeps; auto.
Qed.

Lemma setup_has_manager p :
  has_manager p -> has_manager (setupMenuButton E (setupThemeButton E (initializeTheme E p))).
Proof.
  apply setup_keeps; auto.
  intros y q. apply replaceWithClone_flags.
Qed.

Lemma cursor_new_keeps (P : Page -> Prop) p :
  (forall y t q, P q -> P (classList_add y t q)) ->
  (forall t ty l q, ty <> click -> P q -> P (addEventListener t ty l q)) ->
  (forall y a b q, P q -> P (assign_transform y a b q)) ->
  (forall n q, P q -> P (set_frame_requests n q)) ->
  P p -> P (snd (LuxuryCursor.new E p)).
Proof.
  intros Hadd Hlis Htr Hfr H. unfold LuxuryCursor.new.
  destruct (custom_cursor E) as [c|] eqn:Hc, (cursor_dot E) as [d|] eqn:Hd; try exact H.
  cbv zeta. destruct (negb _); [|exact H].
  unfold LuxuryCursor.init. destruct (isTouchDevice _); [exact H|].
  rewrite Hc, Hd. unfold LuxuryCursor.animate. rewrite Hc, Hd. cbv zeta. cbn [snd].
  apply Hfr, Htr, Htr.
  apply Hlis; [discriminate|]. apply Hlis; [discriminate|].
  apply fold_left_keeps.
  { intros q el Hq. apply Hlis; [discriminate|]. apply Hlis; [discriminate|]. exact Hq. }
  apply Hlis; [discriminate|]. apply Hadd, Hadd, H.
Qed.

Lemma manager_init_flags p :
  portfolioApp (ScrollAnimationManager.init E p) = portfolioApp p
  /\ luxuryCursor (ScrollAnimationManager.init E p) = luxuryCursor p
  /\ (has_manager p -> has_manager (ScrollAnimationManager.init E p)).
Proof.
  unfold ScrollAnimationManager.init, has_manager.
  destruct (scrollAnimationManager p) as [this|] eqn:Hthis;
    [|rewrite Hthis; repeat split; intros H; now elim H].
  destruct (negb (has_IntersectionObserver E)).
  - set (mark := fun (p : Page) (el : elem) => classList_add el "animate" p).
    repeat split.
    + apply (fold_left_keeps (fun q => portfolioApp q = portfolioApp p) mark); auto.
    + apply (fold_left_keeps (fun q => luxuryCursor q = luxuryCursor p) mark); auto.
    + intros _.
      apply (fold_left_keeps (fun q => scrollAnimationManager q <> None) mark); auto.
      now rewrite Hthis.
  - cbv zeta. destruct (Nat.ltb _ _); repeat split; discriminate.
Qed.

(** After [initializeApp] the three singletons exist. *)
Lemma initializeApp_guards p :
  has_app (initializeApp E p) /\ has_cursor (initializeApp E p)
  /\ has_manager (initializeApp E p).
Proof.
  unfold initializeApp. cbv zeta.
  set (p1 := setupMenuButton E (setupThemeButton E (initializeTheme E p))).
  set (p2 := if negb (portfolioApp p1) then _ else p1).
  assert (H2 : has_app p2).
  { unfold p2, has_app. destruct (portfolioApp p1) eqn:Hp; [exact Hp|]. cbn [negb].
    unfold PortfolioApp.init, PortfolioApp.attachEventListeners, ThemeManager.init,
      ThemeManager.updateIcon, ThemeManager.getThemeIcon, ThemeManager.setTheme.
    cbv zeta.
    destruct (theme_icon E), (theme_toggle E), (hamburger_icon E), (menu_overlay E),
      (menu_links E); reflexivity. }
  set (p3 := match luxuryCursor p2 with None => _ | Some _ => p2 end).
  assert (H3 : has_app p3 /\ has_cursor p3).
  { unfold p3. destruct (luxuryCursor p2) eqn:Hc.
    - split; [exact H2|]. unfold has_cursor. now rewrite Hc.
    - pose proof (cursor_new_keeps has_app p2) as Hk.
      destruct (LuxuryCursor.new E p2) as [this q]. split; [|discriminate].
      apply Hk; auto. }
  destruct H3 as [Ha Hc].
  destruct (scrollAnimationManager p3) eqn:Hm.
  - repeat split; [exact Ha|exact Hc|]. unfold has_manager. now rewrite Hm.
  - destruct (manager_init_flags
                (set_scrollAnimationManager (Some ScrollAnimationManager.new) p3))
      as (Hpa & Hlc & Hsm).
    repeat split.
    + unfold has_app. rewrite Hpa. exact Ha.
    + unfold has_cursor. rewrite Hlc. exact Hc.
    + apply Hsm. discriminate.
Qed.

(** With the three singletons in place [initializeApp] is its unguarded
    prefix. *)
Lemma initializeApp_guarded p :
  has_app p -> has_cursor p -> has_manager p ->
  initializeApp E p = setupMenuButton E (setupThemeButton E (initializeTheme E p)).
Proof.
  intros Ha Hc Hm. unfold initializeApp. cbv zeta.
  pose proof (setup_has_app p Ha) as Ha'.
  pose proof (setup_has_cursor p Hc) as Hc'.
  pose proof (setup_has_manager p Hm) as Hm'.
  set (p1 := setupMenuButton E (setupThemeButton E (initializeTheme E p))) in *.
  unfold has_app in Ha'. rewrite Ha'. cbn [negb].
  unfold has_cursor in Hc'. destruct (luxuryCursor p1); [|congruence].
  unfold has_manager in Hm'. destruct (scrollAnimationManager p1); [|congruence].
  reflexivity.
Qed.

Lemma setup_frame p :
  let p' := setupMenuButton E (setupThemeButton E (initializeTheme E p)) in
  portfolioApp p' = portfolioApp p
  /\ luxuryCursor p' = luxuryCursor p
  /\ frame_requests p' = frame_requests p
  /\ classList p' = classList p
  /\ localStorage_theme p' = localStorage_theme p.
Proof.
  cbv zeta. repeat split.
  - apply (setup_keeps (fun q => portfolioApp q = portfolioApp p)); auto.
  - apply (setup_keeps (fun q => luxuryCursor q = luxuryCursor p)); auto.
  - apply (setup_keeps (fun q => frame_requests q = frame_requests p)); auto.
  - apply (setup_keeps (fun q => classList q = classList p)); auto.
  - apply (setup_keeps (fun q => localStorage_theme q = localStorage_theme p)); auto.
Qed.

(** The scroll manager over the unguarded prefix: the same object, whose
    observer has lost the targets inside the replaced theme button. *)
Lemma setup_manager p :
  scrollAnimationManager (setupMenuButton E (setupThemeButton E (initializeTheme E p)))
  = match theme_toggle E with
    | Some themeButton =>
        option_map (detach_observer E themeButton) (scrollAnimationManager p)
    | None => scrollAnimationManager p
    end.
Proof.
  unfold setupMenuButton. cbv zeta.
  set (q := setupThemeButton E (initializeTheme E p)).
  assert (Hq : scrollAnimationManager q
               = match theme_toggle E with
                 | Some themeButton =>
                     option_map (detach_observer E themeButton) (scrollAnimationManager p)
                 | None => scrollAnimationManager p
                 end).
  { unfold q, setupThemeButton, initializeTheme. cbv zeta.
    destruct (theme_toggle E), (theme_icon E); reflexivity. }
  rewrite <- Hq.
  apply (fold_left_keeps
           (fun r => scrollAnimationManager r = scrollAnimationManager q)); [auto|].
  now destruct (menu_overlay E), (hamburger_icon E).
Qed.

End InitializeTwice.

(** C10, as the script has it.  A second run of [initializeApp] finds the
    three singletons in place: it builds no manager and runs none of their
    initialisers.  All it does is what the three unguarded functions
    [initializeTheme], [setupThemeButton] and [setupMenuButton] do when run
    again.  The [portfolioApp] flag, the cursor object, the frame requests,
    the class lists and the stored theme are as the first run left them;
    the scroll manager is the object of the first run, whose observer has
    lost the targets inside the theme button, which [setupThemeButton]
    replaces by a copy. *)
Theorem initializeApp_again (E : Env) (p : Page) :
  initializeApp E (initializeApp E p)
  = setupMenuButton E (setupThemeButton E (initializeTheme E (initializeApp E p)))
  /\ portfolioApp (initializeApp E (initializeApp E p)) = portfolioApp (initializeApp E p)
  /\ luxuryCursor (initializeApp E (initializeApp E p)) = luxuryCursor (initializeApp E p)
  /\ scrollAnimationManager (initializeApp E (initializeApp E p))
     = match theme_toggle E with
       | Some themeButton =>
           option_map (detach_observer E themeButton)
             (scrollAnimationManager (initializeApp E p))
       | None => scrollAnimationManager (initializeApp E p)
       end
  /\ has_manager (initializeApp E (initializeApp E p))
  /\ frame_requests (initializeApp E (initializeApp E p))
     = frame_requests (initializeApp E p)
  /\ classList (initializeApp E (initializeApp E p)) = classList (initializeApp E p)
  /\ localStorage_theme (initializeApp E (initializeApp E p))
     = localStorage_theme (initializeApp E p).
Proof.
  destruct (initializeApp_guards E p) as (Ha & Hc & Hm).
  rewrite (initializeApp_guarded E _ Ha Hc Hm).
  destruct (setup_frame E (initializeApp E p)) as (H1 & H2 & H3 & H4 & H5).
  repeat split; try assumption.
  - apply setup_manager.
  - now apply setup_has_manager.
Qed.

(** C10 as stated fails.  On the demo page the second run adds a third
    click listener to the hamburger icon, a copy of one already there, and
    replaces the theme button by a copy that has lost the listener of
    [PortfolioApp]: the page is not the one the first run left. *)
Lemma initializeApp_again_counterexample :
  listeners_at (Node 4) click loaded_page
  = [setup_hamburger_click; app_hamburger_click]
  /\ listeners_at (Node 4) click (initializeApp demo_env loaded_page)
     = [setup_hamburger_click; app_hamburger_click; setup_hamburger_click]
  /\ listeners_at (Node 5) click loaded_page
     = [setup_themeButton_click; app_themeToggle_click]
  /\ listeners_at (Node 5) click (initializeApp demo_env loaded_page)
     = [setup_themeButton_click]
  /\ initializeApp demo_env loaded_page <> loaded_page.
Proof.
  repeat split; try reflexivity.
  intros H. apply (f_equal (listeners_at (Node 5) click)) in H.
  cbv in H. discriminate H.
Qed.

(** ** Clicks inside the menu *)

Section Containment.
Variable E : Env.

(** Case analysis over the body of a listener. *)
Ltac listener_cases :=
  unfold handleEvent, call_with, toggleTheme, toggleMenu, cancel, handleMenuLink,
    ThemeManager.toggle, ThemeManager.updateIcon, ThemeManager.getThemeIcon,
    ThemeManager.saveTheme, ThemeManager.setTheme,
    MenuManager.toggle, MenuManager.close, MenuManager.open, MenuManager.getOverlay,
    MenuManager.getIcon, on_cursor, on_cursor_elements, scrollTo;
  cbv zeta;
  repeat (match goal with
          | |- context [match ?o with _ => _ end] =>
              lazymatch o with
              | context [match _ with _ => _ end] => fail
              | _ => destruct o
              end
          end; cbv beta iota).

Lemma handleEvent_listeners l e p :
  listeners (snd (handleEvent E l e p)) = listeners p.
Proof. destruct l; listener_cases; reflexivity. Qed.

Lemma handleEvent_type l e p : type (fst (handleEvent E l e p)) = type e.
Proof. destruct l; listener_cases; reflexivity. Qed.

Lemma handleEvent_stopped l e p :
  propagationStopped e = true -> propagationStopped (fst (handleEvent E l e p)) = true.
Proof. intros H. destruct l; listener_cases; try reflexivity; exact H. Qed.

Lemma invoke_listeners ls : forall e p,
  listeners (snd (invoke E ls e p)) = listeners p.
Proof.
  induction ls as [|l ls IH]; intros e p; [reflexivity|]. cbn [invoke].
  pose proof (handleEvent_listeners l e p) as H.
  destruct (handleEvent E l e p) as [e' p']. rewrite IH. exact H.
Qed.

Lemma invoke_type ls : forall e p, type (fst (invoke E ls e p)) = type e.
Proof.
  induction ls as [|l ls IH]; intros e p; [reflexivity|]. cbn [invoke].
  pose proof (handleEvent_type l e p) as H.
  destruct (handleEvent E l e p) as [e' p']. rewrite IH. exact H.
Qed.

Lemma invoke_stopped ls : forall e p,
  propagationStopped e = true -> propagationStopped (fst (invoke E ls e p)) = true.
Proof.
  induction ls as [|l ls IH]; intros e p H; [exact H|]. cbn [invoke].
  pose proof (handleEvent_stopped l e p H) as Hs.
  destruct (handleEvent E l e p) as [e' p']. now apply IH.
Qed.

(** Once the listener of the link list has run, the propagation is stopped. *)
Lemma invoke_stops ls : forall e p,
  In app_menuLinks_click ls -> propagationStopped (fst (invoke E ls e p)) = true.
Proof.
  induction ls as [|l ls IH]; intros e p Hin; [destruct Hin|]. cbn [invoke].
  destruct Hin as [->|Hin].
  - cbn [handleEvent]. now apply invoke_stopped.
  - destruct (handleEvent E l e p) as [e' p']. now apply IH.
Qed.

Lemma listeners_at_In t ty l p :
  In (Build_Registration t ty l) (listeners p) -> In l (listeners_at t ty p).
Proof.
  intros H. unfold listeners_at.
  apply (in_map reg_listener _ (Build_Registration t ty l)).
  apply filter_In. split; [exact H|]. cbn.
  assert (Ht : EventTarget_eqb t t = true)
    by (destruct t; [apply Nat.eqb_refl|reflexivity]).
  rewrite Ht. now destruct ty.
Qed.

Lemma EventTarget_eqb_eq a b : EventTarget_eqb a b = true -> a = b.
Proof.
  destruct a, b; cbn; try discriminate; [|reflexivity].
  intros H. now apply Nat.eqb_eq in H as ->.
Qed.

(** A click that passes through the link list is not seen above it. *)
Lemma reached_below_links ml rest below : forall e p,
  type e = click ->
  In (Build_Registration (Node ml) click app_menuLinks_click) (listeners p) ->
  forall t, In t (reached E (map Node below ++ Node ml :: rest) e p) ->
            In t (map Node (below ++ [ml])).
Proof.
  induction below as [|b below IH]; intros e p Hty Hreg t.
  - change (map Node [] ++ Node ml :: rest)%list with (Node ml :: rest).
    cbn [reached]. rewrite Hty.
    pose proof (invoke_stops (listeners_at (Node ml) click p) e p
                  (listeners_at_In _ _ _ _ Hreg)) as Hs.
    destruct (invoke E (listeners_at (Node ml) click p) e p) as [e' p'].
    cbn [fst] in Hs. rewrite Hs. intros [<-|[]]. now left.
  - change (map Node (b :: below) ++ Node ml :: rest)%list
      with (Node b :: map Node below ++ Node ml :: rest)%list.
    change (map Node ((b :: below) ++ [ml]))
      with (Node b :: map Node (below ++ [ml])).
    cbn [reached].
    pose proof (invoke_listeners (listeners_at (Node b) (type e) p) e p) as Hl.
    pose proof (invoke_type (listeners_at (Node b) (type e) p) e p) as Ht.
    destruct (invoke E (listeners_at (Node b) (type e) p) e p) as [e' p'].
    cbn [fst snd] in Hl, Ht.
    intros [<-|Hin]; [now left|]. right.
    destruct (propagationStopped e'); [destruct Hin|].
    apply (IH e' p'); [congruence|now rewrite Hl|exact Hin].
Qed.

End Containment.

Section LinkClick.
Variable E : Env.
Variables menuLinks overlay : elem.
Hypothesis Hoverlay : menu_overlay E = Some overlay.

Lemma link_area_listeners below p :
  link_area below menuLinks p = true ->
  (forall b l, In b below -> In l (listeners_at (Node b) click p) -> l = setup_link_click)
  /\ (forall l, In l (listeners_at (Node menuLinks) click p) ->
                l = setup_link_click \/ l = app_menuLinks_click).
Proof.
  unfold link_area, fits_link_area, listeners_at. rewrite forallb_forall. intros Hall.
  split.
  - intros b l Hb Hl. apply in_map_iff in Hl as (r & <- & Hr).
    apply filter_In in Hr as (Hr & Hm). apply andb_true_iff in Hm as (Ht & Hty).
    specialize (Hall r Hr).
    assert (Hin : existsb (fun y => EventTarget_eqb (reg_target r) (Node y)) below = true)
      by (apply existsb_exists; exists b; now split).
    destruct (reg_type r); try discriminate Hty.
    destruct (reg_listener r); try reflexivity;
      rewrite ?existsb_app, Hin in Hall; discriminate Hall.
  - intros l Hl. apply in_map_iff in Hl as (r & <- & Hr).
    apply filter_In in Hr as (Hr & Hm). apply andb_true_iff in Hm as (Ht & Hty).
    specialize (Hall r Hr).
    assert (Hin : existsb (fun y => EventTarget_eqb (reg_target r) (Node y))
                    (below ++ [menuLinks]) = true).
    { apply existsb_exists. exists menuLinks. split; [|exact Ht].
      apply in_or_app. right. now left. }
    destruct (reg_type r); try discriminate Hty.
    destruct (reg_listener r); auto; rewrite Hin in Hall; discriminate Hall.
Qed.

Lemma link_area_tail b below p :
  link_area (b :: below) menuLinks p = true -> link_area below menuLinks p = true.
Proof.
  unfold link_area, fits_link_area. rewrite !forallb_forall.
  intros Hall r Hr. specialize (Hall r Hr).
  destruct (reg_type r); try exact Hall.
  destruct (reg_listener r); try exact Hall;
    simpl existsb in Hall; rewrite negb_orb in Hall;
    apply andb_true_iff in Hall; apply Hall.
Qed.

Lemma link_area_same below p q :
  listeners q = listeners p -> link_area below menuLinks q = link_area below menuLinks p.
Proof. unfold link_area. now intros ->. Qed.

Lemma handleMenuLink_closes p :
  classList_contains overlay "open" (handleMenuLink E p) = false.
Proof. rewrite handleMenuLink_is_close. now apply close_is_closed. Qed.

(** Link handlers leave the event as it is and the menu closed. *)
Lemma invoke_link_handlers ls : forall e p,
  (forall l, In l ls -> l = setup_link_click) ->
  fst (invoke E ls e p) = e
  /\ (classList_contains overlay "open" p = false ->
      classList_contains overlay "open" (snd (invoke E ls e p)) = false)
  /\ (ls <> [] -> classList_contains overlay "open" (snd (invoke E ls e p)) = false).
Proof.
  induction ls as [|l ls IH]; intros e p Hall; [now repeat split|].
  cbn [invoke]. rewrite (Hall l (or_introl eq_refl)). cbn [handleEvent].
  destruct (IH e (handleMenuLink E p)) as (He & Hkeep & _);
    [intros; apply Hall; now right|].
  repeat split; [exact He| |]; intros _; apply Hkeep, handleMenuLink_closes.
Qed.

Lemma invoke_link_or_stop ls : forall e p,
  (forall l, In l ls -> l = setup_link_click \/ l = app_menuLinks_click) ->
  defaultPrevented (fst (invoke E ls e p)) = defaultPrevented e
  /\ (classList_contains overlay "open" p = false ->
      classList_contains overlay "open" (snd (invoke E ls e p)) = false).
Proof.
  induction ls as [|l ls IH]; intros e p Hall; [now split|].
  cbn [invoke].
  destruct (Hall l (or_introl eq_refl)) as [-> | ->]; cbn [handleEvent].
  - destruct (IH e (handleMenuLink E p)) as (Hd & Hkeep);
      [intros; apply Hall; now right|].
    split; [exact Hd|]. intros _. apply Hkeep, handleMenuLink_closes.
  - destruct (IH (stopPropagation e) p) as (Hd & Hkeep);
      [intros; apply Hall; now right|].
    split; [exact Hd|exact Hkeep].
Qed.

(** A click that starts on or inside a link of the list: the link's handler
    closes the menu, nothing prevents the default action. *)
Lemma propagate_link_click rest below : forall e p,
  type e = click ->
  propagationStopped e = false ->
  link_area below menuLinks p = true ->
  In (Build_Registration (Node menuLinks) click app_menuLinks_click) (listeners p) ->
  defaultPrevented (fst (propagate E (map Node below ++ Node menuLinks :: rest) e p))
  = defaultPrevented e
  /\ (classList_contains overlay "open" p = false ->
      classList_contains overlay "open"
        (snd (propagate E (map Node below ++ Node menuLinks :: rest) e p)) = false)
  /\ (forall a, In a below ->
                In (Build_Registration (Node a) click setup_link_click) (listeners p) ->
                classList_contains overlay "open"
                  (snd (propagate E (map Node below ++ Node menuLinks :: rest) e p))
                = false).
Proof.
  induction below as [|b below IH]; intros e p Hty Hns Harea Hreg.
  - change (map Node [] ++ Node menuLinks :: rest)%list with (Node menuLinks :: rest).
    cbn [propagate]. rewrite Hty.
    destruct (link_area_listeners [] p Harea) as [_ Hml].
    destruct (invoke_link_or_stop (listeners_at (Node menuLinks) click p) e p Hml)
      as (Hd & Hkeep).
    pose proof (invoke_stops E (listeners_at (Node menuLinks) click p) e p
                  (listeners_at_In _ _ _ _ Hreg)) as Hs.
    destruct (invoke E (listeners_at (Node menuLinks) click p) e p) as [e' p'].
    cbn [fst snd] in *. rewrite Hs. cbn [fst snd].
    repeat split; [exact Hd|exact Hkeep|intros a []].
  - change (map Node (b :: below) ++ Node menuLinks :: rest)%list
      with (Node b :: map Node below ++ Node menuLinks :: rest)%list.
    cbn [propagate]. rewrite Hty.
    destruct (link_area_listeners (b :: below) p Harea) as [Hb _].
    destruct (invoke_link_handlers (listeners_at (Node b) click p) e p
                (fun l => Hb b l (or_introl eq_refl))) as (He & Hkeep & Hclose).
    pose proof (invoke_listeners E (listeners_at (Node b) click p) e p) as Hl.
    destruct (invoke E (listeners_at (Node b) click p) e p) as [e' p'] eqn:Hinv.
    cbn [fst snd] in *. subst e'. rewrite Hns.
    destruct (IH e p') as (Hd & Hkeep' & Hlink); try assumption.
    { rewrite (link_area_same below p p' Hl). now apply (link_area_tail b). }
    { now rewrite Hl. }
    repeat split; [exact Hd|auto|].
    intros a [<-|Ha] Hareg.
    + apply Hkeep', Hclose.
      pose proof (listeners_at_In _ _ _ _ Hareg) as Hin.
      intros Hnil. rewrite Hnil in Hin. destruct Hin.
    + apply (Hlink a Ha). now rewrite Hl.
Qed.

End LinkClick.

Section Wiring.
Variable E : Env.

Lemma manager_init_listeners p :
  listeners (ScrollAnimationManager.init E p) = listeners p.
Proof.
  unfold ScrollAnimationManager.init.
  destruct (scrollAnimationManager p); [|reflexivity].
  destruct (negb (has_IntersectionObserver E)); [apply mark_all_frame|].
  cbv zeta. now destruct (Nat.ltb _ _).
Qed.

(** The first run of [initializeApp] leaves the propagation stop on the
    link list. *)
Lemma initializeApp_stops_at_links p menuLinks :
  portfolioApp p = false ->
  menu_links E = Some menuLinks ->
  In (Build_Registration (Node menuLinks) click app_menuLinks_click)
    (listeners (initializeApp E p)).
Proof.
  intros Hp Hml. unfold initializeApp. cbv zeta.
  set (r := Build_Registration (Node menuLinks) click app_menuLinks_click).
  set (p1 := setupMenuButton E (setupThemeButton E (initializeTheme E p))).
  assert (Hp1 : portfolioApp p1 = false).
  { destruct (setup_frame E p) as (H & _). fold p1 in H. congruence. }
  rewrite Hp1. cbn [negb].
  set (p2 := PortfolioApp.init E (set_portfolioApp true p1)).
  assert (H2 : In r (listeners p2)).
  { unfold p2, PortfolioApp.init, PortfolioApp.attachEventListeners. rewrite Hml.
    cbv zeta. unfold addEventListener at 1. cbn [listeners set_listeners].
    apply in_or_app. right. now left. }
  set (p3 := match luxuryCursor p2 with None => _ | Some _ => p2 end).
  assert (H3 : In r (listeners p3)).
  { unfold p3. destruct (luxuryCursor p2); [exact H2|].
    pose proof (cursor_new_keeps E (fun q => In r (listeners q)) p2) as Hk.
    destruct (LuxuryCursor.new E p2) as [this q]. cbn [snd] in Hk.
    apply Hk; auto.
    intros t ty l q' _ Hq. unfold addEventListener. cbn [listeners set_listeners].
    apply in_or_app. now left. }
  destruct (scrollAnimationManager p3); [exact H3|].
  rewrite manager_init_listeners. exact H3.
Qed.

Lemma addEventListener_keeps_registration r t ty l q :
  In r (listeners q) -> In r (listeners (addEventListener t ty l q)).
Proof.
  intros H. unfold addEventListener. cbn [listeners set_listeners].
  apply in_or_app. now left.
Qed.

(** [initializeApp] leaves the link handler on every link of the list. *)
Lemma initializeApp_handles_links p a :
  In a (menu_link_anchors E) ->
  In (Build_Registration (Node a) click setup_link_click) (listeners (initializeApp E p)).
Proof.
  intros Ha. unfold initializeApp. cbv zeta.
  set (r := Build_Registration (Node a) click setup_link_click).
  set (p1 := setupThemeButton E (initializeTheme E p)).
  assert (H2 : In r (listeners (setupMenuButton E p1))).
  { unfold setupMenuButton. cbv zeta.
    match goal with |- In r (listeners (fold_left _ _ ?q0)) => generalize q0 end.
    induction (menu_link_anchors E) as [|b l IH]; intros q; [destruct Ha|].
    cbn [fold_left]. destruct Ha as [->|Ha]; [|now apply IH].
    apply (fold_left_keeps (fun q' => In r (listeners q'))).
    { intros q' c. apply addEventListener_keeps_registration. }
    unfold addEventListener. cbn [listeners set_listeners].
    apply in_or_app. right. now left. }
  set (p2 := setupMenuButton E p1) in *.
  set (p3 := if negb (portfolioApp p2) then _ else p2).
  assert (H3 : In r (listeners p3)).
  { unfold p3. destruct (negb (portfolioApp p2)); [|exact H2].
    unfold PortfolioApp.init, PortfolioApp.attachEventListeners. cbv zeta.
    assert (Hi : In r (listeners (ThemeManager.init E (set_portfolioApp true p2)))).
    { unfold ThemeManager.init, ThemeManager.updateIcon, ThemeManager.getThemeIcon.
      cbv zeta. now destruct (theme_icon E). }
    destruct (menu_links E), (menu_overlay E), (hamburger_icon E), (theme_toggle E);
      repeat apply addEventListener_keeps_registration; exact Hi. }
  set (p4 := match luxuryCursor p3 with None => _ | Some _ => p3 end).
  assert (H4 : In r (listeners p4)).
  { unfold p4. destruct (luxuryCursor p3); [exact H3|].
    pose proof (cursor_new_keeps E (fun q => In r (listeners q)) p3) as Hk.
    destruct (LuxuryCursor.new E p3) as [this q]. cbn [snd] in Hk.
    apply Hk; auto. intros t ty l q' _. apply addEventListener_keeps_registration. }
  destruct (scrollAnimationManager p4); [exact H4|].
  rewrite manager_init_listeners. exact H4.
Qed.

(** When the theme button, the hamburger icon and the overlay are not in
    the link area, [initializeApp] only adds registrations that fit it. *)
Section LinkArea.
Variables (below : list elem) (menuLinks : elem).
Hypothesis Hlinks : menu_links E = Some menuLinks.
Hypothesis Hfirst : ~ In menuLinks below.
Hypothesis Hapart : forall y, In y (below ++ [menuLinks]) ->
  theme_toggle E <> Some y /\ hamburger_icon E <> Some y /\ menu_overlay E <> Some y.

Lemma outside_area (l : list elem) (x : elem) :
  ~ In x l -> existsb (fun y => EventTarget_eqb (Node x) (Node y)) l = false.
Proof.
  intros Hx. induction l as [|a l IH]; [reflexivity|]. cbn [existsb].
  rewrite IH by (intros H; apply Hx; now right).
  rewrite orb_false_r. cbn [EventTarget_eqb].
  apply Nat.eqb_neq. intros ->. apply Hx. now left.
Qed.

Lemma link_area_add t ty l q :
  fits_link_area below menuLinks (Build_Registration t ty l) = true ->
  link_area below menuLinks q = true ->
  link_area below menuLinks (addEventListener t ty l q) = true.
Proof.
  intros Hr Hq. unfold link_area, addEventListener in *. cbn [listeners set_listeners].
  rewrite forallb_app, Hq. cbn. now rewrite Hr.
Qed.

Lemma link_area_other_type t ty l q :
  ty <> click ->
  link_area below menuLinks q = true ->
  link_area below menuLinks (addEventListener t ty l q) = true.
Proof. intros Hty. apply link_area_add. now destruct ty. Qed.

Lemma link_area_filter (f : Registration -> bool) q :
  link_area below menuLinks q = true ->
  forallb (fits_link_area below menuLinks) (filter f (listeners q)) = true.
Proof.
  unfold link_area. rewrite !forallb_forall. intros H r Hr.
  apply H. now apply filter_In in Hr.
Qed.

Lemma fits_outside x l :
  l <> setup_link_click -> l <> app_menuLinks_click ->
  ~ In x (below ++ [menuLinks]) ->
  fits_link_area below menuLinks (Build_Registration (Node x) click l) = true.
Proof.
  intros H1 H2 Hx. unfold fits_link_area. cbn [reg_type reg_listener reg_target].
  destruct l; try congruence; now rewrite outside_area.
Qed.

Lemma initializeApp_link_area p :
  link_area below menuLinks p = true ->
  link_area below menuLinks (initializeApp E p) = true.
Proof.
  intros H. unfold initializeApp. cbv zeta.
  assert (Htb : forall y, theme_toggle E = Some y -> ~ In y (below ++ [menuLinks]))
    by (intros y Hy Hin; destruct (Hapart y Hin) as (Ha & Hb & Hc); congruence).
  assert (Hhi : forall y, hamburger_icon E = Some y -> ~ In y (below ++ [menuLinks]))
    by (intros y Hy Hin; destruct (Hapart y Hin) as (Ha & Hb & Hc); congruence).
  assert (Hov : forall y, menu_overlay E = Some y -> ~ In y (below ++ [menuLinks]))
    by (intros y Hy Hin; destruct (Hapart y Hin) as (Ha & Hb & Hc); congruence).
  assert (H0 : link_area below menuLinks (initializeTheme E p) = true).
  { unfold initializeTheme. cbv zeta. now destruct (theme_icon E). }
  assert (H1 : link_area below menuLinks (setupThemeButton E (initializeTheme E p)) = true).
  { unfold setupThemeButton. destruct (theme_toggle E) as [tb|] eqn:Ht; [|exact H0].
    apply link_area_add; [apply fits_outside; try discriminate; now apply Htb|].
    apply (link_area_filter _ _ H0). }
  set (p1 := setupThemeButton E (initializeTheme E p)) in *.
  assert (H2 : link_area below menuLinks (setupMenuButton E p1) = true).
  { unfold setupMenuButton. cbv zeta.
    apply (fold_left_keeps (fun q => link_area below menuLinks q = true)).
    { intros q a Hq. now apply link_area_add. }
    apply link_area_other_type; [discriminate|].
    destruct (menu_overlay E) as [ov|] eqn:Hmo;
      [apply link_area_add; [apply fits_outside; try discriminate; now apply Hov|]|];
      (destruct (hamburger_icon E) as [hi|] eqn:Hh;
       [apply link_area_add; [apply fits_outside; try discriminate; now apply Hhi|]|]);
      exact H1. }
  set (p2 := setupMenuButton E p1) in *.
  set (p3 := if negb (portfolioApp p2) then _ else p2).
  assert (H3 : link_area below menuLinks p3 = true).
  { unfold p3. destruct (negb (portfolioApp p2)); [|exact H2].
    unfold PortfolioApp.init, PortfolioApp.attachEventListeners. rewrite Hlinks. cbv zeta.
    apply link_area_add.
    { unfold fits_link_area. cbn [reg_type reg_listener reg_target].
      now rewrite outside_area. }
    assert (Hi : link_area below menuLinks
                   (ThemeManager.init E (set_portfolioApp true p2)) = true).
    { unfold ThemeManager.init, ThemeManager.updateIcon, ThemeManager.getThemeIcon.
      cbv zeta. now destruct (theme_icon E). }
    destruct (menu_overlay E) as [ov|] eqn:Hmo;
      [apply link_area_add; [apply fits_outside; try discriminate; now apply Hov|]|];
      (destruct (hamburger_icon E) as [hi|] eqn:Hh;
       [apply link_area_add; [apply fits_outside; try discriminate; now apply Hhi|]|]);
      (destruct (theme_toggle E) as [tb|] eqn:Ht;
       [apply link_area_add; [apply fits_outside; try discriminate; now apply Htb|]|]);
      exact Hi. }
  set (p4 := match luxuryCursor p3 with None => _ | Some _ => p3 end).
  assert (H4 : link_area below menuLinks p4 = true).
  { unfold p4. destruct (luxuryCursor p3); [exact H3|].
    pose proof (cursor_new_keeps E (fun q => link_area below menuLinks q = true) p3) as Hk.
    destruct (LuxuryCursor.new E p3) as [this q]. cbn [snd] in Hk.
    apply Hk; auto. intros t ty l q' Hty Hq. now apply link_area_other_type. }
  destruct (scrollAnimationManager p4); [exact H4|].
  unfold link_area. rewrite manager_init_listeners. exact H4.
Qed.

End LinkArea.

End Wiring.

(** C6, as the script has it.  A click on [x], inside the link list that
    the overlay encloses, never reaches the overlay once [PortfolioApp] has
    attached its listeners: no listener of the overlay runs.  When [x] is a
    link of the list or lies inside one, the link's handler closes the menu
    and the default action is not prevented.  Of the two listeners on the
    overlay, the one of [setupMenuButton] acts only on a click whose target
    is the overlay; the one of [PortfolioApp] closes the menu on every
    click that reaches the overlay, whatever its target. *)
Theorem menu_click_containment (E : Env) (p : Page) (x menuLinks overlay : elem)
    (below above : list elem) (k : string) (cx cy : float) :
  menu_links E = Some menuLinks ->
  menu_overlay E = Some overlay ->
  (x :: ancestors E x = below ++ menuLinks :: above)%list ->
  ~ In overlay (below ++ [menuLinks]) ->
  In (Build_Registration (Node menuLinks) click app_menuLinks_click) (listeners p) ->
  ~ In (Node overlay)
      (reached E (event_path E (Node x) click)
         (Build_Event click (Node x) k cx cy false false) p)
  /\ (link_area below menuLinks p = true ->
      forall a, In a below ->
        In (Build_Registration (Node a) click setup_link_click) (listeners p) ->
        defaultPrevented
          (fst (dispatchEvent E (Build_Event click (Node x) k cx cy false false) p))
        = false
        /\ MenuManager.isOpen E
             (snd (dispatchEvent E (Build_Event click (Node x) k cx cy false false) p))
           = false)
  /\ (forall e q, target e <> Node overlay ->
                  handleEvent E (setup_overlay_click overlay) e q = (e, q))
  /\ (forall e q, handleEvent E app_overlay_click e q = (e, MenuManager.close E q)
                  /\ MenuManager.isOpen E (MenuManager.close E q) = false).
Proof.
  intros Hml Hov Hpath Hout Hreg.
  assert (Hep : event_path E (Node x) click
                = (map Node below ++ Node menuLinks :: (map Node above ++ [TheDocument]))%list).
  { unfold event_path. cbn [bubbles].
    change (Node x :: map Node (ancestors E x) ++ [TheDocument])%list
      with (map Node (x :: ancestors E x) ++ [TheDocument])%list.
    rewrite Hpath, map_app, <- app_assoc. reflexivity. }
  split; [|split; [|split]].
  - rewrite Hep. intros Hin.
    apply (reached_below_links E menuLinks _ below
             (Build_Event click (Node x) k cx cy false false) p eq_refl Hreg) in Hin.
    apply in_map_iff in Hin as (y & Hy & Hin). injection Hy as ->. now apply Hout.
  - intros Harea a Ha Hareg. unfold dispatchEvent. cbn [target type]. rewrite Hep.
    destruct (propagate_link_click E menuLinks overlay Hov
                (map Node above ++ [TheDocument])%list below
                (Build_Event click (Node x) k cx cy false false) p
                eq_refl eq_refl Harea Hreg) as (Hd & _ & Hclose).
    split; [exact Hd|].
    unfold MenuManager.isOpen, MenuManager.getOverlay. rewrite Hov, orb_false_r.
    now apply (Hclose a).
  - intros e q Ht. cbn [handleEvent].
    destruct (EventTarget_eqb (target e) (Node overlay)) eqn:Heq; [|reflexivity].
    now apply EventTarget_eqb_eq in Heq.
  - intros e q. split; [reflexivity|].
    unfold MenuManager.isOpen, MenuManager.getOverlay. rewrite Hov, orb_false_r.
    now apply close_is_closed.
Qed.

(** On the loaded demo page with the menu open, a click on the link (3): it
    reaches the link and the link list (2) and stops there, the menu is
    closed and the navigation goes ahead. *)
Lemma menu_click_containment_witness :
  ~ In (Node 1)
      (reached demo_env (event_path demo_env (Node 3) click)
         (Build_Event click (Node 3) "" 0 0 false false) loaded_open_page)
  /\ defaultPrevented
       (fst (dispatchEvent demo_env (Build_Event click (Node 3) "" 0 0 false false)
               loaded_open_page)) = false
  /\ MenuManager.isOpen demo_env
       (snd (dispatchEvent demo_env (Build_Event click (Node 3) "" 0 0 false false)
               loaded_open_page)) = false.
Proof.
  assert (Hout : ~ In 1 ([3] ++ [2])) by (intros [H|[H|[]]]; discriminate H).
  assert (Hreg : In (Build_Registration (Node 2) click app_menuLinks_click)
                   (listeners loaded_open_page))
    by (vm_compute; auto 10).
  assert (Hlink : In (Build_Registration (Node 3) click setup_link_click)
                    (listeners loaded_open_page))
    by (vm_compute; auto 10).
  pose proof (menu_click_containment demo_env loaded_open_page 3 2 1 [3] [1; 0] "" 0 0
                eq_refl eq_refl eq_refl Hout Hreg) as (Hcontained & Hclick & _).
  destruct (Hclick eq_refl 3 (or_introl eq_refl) Hlink) as (Hdefault & Hclosed).
  exact (conj Hcontained (conj Hdefault Hclosed)).
Defined.

(** C6 as stated fails for the listener of [PortfolioApp].  On the loaded
    demo page with the menu open, a click on the hint (7), which lies inside
    the overlay (1) and outside the link list, has no listener of its own;
    the listener that [PortfolioApp] put on the overlay closes the menu
    although the target is not the overlay. *)
Lemma backdrop_counterexample :
  MenuManager.isOpen demo_env loaded_open_page = true
  /\ listeners_at (Node 7) click loaded_open_page = []
  /\ listeners_at (Node 1) click loaded_open_page
     = [setup_overlay_click 1; app_overlay_click]
  /\ target (Build_Event click (Node 7) "" 0 0 false false) <> Node 1
  /\ MenuManager.isOpen demo_env
       (snd (handleEvent demo_env app_overlay_click
               (Build_Event click (Node 7) "" 0 0 false false) loaded_open_page))
     = false
  /\ MenuManager.isOpen demo_env
       (step demo_env (input click 7 "" 0 0) loaded_open_page) = false.
Proof. repeat split; try reflexivity. discriminate. Qed.

(** * Further properties *)

(** ** Theme: the icon and the stored preference *)

Section ThemeMore.
Variable E : Env.

Lemma updateIcon_shows theme p :
  data_theme p = Some theme -> theme <> "" ->
  icon_shows_theme E (ThemeManager.updateIcon E theme p).
Proof.
  intros Hd Hne i Hi. rewrite updateIcon_data_theme, Hd.
  rewrite or_else_nonempty by exact Hne.
  unfold ThemeManager.updateIcon, ThemeManager.getThemeIcon. rewrite Hi.
  cbn. unfold update. now rewrite Nat.eqb_refl.
Qed.

Lemma or_else_light_nonempty o : JS.or_else o "light" <> "".
Proof. destruct o as [[|c s]|]; discriminate. Qed.

Lemma init_shows p : icon_shows_theme E (ThemeManager.init E p).
Proof.
  unfold ThemeManager.init. cbv zeta.
  apply updateIcon_shows; [reflexivity|apply or_else_light_nonempty].
Qed.

Lemma toggle_shows p : icon_shows_theme E (ThemeManager.toggle E p).
Proof.
  unfold ThemeManager.toggle. cbv zeta.
  apply updateIcon_shows; [reflexivity|].
  now destruct (JS.or_else (data_theme p) "light" =? "dark").
Qed.

Lemma updateIcon_elsewhere theme p j :
  theme_icon E <> Some j ->
  textContent (ThemeManager.updateIcon E theme p) j = textContent p j.
Proof.
  intros Hj. unfold ThemeManager.updateIcon, ThemeManager.getThemeIcon.
  destruct (theme_icon E) as [i|]; [|reflexivity].
  cbn. unfold update. destruct (Nat.eqb_spec j i) as [->|]; [congruence|reflexivity].
Qed.

Lemma theme_toggles_elsewhere ts : forall p j,
  theme_icon E <> Some j ->
  textContent (theme_toggles E ts p) j = textContent p j.
Proof.
  induction ts as [|t ts IH]; intros p j Hj; [reflexivity|].
  change (theme_toggles E (t :: ts) p)
    with (theme_toggles E ts (theme_toggle_once E t p)).
  rewrite IH by exact Hj. rewrite toggle_once_is_toggle.
  unfold ThemeManager.toggle. cbv zeta. now rewrite updateIcon_elsewhere.
Qed.

(** X1.  After [init] and any number of toggles, by either implementation,
    the icon (when the page has one) shows the sun exactly when the
    displayed theme is [dark] and the moon otherwise, and the text of every
    element that is not the icon, does not contain it and does not lie
    inside it is what it was. *)
Theorem icon_follows_theme (ts : list ThemeToggle) (p : Page) :
  icon_shows_theme E (theme_toggles E ts (ThemeManager.init E p))
  /\ forall j,
       (forall i, theme_icon E = Some i ->
                  j <> i /\ ~ In j (ancestors E i) /\ ~ In i (ancestors E j)) ->
       textContent (theme_toggles E ts (ThemeManager.init E p)) j = textContent p j.
Proof.
  split.
  - destruct ts as [|t ts] using rev_ind; [apply init_shows|].
    rewrite theme_toggles_snoc, toggle_once_is_toggle. apply toggle_shows.
  - intros j Hapart.
    assert (Hj : theme_icon E <> Some j).
    { intros Hi. destruct (Hapart j Hi) as [Hne _]. now apply Hne. }
    rewrite theme_toggles_elsewhere by exact Hj.
    unfold ThemeManager.init. cbv zeta. now rewrite updateIcon_elsewhere.
Qed.

Lemma toggle_stores_nonempty p :
  exists s, localStorage_theme (ThemeManager.toggle E p) = Some s /\ s <> "".
Proof.
  rewrite toggle_persists, toggle_data_theme. eexists. split; [reflexivity|].
  now destruct (JS.or_else (data_theme p) "light" =? "dark").
Qed.

(** X2.  What a toggle stored is what the next page load shows: when a
    page starts with the storage left by a non-empty sequence of toggles,
    [init] (and [initializeTheme]) displays the theme that was displayed
    after the last toggle, whatever attribute the new page starts with. *)
Theorem theme_survives_reload (ts : list ThemeToggle) (p q : Page) :
  ts <> [] ->
  localStorage_theme q = localStorage_theme (theme_toggles E ts p) ->
  data_theme (ThemeManager.init E q) = data_theme (theme_toggles E ts p)
  /\ data_theme (initializeTheme E q) = data_theme (theme_toggles E ts p)
  /\ localStorage_theme (ThemeManager.init E q) = localStorage_theme (theme_toggles E ts p).
Proof.
  intros Hne Hq. destruct (exists_last Hne) as (ts' & t & ->).
  rewrite theme_toggles_snoc, toggle_once_is_toggle in *.
  set (p' := theme_toggles E ts' p) in *.
  assert (Hi : data_theme (ThemeManager.init E q) = data_theme (ThemeManager.toggle E p')).
  { rewrite init_data_theme, Hq.
    destruct (toggle_stores_nonempty p') as (s & Hs & Hne').
    rewrite Hs, or_else_nonempty by exact Hne'.
    now rewrite <- Hs, toggle_persists. }
  repeat split; [exact Hi|exact Hi|].
  unfold ThemeManager.init. cbv zeta. now rewrite updateIcon_localStorage.
Qed.

End ThemeMore.

(** Two toggles on the sample page, then a fresh page with the same
    storage and no attribute yet. *)
Lemma theme_survives_reload_witness :
  data_theme
    (ThemeManager.init demo_env
       (set_localStorage_theme (Some "light") blank_page))
  = data_theme (theme_toggles demo_env [by_ThemeManager; by_toggleTheme None] blank_page).
Proof.
  refine (proj1 (theme_survives_reload demo_env [by_ThemeManager; by_toggleTheme None]
                   blank_page (set_localStorage_theme (Some "light") blank_page)
                   _ eq_refl)).
  discriminate.
Defined.

(** ** Menu: open and closed states *)

Lemma add_absent l t :
  DOMTokenList.contains l t = false -> DOMTokenList.add l t = (l ++ [t])%list.
Proof. intros H. unfold DOMTokenList.add. now rewrite H. Qed.

Lemma add_present l t :
  DOMTokenList.contains l t = true -> DOMTokenList.add l t = l.
Proof. intros H. unfold DOMTokenList.add. now rewrite H. Qed.

Lemma remove_absent l t :
  DOMTokenList.contains l t = false -> DOMTokenList.remove l t = l.
Proof.
  unfold DOMTokenList.contains, DOMTokenList.remove.
  induction l as [|a l IH]; [reflexivity|]. cbn. intros H.
  apply orb_false_iff in H as [Ha Hl].
  rewrite String.eqb_sym, Ha. cbn. now rewrite IH.
Qed.

Lemma remove_add l t :
  DOMTokenList.contains l t = false ->
  DOMTokenList.remove (DOMTokenList.add l t) t = l.
Proof.
  intros H. rewrite add_absent by exact H.
  unfold DOMTokenList.remove. rewrite filter_app. cbn. rewrite String.eqb_refl. cbn.
  rewrite app_nil_r. now apply remove_absent.
Qed.

Lemma remove_add_other l t t' :
  t <> t' ->
  DOMTokenList.remove (DOMTokenList.add l t') t
  = DOMTokenList.add (DOMTokenList.remove l t) t'.
Proof.
  intros Hne. unfold DOMTokenList.add.
  assert (Hc : DOMTokenList.contains (DOMTokenList.remove l t) t'
               = DOMTokenList.contains l t').
  { unfold DOMTokenList.contains, DOMTokenList.remove.
    induction l as [|a l IH]; [reflexivity|]. cbn.
    destruct (String.eqb_spec a t) as [->|Ha]; cbn; rewrite IH; [|reflexivity].
    destruct (String.eqb_spec t' t); [congruence|reflexivity]. }
  rewrite Hc. destruct (DOMTokenList.contains l t'); [reflexivity|].
  unfold DOMTokenList.remove. rewrite filter_app. cbn.
  destruct (String.eqb_spec t' t); [congruence|reflexivity].
Qed.

Lemma contains_add_other l t t' :
  t <> t' ->
  DOMTokenList.contains (DOMTokenList.add l t') t = DOMTokenList.contains l t.
Proof.
  intros Hne. unfold DOMTokenList.add.
  destruct (DOMTokenList.contains l t'); [reflexivity|].
  unfold DOMTokenList.contains. rewrite existsb_app. cbn.
  destruct (String.eqb_spec t t'); [congruence|]. now rewrite !orb_false_r.
Qed.

Lemma contains_remove_other l t t' :
  t <> t' ->
  DOMTokenList.contains (DOMTokenList.remove l t') t = DOMTokenList.contains l t.
Proof.
  intros Hne. unfold DOMTokenList.contains, DOMTokenList.remove.
  induction l as [|a l IH]; [reflexivity|]. cbn.
  destruct (String.eqb_spec a t') as [->|Ha]; cbn; rewrite IH; [|reflexivity].
  destruct (String.eqb_spec t t'); [congruence|reflexivity].
Qed.

Lemma add_add l t : DOMTokenList.add (DOMTokenList.add l t) t = DOMTokenList.add l t.
Proof. apply add_present, contains_add_same. Qed.

Lemma remove_remove l t :
  DOMTokenList.remove (DOMTokenList.remove l t) t = DOMTokenList.remove l t.
Proof. apply remove_absent, contains_remove_same. Qed.

Section MenuStates.
Variable E : Env.
Variables overlay icon : elem.
Hypothesis Hoverlay : menu_overlay E = Some overlay.
Hypothesis Hicon : hamburger_icon E = Some icon.

Lemma isOpen_contains p :
  MenuManager.isOpen E p = classList_contains overlay "open" p.
Proof.
  unfold MenuManager.isOpen, MenuManager.getOverlay. rewrite Hoverlay. apply orb_false_r.
Qed.

Lemma contains_set_body_style x t v p :
  classList_contains x t (set_body_style v p) = classList_contains x t p.
Proof. reflexivity. Qed.

Lemma contains_scrollTo x t y p :
  classList_contains x t (scrollTo y p) = classList_contains x t p.
Proof. reflexivity. Qed.

Lemma open_locks p : body_locked E (MenuManager.open E p) = true.
Proof.
  unfold MenuManager.open, MenuManager.getOverlay, MenuManager.getIcon.
  rewrite Hoverlay, Hicon. cbv zeta. unfold body_locked.
  repeat (apply andb_true_intro; split); try reflexivity.
  rewrite !contains_set_body_style. apply classList_contains_add_same.
Qed.

Lemma close_unlocks p : body_unlocked E (MenuManager.close E p) = true.
Proof.
  unfold MenuManager.close, MenuManager.getOverlay, MenuManager.getIcon.
  rewrite Hoverlay, Hicon. cbv zeta. unfold body_unlocked.
  destruct (JS.truthy (top (body_style p)));
    repeat (apply andb_true_intro; split); try reflexivity;
    rewrite ?contains_scrollTo, !contains_set_body_style;
    now rewrite classList_contains_remove_same.
Qed.

Lemma toggleMenu_open_is_close_on_lock e p :
  classList_contains overlay "open" p = true ->
  body_unlocked E (snd (toggleMenu E e p)) = true.
Proof.
  intros H. unfold toggleMenu. rewrite Hoverlay, Hicon, H. cbv zeta. cbn [snd].
  unfold body_unlocked.
  repeat (apply andb_true_intro; split); try reflexivity.
  rewrite !contains_set_body_style.
  now rewrite classList_contains_remove_same.
Qed.

(** X3.  With the overlay and the icon on the page, after any operation on
    the menu ([open], [close], [toggle] of [MenuManager], the global
    [toggleMenu], [handleMenuLink]) the page is in one of two states: the
    menu is open and the body is locked (class [menu-open], overflow
    hidden, position fixed, full width), or the menu is closed and the body
    carries no trace of the lock. *)
Theorem menu_lock_state (o : MenuOp) (p : Page) :
  (MenuManager.isOpen E (menu_op E o p) = true /\ body_locked E (menu_op E o p) = true)
  \/ (MenuManager.isOpen E (menu_op E o p) = false
      /\ body_unlocked E (menu_op E o p) = true).
Proof.
  assert (Hopen : forall q, MenuManager.isOpen E (MenuManager.open E q) = true
                            /\ body_locked E (MenuManager.open E q) = true).
  { intros q. rewrite isOpen_contains. split; [|apply open_locks].
    apply (open_is_open E overlay icon Hoverlay Hicon). }
  assert (Hclose : forall q, MenuManager.isOpen E (MenuManager.close E q) = false
                             /\ body_unlocked E (MenuManager.close E q) = true).
  { intros q. rewrite isOpen_contains. split; [|apply close_unlocks].
    now apply close_is_closed. }
  destruct o; cbn [menu_op].
  - left. apply Hopen.
  - right. apply Hclose.
  - destruct (classList_contains overlay "open" p) eqn:Hp.
    + right. rewrite (toggle_open E overlay icon Hoverlay Hicon p Hp). apply Hclose.
    + left. rewrite (toggle_closed E overlay icon Hoverlay Hicon p Hp). apply Hopen.
  - destruct (classList_contains overlay "open" p) eqn:Hp.
    + right. split; [|now apply toggleMenu_open_is_close_on_lock].
      rewrite isOpen_contains.
      now apply (toggleMenu_open_is_closed E overlay icon Hoverlay Hicon).
    + left. rewrite (toggleMenu_closed E overlay icon Hoverlay Hicon e p Hp). apply Hopen.
  - right. rewrite handleMenuLink_is_close. apply Hclose.
Qed.

(** X4.  With the overlay and the icon on the page, [MenuManager.toggle]
    and the global [toggleMenu] both flip the answer of [isOpen]; [open]
    makes it true and [close] makes it false. *)
Theorem menu_toggle_flips (e : option Event) (p : Page) :
  MenuManager.isOpen E (MenuManager.toggle E p) = negb (MenuManager.isOpen E p)
  /\ MenuManager.isOpen E (snd (toggleMenu E e p)) = negb (MenuManager.isOpen E p)
  /\ MenuManager.isOpen E (MenuManager.open E p) = true
  /\ MenuManager.isOpen E (MenuManager.close E p) = false.
Proof.
  rewrite !isOpen_contains.
  assert (Ho : classList_contains overlay "open" (MenuManager.open E p) = true)
    by apply (open_is_open E overlay icon Hoverlay Hicon).
  assert (Hc : classList_contains overlay "open" (MenuManager.close E p) = false)
    by now apply close_is_closed.
  destruct (classList_contains overlay "open" p) eqn:Hp; cbn [negb].
  - rewrite (toggle_open E overlay icon Hoverlay Hicon p Hp).
    rewrite (toggleMenu_open_is_closed E overlay icon Hoverlay Hicon e p Hp). auto.
  - rewrite (toggle_closed E overlay icon Hoverlay Hicon p Hp).
    rewrite (toggleMenu_closed E overlay icon Hoverlay Hicon e p Hp). auto.
Qed.

End MenuStates.

(** The sample page with the menu closed: each toggle opens it. *)
Lemma menu_lock_state_witness :
  (MenuManager.isOpen demo_env (menu_op demo_env op_toggle scrolled_page) = true
   /\ body_locked demo_env (menu_op demo_env op_toggle scrolled_page) = true)
  \/ (MenuManager.isOpen demo_env (menu_op demo_env op_toggle scrolled_page) = false
      /\ body_unlocked demo_env (menu_op demo_env op_toggle scrolled_page) = true).
Proof. exact (menu_lock_state demo_env 1 4 eq_refl eq_refl op_toggle scrolled_page). Defined.

Lemma menu_toggle_flips_witness :
  MenuManager.isOpen demo_env (MenuManager.toggle demo_env open_menu_page) = false
  /\ MenuManager.isOpen demo_env (snd (toggleMenu demo_env None open_menu_page)) = false.
Proof.
  pose proof (menu_toggle_flips demo_env 1 4 eq_refl eq_refl None open_menu_page)
    as (H1 & H2 & _).
  exact (conj H1 H2).
Defined.

Section MenuRoundTrip.
Variable E : Env.
Variables overlay icon : elem.
Hypothesis Hoverlay : menu_overlay E = Some overlay.
Hypothesis Hicon : hamburger_icon E = Some icon.

(** The class list of any element after [open], and after [close]. *)
Lemma open_classList p y :
  classList (MenuManager.open E p) y
  = let l := classList p y in
    let l := if Nat.eqb y overlay then DOMTokenList.add l "open" else l in
    let l := if Nat.eqb y icon then DOMTokenList.add l "open" else l in
    if Nat.eqb y (body E) then DOMTokenList.add l "menu-open" else l.
Proof.
  unfold MenuManager.open, MenuManager.getOverlay, MenuManager.getIcon.
  rewrite Hoverlay, Hicon. cbn. unfold update.
  destruct (Nat.eqb_spec y (body E)) as [Hb|Hb], (Nat.eqb_spec y icon) as [Hi|Hi],
    (Nat.eqb_spec y overlay) as [Ho|Ho];
    rewrite <- ?Hb, <- ?Hi, <- ?Ho, ?Nat.eqb_refl;
    repeat match goal with
      | H : ?a <> ?b |- context [Nat.eqb ?a ?b] =>
          rewrite (proj2 (Nat.eqb_neq a b) H)
      | H : ?a <> ?b |- context [Nat.eqb ?b ?a] =>
          rewrite (proj2 (Nat.eqb_neq b a) (not_eq_sym H))
      end; reflexivity.
Qed.

Lemma close_classList p y :
  classList (MenuManager.close E p) y
  = let l := classList p y in
    let l := if Nat.eqb y overlay then DOMTokenList.remove l "open" else l in
    let l := if Nat.eqb y icon then DOMTokenList.remove l "open" else l in
    if Nat.eqb y (body E) then DOMTokenList.remove l "menu-open" else l.
Proof.
  unfold MenuManager.close, MenuManager.getOverlay, MenuManager.getIcon.
  rewrite Hoverlay, Hicon. cbv zeta.
  destruct (JS.truthy (top (body_style p))); cbn; unfold update;
    destruct (Nat.eqb_spec y (body E)) as [Hb|Hb], (Nat.eqb_spec y icon) as [Hi|Hi],
      (Nat.eqb_spec y overlay) as [Ho|Ho];
    rewrite <- ?Hb, <- ?Hi, <- ?Ho, ?Nat.eqb_refl;
    repeat match goal with
      | H : ?a <> ?b |- context [Nat.eqb ?a ?b] =>
          rewrite (proj2 (Nat.eqb_neq a b) H)
      | H : ?a <> ?b |- context [Nat.eqb ?b ?a] =>
          rewrite (proj2 (Nat.eqb_neq b a) (not_eq_sym H))
      end; reflexivity.
Qed.

Lemma close_style p :
  body_style (MenuManager.close E p) = Build_Style "" "" "" "" "".
Proof.
  unfold MenuManager.close, MenuManager.getOverlay, MenuManager.getIcon.
  rewrite Hoverlay, Hicon. cbv zeta.
  now destruct (JS.truthy (top (body_style p))).
Qed.

(** X5.  Opening a closed menu and closing it again gives the page back,
    for a window at a whole number of pixels below 10^21 (offsets are whole
    numbers of pixels throughout; below 10^21 the template literal writes
    them in plain digits): when the overlay and the icon do not carry
    [open] and the body does not carry [menu-open], after [open] and then
    [close] (with the window at any whole offset in between) every element
    has the class list it had, the window is at the offset it had, and all
    five body style properties are empty. *)
Theorem open_close_restores_page (p : Page) (y : N) :
  (scrollY p < 10 ^ 21)%N ->
  classList_contains overlay "open" p = false ->
  classList_contains icon "open" p = false ->
  classList_contains (body E) "menu-open" p = false ->
  (forall x, classList (MenuManager.close E (set_scrollY y (MenuManager.open E p))) x
             = classList p x)
  /\ scrollY (MenuManager.close E (set_scrollY y (MenuManager.open E p))) = scrollY p
  /\ body_style (MenuManager.close E (set_scrollY y (MenuManager.open E p)))
     = Build_Style "" "" "" "" "".
Proof.
  unfold classList_contains. intros _ Ho Hi Hb.
  split; [|split].
  - intros x. rewrite close_classList.
    change (classList (set_scrollY y (MenuManager.open E p)) x)
      with (classList (MenuManager.open E p) x).
    rewrite open_classList. cbv zeta.
    destruct (Nat.eqb_spec x overlay) as [Hxo|Hxo], (Nat.eqb_spec x icon) as [Hxi|Hxi],
      (Nat.eqb_spec x (body E)) as [Hxb|Hxb];
      try rewrite <- Hxo in Ho; try rewrite <- Hxi in Hi; try rewrite <- Hxb in Hb;
      rewrite ?add_add, ?remove_remove;
      repeat (rewrite remove_add_other by discriminate);
      rewrite ?remove_remove;
      repeat match goal with
        | |- context [DOMTokenList.remove (DOMTokenList.add ?l ?t) ?t] =>
            rewrite (remove_add l t) by assumption
        end;
      reflexivity.
  - apply close_restores.
    apply (open_top E overlay icon Hoverlay Hicon p).
  - apply close_style.
Qed.


End MenuRoundTrip.

(** The sample page at offset 100: opened, the window at 0 while locked,
    closed again. *)
Lemma open_close_restores_page_witness :
  classList (MenuManager.close demo_env open_menu_page) 1 = []
  /\ scrollY (MenuManager.close demo_env open_menu_page) = 100%N.
Proof.
  pose proof (open_close_restores_page demo_env 1 4 eq_refl eq_refl scrolled_page 0%N
                eq_refl eq_refl eq_refl eq_refl) as (Hc & Hy & _).
  exact (conj (Hc 1) Hy).
Defined.


(** X7.  When the overlay or the icon is missing from the page, [open],
    [toggle] and the global [toggleMenu] leave the page exactly as it is;
    [close] and [handleMenuLink] still take the lock off the body. *)
Theorem menu_without_elements (E : Env) (e : option Event) (p : Page) :
  menu_overlay E = None \/ hamburger_icon E = None ->
  MenuManager.open E p = p
  /\ MenuManager.toggle E p = p
  /\ snd (toggleMenu E e p) = p
  /\ body_unlocked E (MenuManager.close E p) = true
  /\ body_unlocked E (handleMenuLink E p) = true.
Proof.
  intros H.
  assert (Hc : body_unlocked E (MenuManager.close E p) = true).
  { unfold MenuManager.close, MenuManager.getOverlay, MenuManager.getIcon, body_unlocked.
    cbv zeta.
    destruct (menu_overlay E), (hamburger_icon E), (JS.truthy (top (body_style p)));
      repeat (apply andb_true_intro; split); try reflexivity;
      rewrite ?contains_scrollTo, !contains_set_body_style;
      now rewrite classList_contains_remove_same. }
  unfold MenuManager.open, MenuManager.toggle, toggleMenu, MenuManager.getOverlay,
    MenuManager.getIcon.
  rewrite handleMenuLink_is_close.
  destruct H as [-> | ->]; destruct (menu_overlay E), (hamburger_icon E); auto.
Qed.

Lemma menu_without_elements_witness :
  MenuManager.toggle bare_env scrolled_page = scrolled_page
  /\ snd (toggleMenu bare_env None scrolled_page) = scrolled_page.
Proof.
  pose proof (menu_without_elements bare_env None scrolled_page (or_introl eq_refl))
    as (_ & H1 & H2 & _).
  exact (conj H1 H2).
Defined.

(** ** Listeners at work *)

Section ListenersAtWork.
Variable E : Env.









End ListenersAtWork.


Section KeysAndClicks.
Variable E : Env.
Variables overlay icon : elem.
Hypothesis Hoverlay : menu_overlay E = Some overlay.
Hypothesis Hicon : hamburger_icon E = Some icon.

Lemma keydown_other_key e p :
  key e <> "Escape" -> handleEvent E setup_document_keydown e p = (e, p).
Proof.
  intros H. cbn [handleEvent].
  destruct (String.eqb_spec (key e) "Escape"); [congruence|reflexivity].
Qed.

Lemma keydown_closed_menu e p :
  MenuManager.isOpen E p = false -> handleEvent E setup_document_keydown e p = (e, p).
Proof.
  rewrite (isOpen_contains E overlay Hoverlay). intros H. cbn [handleEvent].
  rewrite Hoverlay, H. now destruct (key e =? "Escape").
Qed.

Lemma keydown_escape_open e p :
  key e = "Escape" -> MenuManager.isOpen E p = true ->
  snd (handleEvent E setup_document_keydown e p) = snd (toggleMenu E (Some e) p).
Proof.
  rewrite (isOpen_contains E overlay Hoverlay). intros Hk H. cbn [handleEvent].
  rewrite Hk, Hoverlay, H. cbn. apply snd_call_with.
Qed.

(** X9.  The Escape key closes an open menu and takes the lock off the
    body; pressed again it changes nothing.  Any other key, and Escape on a
    closed menu, leave the event and the page as they are. *)
Theorem escape_key_closes (e : Event) (p : Page) :
  key e = "Escape" ->
  MenuManager.isOpen E p = true ->
  MenuManager.isOpen E (snd (handleEvent E setup_document_keydown e p)) = false
  /\ body_unlocked E (snd (handleEvent E setup_document_keydown e p)) = true
  /\ handleEvent E setup_document_keydown e
       (snd (handleEvent E setup_document_keydown e p))
     = (e, snd (handleEvent E setup_document_keydown e p))
  /\ (forall e' r, key e' <> "Escape" ->
                   handleEvent E setup_document_keydown e' r = (e', r))
  /\ (forall e' r, MenuManager.isOpen E r = false ->
                   handleEvent E setup_document_keydown e' r = (e', r)).
Proof.
  intros Hk Hopen. rewrite (keydown_escape_open e p Hk Hopen).
  assert (Hc : classList_contains overlay "open" p = true)
    by now rewrite <- (isOpen_contains E overlay Hoverlay).
  assert (Hclosed : MenuManager.isOpen E (snd (toggleMenu E (Some e) p)) = false).
  { rewrite (isOpen_contains E overlay Hoverlay).
    now apply (toggleMenu_open_is_closed E overlay icon Hoverlay Hicon). }
  repeat split.
  - exact Hclosed.
  - now apply (toggleMenu_open_is_close_on_lock E overlay icon Hoverlay Hicon).
  - now apply keydown_closed_menu.
  - intros e' r. apply keydown_other_key.
  - intros e' r. apply keydown_closed_menu.
Qed.





End KeysAndClicks.

Section ThemeButtonClick.
Variable E : Env.
Variable themeButton : elem.


End ThemeButtonClick.

(** The loaded sample page with the menu open over offset 100: Escape. *)
Lemma escape_key_closes_witness :
  MenuManager.isOpen demo_env
    (snd (handleEvent demo_env setup_document_keydown
            (Build_Event keydown (Node 0) "Escape" 0 0 false false) loaded_open_page))
  = false.
Proof.
  exact (proj1 (escape_key_closes demo_env 1 4 eq_refl eq_refl
                  (Build_Event keydown (Node 0) "Escape" 0 0 false false)
                  loaded_open_page eq_refl eq_refl)).
Defined.




(** ** Re-binding the theme button *)

Section ThemeButtonSetup.
Variable E : Env.
Variable themeButton : elem.
Hypothesis Hbutton : theme_toggle E = Some themeButton.

Lemma filter_filter_none {A} (f g : A -> bool) l :
  (forall a, f a = true -> g a = false) -> filter f (filter g l) = [].
Proof.
  intros H. induction l as [|a l IH]; [reflexivity|]. cbn.
  destruct (g a) eqn:Hg; [|exact IH]. cbn.
  destruct (f a) eqn:Hf; [|exact IH]. apply H in Hf. congruence.
Qed.

Lemma filter_filter_all {A} (f g : A -> bool) l :
  (forall a, f a = true -> g a = true) -> filter f (filter g l) = filter f l.
Proof.
  intros H. induction l as [|a l IH]; [reflexivity|]. cbn.
  destruct (g a) eqn:Hg; cbn; destruct (f a) eqn:Hf; try (now rewrite IH).
  apply H in Hf. congruence.
Qed.

Lemma within_self : within E themeButton themeButton = true.
Proof. unfold within. now rewrite Nat.eqb_refl. Qed.

Lemma setupThemeButton_listeners p :
  listeners (setupThemeButton E p)
  = (filter (fun r => negb (target_within E themeButton (reg_target r))) (listeners p)
     ++ [Build_Registration (Node themeButton) click setup_themeButton_click])%list.
Proof. unfold setupThemeButton. rewrite Hbutton. reflexivity. Qed.

Lemma setupThemeButton_at_button p ty :
  listeners_at (Node themeButton) ty (setupThemeButton E p)
  = match ty with click => [setup_themeButton_click] | _ => [] end.
Proof.
  unfold listeners_at. rewrite setupThemeButton_listeners, filter_app.
  rewrite filter_filter_none.
  - cbn. rewrite Nat.eqb_refl. now destruct ty.
  - intros r Hr. apply andb_true_iff in Hr as [Ht _].
    apply EventTarget_eqb_eq in Ht. rewrite Ht. cbn. now rewrite within_self.
Qed.

Lemma setupThemeButton_elsewhere p t ty :
  target_within E themeButton t = false ->
  listeners_at t ty (setupThemeButton E p) = listeners_at t ty p.
Proof.
  intros Ht. unfold listeners_at.
  rewrite setupThemeButton_listeners, filter_app, map_app.
  rewrite filter_filter_all.
  - assert (Hne : EventTarget_eqb (Node themeButton) t = false).
    { destruct (EventTarget_eqb (Node themeButton) t) eqn:Heq; [|reflexivity].
      apply EventTarget_eqb_eq in Heq. rewrite <- Heq in Ht. cbn in Ht.
      rewrite within_self in Ht. discriminate. }
    cbn [filter reg_target reg_type]. rewrite Hne. cbn. apply app_nil_r.
  - intros r Hr. apply andb_true_iff in Hr as [Hrt _].
    apply EventTarget_eqb_eq in Hrt. now rewrite Hrt, Ht.
Qed.

(** X13.  [setupThemeButton] leaves the theme button with exactly one
    listener, its own click listener, whatever listeners the button and the
    elements inside it carried before; listeners elsewhere, class lists and
    texts are untouched, and running it again changes nothing. *)
Theorem setupThemeButton_rebinds (p : Page) :
  (forall ty, listeners_at (Node themeButton) ty (setupThemeButton E p)
              = match ty with click => [setup_themeButton_click] | _ => [] end)
  /\ (forall x ty, within E themeButton x = true -> x <> themeButton ->
                   listeners_at (Node x) ty (setupThemeButton E p) = [])
  /\ (forall t ty, target_within E themeButton t = false ->
                   listeners_at t ty (setupThemeButton E p) = listeners_at t ty p)
  /\ listeners (setupThemeButton E (setupThemeButton E p))
     = listeners (setupThemeButton E p)
  /\ classList (setupThemeButton E p) = classList p
  /\ textContent (setupThemeButton E p) = textContent p.
Proof.
  split; [|split; [|split; [|split; [|split]]]].
  - intros ty. apply setupThemeButton_at_button.
  - intros x ty Hx Hne. unfold listeners_at.
    rewrite setupThemeButton_listeners, filter_app.
    rewrite filter_filter_none.
    + cbn. destruct (Nat.eqb_spec themeButton x); [congruence|reflexivity].
    + intros r Hr. apply andb_true_iff in Hr as [Ht _].
      apply EventTarget_eqb_eq in Ht. rewrite Ht. cbn. now rewrite Hx.
  - intros t ty Ht. now apply setupThemeButton_elsewhere.
  - rewrite !setupThemeButton_listeners, filter_app. cbn. rewrite within_self. cbn.
    rewrite app_nil_r. f_equal.
    induction (listeners p) as [|a l IH]; [reflexivity|]. cbn.
    destruct (negb (target_within E themeButton (reg_target a))) eqn:Ha; [|exact IH].
    cbn. now rewrite Ha, IH.
  - unfold setupThemeButton. now rewrite Hbutton.
  - unfold setupThemeButton. now rewrite Hbutton.
Qed.

End ThemeButtonSetup.

(** The theme button (5) of the loaded sample page carried two click
    listeners; after [setupThemeButton] it carries one. *)
Lemma setupThemeButton_rebinds_witness :
  listeners_at (Node 5) click (setupThemeButton demo_env loaded_page)
  = [setup_themeButton_click].
Proof.
  exact (proj1 (setupThemeButton_rebinds demo_env 5 eq_refl loaded_page) click).
Defined.

(** ** The cursor *)

Section CursorStart.
Variable E : Env.
Variables ring dot : elem.
Hypothesis Hring : custom_cursor E = Some ring.
Hypothesis Hdot : cursor_dot E = Some dot.
Hypothesis Hpointer : touch_capable E = false.

Lemma hover_listeners_added (els : list elem) : forall p,
  let p' := fold_left
              (fun (p : Page) (el : elem) =>
                 let p := addEventListener (Node el) mouseenter cursor_mouseenter p in
                 addEventListener (Node el) mouseleave cursor_mouseleave p)
              els p in
  listeners p'
  = (listeners p
     ++ flat_map
          (fun el : elem =>
             [Build_Registration (Node el) mouseenter cursor_mouseenter;
              Build_Registration (Node el) mouseleave cursor_mouseleave])
          els)%list
  /\ classList p' = classList p
  /\ frame_requests p' = frame_requests p
  /\ style_transform p' = style_transform p.
Proof.
  induction els as [|el els IH]; intros p; cbv zeta.
  - cbn. now rewrite app_nil_r.
  - cbn [fold_left flat_map]. cbv zeta in IH.
    destruct (IH (addEventListener (Node el) mouseleave cursor_mouseleave
                    (addEventListener (Node el) mouseenter cursor_mouseenter p)))
      as (Hl & Hc & Hf & Ht).
    rewrite Hl, Hc, Hf, Ht. cbn. rewrite <- !app_assoc. now repeat split.
Qed.

(** X14.  On a pointer device whose page has both cursor elements, the
    constructor shows the two elements ([active]), adds exactly the
    listeners of [init] after the ones the page had (mousemove on the
    document, mouseenter and mouseleave on every interactive element,
    mousedown and mouseup on the document), places both elements at the
    origin and requests one animation frame, whose handle it keeps. *)
Theorem cursor_starts_on_pointer_device (p : Page) :
  classList_contains ring "active" (snd (LuxuryCursor.new E p)) = true
  /\ classList_contains dot "active" (snd (LuxuryCursor.new E p)) = true
  /\ listeners (snd (LuxuryCursor.new E p)) = (listeners p ++ cursor_listeners E)%list
  /\ style_transform (snd (LuxuryCursor.new E p)) ring = Some (0, 0)%float
  /\ style_transform (snd (LuxuryCursor.new E p)) dot = Some (0, 0)%float
  /\ frame_requests (snd (LuxuryCursor.new E p)) = S (frame_requests p)
  /\ animationFrame (fst (LuxuryCursor.new E p)) = Some (S (frame_requests p))
  /\ destroy (fst (LuxuryCursor.new E p)) = Some (S (frame_requests p)).
Proof.
  unfold LuxuryCursor.new. rewrite Hring, Hdot. cbv zeta. cbn [isTouchDevice].
  rewrite Hpointer. cbn [negb]. unfold LuxuryCursor.init. cbn [isTouchDevice].
  rewrite ?Hpointer, Hring, Hdot. cbv zeta.
  set (p0 := addEventListener TheDocument mousemove cursor_mousemove
               (classList_add dot "active" (classList_add ring "active" p))).
  destruct (hover_listeners_added (interactive_elements E) p0) as (Hl & Hc & Hf & Ht).
  cbv zeta in Hl, Hc, Hf, Ht.
  set (p1 := fold_left _ (interactive_elements E) p0) in *.
  unfold LuxuryCursor.animate. rewrite Hring, Hdot. cbv zeta.
  cbn [fst snd animationFrame set_animationFrame frame_requests set_frame_requests
       assign_transform set_style_transform style_transform classList listeners
       addEventListener set_listeners classList_contains
       mouseX mouseY cursorX cursorY dotX dotY set_cursorX set_cursorY set_dotX set_dotY].
  rewrite Hf, Hl.
  assert (Hz1 : (0 + (0 - 0) * 0.12 = 0)%float) by reflexivity.
  assert (Hz2 : (0 + (0 - 0) * 0.35 = 0)%float) by reflexivity.
  rewrite Hz1, Hz2.
  split; [|split; [|split; [|split; [|split; [|split; [|split]]]]]].
  - unfold classList_contains. cbn [classList set_frame_requests assign_transform
      set_style_transform addEventListener set_listeners]. rewrite Hc.
    change (classList_contains ring "active"
              (classList_add dot "active" (classList_add ring "active" p)) = true).
    apply classList_contains_add, classList_contains_add_same.
  - unfold classList_contains. cbn [classList set_frame_requests assign_transform
      set_style_transform addEventListener set_listeners]. rewrite Hc.
    change (classList_contains dot "active"
              (classList_add dot "active" (classList_add ring "active" p)) = true).
    apply classList_contains_add_same.
  - unfold p0, cursor_listeners. cbn. rewrite <- !app_assoc. reflexivity.
  - unfold update. rewrite Nat.eqb_refl. now destruct (Nat.eqb ring dot).
  - unfold update. now rewrite Nat.eqb_refl.
  - reflexivity.
  - reflexivity.
  - reflexivity.
Qed.

End CursorStart.

(** On the sample document of a pointer device the ring (10) is shown and
    the first frame is requested. *)
Lemma cursor_starts_on_pointer_device_witness :
  classList_contains 10 "active" (snd (LuxuryCursor.new desktop_env blank_page)) = true
  /\ frame_requests (snd (LuxuryCursor.new desktop_env blank_page)) = 1.
Proof.
  pose proof (cursor_starts_on_pointer_device desktop_env 10 11 eq_refl eq_refl eq_refl
                blank_page) as H.
  split; [apply H|]. destruct H as (_ & _ & _ & _ & _ & H & _). exact H.
Defined.

(** X15.  On a touch device, or when one of the two cursor elements is
    missing, the constructor leaves the page as it is (no class, no
    listener, no frame request), keeps no frame handle, so that [destroy]
    cancels nothing, and an animation frame reaching a page that holds this
    object changes nothing. *)
Theorem cursor_stays_off (E : Env) (p : Page) :
  touch_capable E = true \/ custom_cursor E = None \/ cursor_dot E = None ->
  snd (LuxuryCursor.new E p) = p
  /\ animationFrame (fst (LuxuryCursor.new E p)) = None
  /\ destroy (fst (LuxuryCursor.new E p)) = None
  /\ forall q, luxuryCursor q = Some (fst (LuxuryCursor.new E p)) ->
               animation_frame_callback E q = q.
Proof.
  intros H.
  assert (Hnew : LuxuryCursor.new E p
                 = (Build_LuxuryCursorObj (touch_capable E) 0 0 0 0 0 0 false None, p)).
  { unfold LuxuryCursor.new. cbv zeta. cbn [isTouchDevice].
    destruct H as [H|[H|H]]; rewrite H.
    - now destruct (custom_cursor E), (cursor_dot E).
    - reflexivity.
    - now destruct (custom_cursor E). }
  rewrite Hnew. cbn [fst snd]. repeat split.
  intros q Hq. unfold animation_frame_callback. now rewrite Hq.
Qed.

Lemma cursor_stays_off_witness :
  snd (LuxuryCursor.new demo_env loaded_page) = loaded_page.
Proof.
  exact (proj1 (cursor_stays_off demo_env loaded_page (or_introl eq_refl))).
Defined.

Section CursorLoop.
Variable E : Env.

Lemma animate_frame this p :
  let r := LuxuryCursor.animate E this p in
  frame_requests (snd r) = S (frame_requests p)
  /\ animationFrame (fst r) = Some (S (frame_requests p))
  /\ classList (snd r) = classList p
  /\ listeners (snd r) = listeners p
  /\ timers (snd r) = timers p
  /\ textContent (snd r) = textContent p
  /\ body_style (snd r) = body_style p
  /\ data_theme (snd r) = data_theme p
  /\ isHovering (fst r) = isHovering this
  /\ forall x, custom_cursor E <> Some x -> cursor_dot E <> Some x ->
               style_transform (snd r) x = style_transform p x.
Proof.
  unfold LuxuryCursor.animate. cbv zeta.
  destruct (custom_cursor E) as [c|], (cursor_dot E) as [d|]; cbn;
    repeat split; intros x Hc Hd; unfold update;
    repeat match goal with
           | |- context [Nat.eqb x ?y] =>
               destruct (Nat.eqb_spec x y); [subst; congruence|]
           end; reflexivity.
Qed.

(** X16.  The animation loop: every frame requests exactly one further
    frame and stores its handle, so after [n] frames the page has seen [n]
    more requests, and the handle [destroy] would cancel is the one of the
    latest request.  The loop changes nothing but the transforms of the two
    cursor elements: class lists, listeners, timers, texts, the body style
    and the theme stay as they are. *)
Theorem animation_loop_frame (n : nat) (this : LuxuryCursorObj) (p : Page) :
  frame_requests (snd (ticks E n this p)) = n + frame_requests p
  /\ animationFrame (fst (ticks E (S n) this p)) = Some (S n + frame_requests p)
  /\ destroy (fst (ticks E (S n) this p)) = Some (S n + frame_requests p)
  /\ classList (snd (ticks E n this p)) = classList p
  /\ listeners (snd (ticks E n this p)) = listeners p
  /\ timers (snd (ticks E n this p)) = timers p
  /\ textContent (snd (ticks E n this p)) = textContent p
  /\ body_style (snd (ticks E n this p)) = body_style p
  /\ data_theme (snd (ticks E n this p)) = data_theme p
  /\ isHovering (fst (ticks E n this p)) = isHovering this
  /\ forall x, custom_cursor E <> Some x -> cursor_dot E <> Some x ->
               style_transform (snd (ticks E n this p)) x = style_transform p x.
Proof.
  assert (Hinv : forall n,
    frame_requests (snd (ticks E n this p)) = n + frame_requests p
    /\ classList (snd (ticks E n this p)) = classList p
    /\ listeners (snd (ticks E n this p)) = listeners p
    /\ timers (snd (ticks E n this p)) = timers p
    /\ textContent (snd (ticks E n this p)) = textContent p
    /\ body_style (snd (ticks E n this p)) = body_style p
    /\ data_theme (snd (ticks E n this p)) = data_theme p
    /\ isHovering (fst (ticks E n this p)) = isHovering this
    /\ forall x, custom_cursor E <> Some x -> cursor_dot E <> Some x ->
                 style_transform (snd (ticks E n this p)) x = style_transform p x).
  { intros m. induction m as [|m IH]; [now repeat split|].
    cbn [ticks]. destruct (ticks E m this p) as [this' p'] eqn:Ht. cbn [fst snd] in IH.
    destruct IH as (H1 & H2 & H3 & H4 & H5 & H6 & H7 & H8 & H9).
    destruct (animate_frame this' p') as (A1 & _ & A2 & A3 & A4 & A5 & A6 & A7 & A8 & A9).
    cbv zeta in *.
    rewrite A1, A2, A3, A4, A5, A6, A7, A8, H1, H2, H3, H4, H5, H6, H7, H8.
    repeat split. intros x Hc Hd. now rewrite A9, H9. }
  assert (Hh : animationFrame (fst (ticks E (S n) this p)) = Some (S n + frame_requests p)).
  { cbn [ticks]. destruct (Hinv n) as (H1 & _).
    destruct (ticks E n this p) as [this' p']. cbn [fst snd] in H1.
    destruct (animate_frame this' p') as (_ & A & _). cbv zeta in A.
    now rewrite A, H1. }
  destruct (Hinv n) as (H1 & H2 & H3 & H4 & H5 & H6 & H7 & H8 & H9).
  split; [exact H1|]. split; [exact Hh|]. split; [unfold destroy; now rewrite Hh|].
  now repeat split.
Qed.

End CursorLoop.

Section CursorMarkers.
Variable E : Env.
Variables ring dot : elem.
Hypothesis Hring : custom_cursor E = Some ring.
Hypothesis Hdot : cursor_dot E = Some dot.

Lemma contains_on_cursor f t x p :
  classList_contains x t (on_cursor f p) = classList_contains x t p.
Proof. unfold on_cursor. now destruct (luxuryCursor p). Qed.

Lemma classList_add_other x y t t' p :
  t' <> t -> classList_contains x t' (classList_add y t p) = classList_contains x t' p.
Proof.
  intros Hne. unfold classList_contains, classList_add.
  cbn [classList set_classList]. unfold update.
  destruct (Nat.eqb_spec x y) as [Hxy|]; [|reflexivity].
  rewrite Hxy. now apply contains_add_other.
Qed.

Lemma classList_remove_other x y t t' p :
  t' <> t -> classList_contains x t' (classList_remove y t p) = classList_contains x t' p.
Proof.
  intros Hne. unfold classList_contains, classList_remove.
  cbn [classList set_classList]. unfold update.
  destruct (Nat.eqb_spec x y) as [Hxy|]; [|reflexivity].
  rewrite Hxy. now apply contains_remove_other.
Qed.

Lemma luxuryCursor_on_cursor f p :
  luxuryCursor (on_cursor f p) = option_map f (luxuryCursor p).
Proof.
  unfold on_cursor. destruct (luxuryCursor p) eqn:H; [reflexivity|exact H].
Qed.

Lemma marker_added t p :
  let p' := on_cursor_elements E (fun x => classList_add x t) p in
  classList_contains ring t p' = true
  /\ classList_contains dot t p' = true
  /\ luxuryCursor p' = luxuryCursor p
  /\ forall x t', t' <> t -> classList_contains x t' p' = classList_contains x t' p.
Proof.
  unfold on_cursor_elements. rewrite Hring, Hdot. cbv zeta.
  split; [apply classList_contains_add, classList_contains_add_same|].
  split; [apply classList_contains_add_same|]. split; [reflexivity|].
  intros x t' Hne. now rewrite !classList_add_other by exact Hne.
Qed.

Lemma marker_removed t p :
  let p' := on_cursor_elements E (fun x => classList_remove x t) p in
  classList_contains ring t p' = false
  /\ classList_contains dot t p' = false
  /\ luxuryCursor p' = luxuryCursor p
  /\ forall x t', t' <> t -> classList_contains x t' p' = classList_contains x t' p.
Proof.
  unfold on_cursor_elements. rewrite Hring, Hdot. cbv zeta.
  split; [apply classList_contains_remove, classList_contains_remove_same|].
  split; [apply classList_contains_remove_same|]. split; [reflexivity|].
  intros x t' Hne. now rewrite !classList_remove_other by exact Hne.
Qed.

Lemma hover_step b e p :
  let p' := snd (handleEvent E (hover_listener b) e p) in
  classList_contains ring "hover" p' = b
  /\ classList_contains dot "hover" p' = b
  /\ luxuryCursor p' = option_map (set_isHovering b) (luxuryCursor p)
  /\ forall x t, t <> "hover" -> classList_contains x t p' = classList_contains x t p.
Proof.
  destruct b; cbn [hover_listener handleEvent snd]; cbv zeta.
  - destruct (marker_added "hover" (on_cursor (set_isHovering true) p))
      as (H1 & H2 & H3 & H4). cbv zeta in *.
    rewrite H1, H2, H3. repeat split.
    + apply luxuryCursor_on_cursor.
    + intros x t Ht. now rewrite H4, contains_on_cursor.
  - destruct (marker_removed "hover" (on_cursor (set_isHovering false) p))
      as (H1 & H2 & H3 & H4). cbv zeta in *.
    rewrite H1, H2, H3. repeat split.
    + apply luxuryCursor_on_cursor.
    + intros x t Ht. now rewrite H4, contains_on_cursor.
Qed.

Lemma press_step b e p :
  let p' := snd (handleEvent E (press_listener b) e p) in
  classList_contains ring "click" p' = b
  /\ classList_contains dot "click" p' = b
  /\ luxuryCursor p' = luxuryCursor p
  /\ forall x t, t <> "click" -> classList_contains x t p' = classList_contains x t p.
Proof.
  destruct b; cbn [press_listener handleEvent snd]; cbv zeta.
  - apply marker_added.
  - apply marker_removed.
Qed.

Lemma handle_all_snoc h evs be p :
  handle_all E h (evs ++ [be]) p
  = snd (handleEvent E (h (fst be)) (snd be) (handle_all E h evs p)).
Proof. unfold handle_all. now rewrite fold_left_app. Qed.

Lemma hover_all_frame evs : forall p,
  (luxuryCursor p = None -> luxuryCursor (handle_all E hover_listener evs p) = None)
  /\ (luxuryCursor p <> None -> luxuryCursor (handle_all E hover_listener evs p) <> None)
  /\ forall x t, t <> "hover" ->
       classList_contains x t (handle_all E hover_listener evs p)
       = classList_contains x t p.
Proof.
  induction evs as [|[b e] evs IH] using rev_ind; intros p; [now repeat split|].
  rewrite handle_all_snoc. cbn [fst snd].
  destruct (hover_step b e (handle_all E hover_listener evs p)) as (_ & _ & H3 & H4).
  destruct (IH p) as (I1 & I2 & I3). cbv zeta in *. rewrite H3.
  split; [|split].
  - intros H. now rewrite (I1 H).
  - intros H. specialize (I2 H).
    now destruct (luxuryCursor (handle_all E hover_listener evs p)).
  - intros x t Ht. now rewrite H4, I3.
Qed.

Lemma press_all_frame evs : forall p,
  luxuryCursor (handle_all E press_listener evs p) = luxuryCursor p
  /\ forall x t, t <> "click" ->
       classList_contains x t (handle_all E press_listener evs p)
       = classList_contains x t p.
Proof.
  induction evs as [|[b e] evs IH] using rev_ind; intros p; [now repeat split|].
  rewrite handle_all_snoc. cbn [fst snd].
  destruct (press_step b e (handle_all E press_listener evs p)) as (_ & _ & H3 & H4).
  destruct (IH p) as (I1 & I2). cbv zeta in *. rewrite H3.
  split; [exact I1|]. intros x t Ht. now rewrite H4, I2.
Qed.

(** X17.  The hover and press markers of the cursor are flags, not
    counters: after any sequence of mouseenter and mouseleave events on
    interactive elements, the ring and the dot carry [hover] exactly when
    the last event was a mouseenter (so leaving an inner element while the
    pointer is still over an outer one takes the marker off), and
    [isHovering] says the same; after any sequence of mousedown and mouseup
    events they carry [click] exactly when the last one was a mousedown.
    Neither kind of event touches any other class of any element. *)
Theorem cursor_markers_follow_last_event
    (evs : list (bool * Event)) (b : bool) (e : Event) (p : Page) :
  (classList_contains ring "hover" (handle_all E hover_listener (evs ++ [(b, e)]) p) = b
   /\ classList_contains dot "hover" (handle_all E hover_listener (evs ++ [(b, e)]) p) = b
   /\ option_map isHovering (luxuryCursor (handle_all E hover_listener (evs ++ [(b, e)]) p))
      = option_map (fun _ => b) (luxuryCursor p)
   /\ forall x t, t <> "hover" ->
        classList_contains x t (handle_all E hover_listener (evs ++ [(b, e)]) p)
        = classList_contains x t p)
  /\ (classList_contains ring "click" (handle_all E press_listener (evs ++ [(b, e)]) p) = b
      /\ classList_contains dot "click" (handle_all E press_listener (evs ++ [(b, e)]) p) = b
      /\ forall x t, t <> "click" ->
           classList_contains x t (handle_all E press_listener (evs ++ [(b, e)]) p)
           = classList_contains x t p).
Proof.
  rewrite !handle_all_snoc. cbn [fst snd]. split.
  - destruct (hover_step b e (handle_all E hover_listener evs p)) as (H1 & H2 & H3 & H4).
    destruct (hover_all_frame evs p) as (I1 & I2 & I3). cbv zeta in *.
    split; [exact H1|]. split; [exact H2|]. split.
    + rewrite H3. destruct (luxuryCursor p) eqn:Hp.
      * assert (Hn : luxuryCursor (handle_all E hover_listener evs p) <> None)
          by (apply I2; discriminate).
        now destruct (luxuryCursor (handle_all E hover_listener evs p)).
      * now rewrite I1.
    + intros x t Ht. now rewrite H4, I3.
  - destruct (press_step b e (handle_all E press_listener evs p)) as (H1 & H2 & _ & H4).
    destruct (press_all_frame evs p) as (_ & I2). cbv zeta in *.
    split; [exact H1|]. split; [exact H2|].
    intros x t Ht. now rewrite H4, I2.
Qed.

End CursorMarkers.

(** Entering two nested elements and leaving the inner one takes the hover
    marker off the ring (10) of the sample document. *)
Lemma cursor_markers_follow_last_event_witness :
  classList_contains 10 "hover"
    (handle_all desktop_env hover_listener
       ([(true, Build_Event mouseenter (Node 4) "" 0 0 false false);
         (true, Build_Event mouseenter (Node 5) "" 0 0 false false)]
        ++ [(false, Build_Event mouseleave (Node 5) "" 0 0 false false)])
       blank_page)
  = false.
Proof.
  exact (proj1 (proj1 (cursor_markers_follow_last_event desktop_env 10 11 eq_refl eq_refl
                         [(true, Build_Event mouseenter (Node 4) "" 0 0 false false);
                          (true, Build_Event mouseenter (Node 5) "" 0 0 false false)]
                         false (Build_Event mouseleave (Node 5) "" 0 0 false false)
                         blank_page))).
Defined.

(** ** Scroll animations *)

Lemma existsb_eqb_In (x : elem) (l : list elem) :
  existsb (Nat.eqb x) l = true <-> In x l.
Proof.
  rewrite existsb_exists. split.
  - intros (y & Hy & Heq). apply Nat.eqb_eq in Heq. now rewrite Heq.
  - intros H. exists x. split; [exact H|apply Nat.eqb_refl].
Qed.

Lemma existsb_eqb_app (x : elem) (l l' : list elem) :
  existsb (Nat.eqb x) (l ++ l') = existsb (Nat.eqb x) l || existsb (Nat.eqb x) l'.
Proof. apply existsb_app. Qed.

Lemma existsb_eqb_filter (x y : elem) (l : list elem) :
  existsb (Nat.eqb x) (filter (fun z => negb (Nat.eqb z y)) l)
  = negb (Nat.eqb x y) && existsb (Nat.eqb x) l.
Proof.
  induction l as [|a l IH]; [now rewrite andb_false_r|]. cbn.
  destruct (Nat.eqb_spec a y) as [Hay|Hay]; cbn; rewrite IH.
  - destruct (Nat.eqb_spec x a) as [Hxa|Hxa]; [|reflexivity].
    destruct (Nat.eqb_spec x y); [reflexivity|congruence].
  - destruct (Nat.eqb_spec x a) as [Hxa|Hxa]; [|reflexivity].
    destruct (Nat.eqb_spec x y); [congruence|reflexivity].
Qed.

Section ScrollInit.
Variable E : Env.
Hypothesis Hsupported : has_IntersectionObserver E = true.

Lemma observe_all (els : list elem) : forall targets,
  NoDup targets ->
  exists targets',
    fold_left (fun (this : ScrollAnimationManagerObj) (el : elem) =>
                 ScrollAnimationManager.observe el this)
      els (Build_ScrollAnimationManagerObj (Some targets))
    = Build_ScrollAnimationManagerObj (Some targets')
    /\ NoDup targets'
    /\ forall x, existsb (Nat.eqb x) targets'
                 = existsb (Nat.eqb x) targets || existsb (Nat.eqb x) els.
Proof.
  induction els as [|el els IH]; intros targets Hnd.
  - exists targets. cbn. split; [reflexivity|]. split; [exact Hnd|].
    intros x. now rewrite orb_false_r.
  - cbn [fold_left]. unfold ScrollAnimationManager.observe at 2. cbn [observer].
    destruct (existsb (Nat.eqb el) targets) eqn:Hin.
    + destruct (IH targets Hnd) as (t' & Hf & Hn & Hx). exists t'.
      split; [exact Hf|]. split; [exact Hn|]. intros x. rewrite Hx. cbn.
      destruct (Nat.eqb_spec x el) as [Hxe|]; [|reflexivity].
      rewrite Hxe, Hin. reflexivity.
    + assert (Hnd' : NoDup (targets ++ [el])).
      { apply NoDup_app; [exact Hnd|repeat constructor; intros []|].
        intros y Hy [Hy'|[]]. rewrite <- Hy' in Hy.
        apply existsb_eqb_In in Hy. congruence. }
      destruct (IH (targets ++ [el])%list Hnd') as (t' & Hf & Hn & Hx). exists t'.
      split; [exact Hf|]. split; [exact Hn|]. intros x.
      rewrite Hx, existsb_eqb_app. cbn. now rewrite orb_false_r, orb_assoc.
Qed.

Lemma init_with_observer (this : ScrollAnimationManagerObj) (p : Page) :
  scrollAnimationManager p = Some this ->
  (forall x, observed x (ScrollAnimationManager.init E p)
             = existsb (Nat.eqb x) (scroll_animate E))
  /\ (exists targets,
        scrollAnimationManager (ScrollAnimationManager.init E p)
        = Some (Build_ScrollAnimationManagerObj (Some targets))
        /\ NoDup targets)
  /\ classList (ScrollAnimationManager.init E p) = classList p
  /\ listeners (ScrollAnimationManager.init E p) = listeners p
  /\ timers (ScrollAnimationManager.init E p)
     = (timers p
        ++ match hero_scroll_animate E with
           | [] => []
           | _ :: _ => [hero_stagger 100 (map Some (hero_scroll_animate E))]
           end)%list.
Proof.
  intros Hthis. unfold ScrollAnimationManager.init. rewrite Hthis, Hsupported.
  cbn [negb]. cbv zeta.
  destruct (observe_all (scroll_animate E) [] (NoDup_nil _)) as (t' & Hf & Hn & Hx).
  rewrite Hf.
  destruct (hero_scroll_animate E) as [|h hs] eqn:Hhero; cbn [List.length Nat.ltb Nat.leb].
  - unfold observed. cbn. rewrite app_nil_r. repeat split; eauto.
  - unfold observed, setTimeout. cbn. repeat split; eauto.
Qed.

(** X18.  Where the engine has [IntersectionObserver], [init] makes the
    observer watch exactly the elements tagged [scroll-animate], each of
    them once; it marks nothing and adds no listener, and it sets one timer
    (the stagger of the hero elements, 100 ms) exactly when the page has
    hero elements. *)
Theorem manager_init_observes (this : ScrollAnimationManagerObj) (p : Page) :
  scrollAnimationManager p = Some this ->
  (forall x, observed x (ScrollAnimationManager.init E p)
             = existsb (Nat.eqb x) (scroll_animate E))
  /\ (exists targets,
        scrollAnimationManager (ScrollAnimationManager.init E p)
        = Some (Build_ScrollAnimationManagerObj (Some targets))
        /\ NoDup targets)
  /\ classList (ScrollAnimationManager.init E p) = classList p
  /\ listeners (ScrollAnimationManager.init E p) = listeners p
  /\ timers (ScrollAnimationManager.init E p)
     = (timers p
        ++ match hero_scroll_animate E with
           | [] => []
           | _ :: _ => [hero_stagger 100 (map Some (hero_scroll_animate E))]
           end)%list.
Proof. apply init_with_observer. Qed.

End ScrollInit.

(** On the sample document the two tagged elements (8 and 9) are observed
    after [init]. *)
Lemma manager_init_observes_witness :
  observed 9
    (ScrollAnimationManager.init demo_env
       (set_scrollAnimationManager (Some ScrollAnimationManager.new) blank_page))
  = true.
Proof.
  exact (proj1 (manager_init_observes demo_env eq_refl ScrollAnimationManager.new
                  (set_scrollAnimationManager (Some ScrollAnimationManager.new) blank_page)
                  eq_refl) 9).
Defined.

Section HeroTimers.
Variable E : Env.

Lemma nth_error_middle {A} (l : list A) a l' :
  nth_error (l ++ a :: l') (List.length l) = Some a.
Proof. induction l as [|b l IH]; [reflexivity|exact IH]. Qed.

Lemma remove_middle {A} (l : list A) a l' :
  (firstn (List.length l) (l ++ a :: l') ++ skipn (S (List.length l)) (l ++ a :: l'))%list
  = (l ++ l')%list.
Proof.
  induction l as [|b l IH]; [reflexivity|].
  change ((b :: firstn (List.length l) (l ++ a :: l')
             ++ skipn (S (List.length l)) (l ++ a :: l'))%list = (b :: l ++ l')%list).
  now rewrite IH.
Qed.

Lemma set_all_timers (g : nat * option elem -> Timer) (l : list (nat * option elem)) :
  forall p,
  let p' := fold_left (fun (p : Page) (ie : nat * option elem) => setTimeout (g ie) p) l p in
  timers p' = (timers p ++ map g l)%list
  /\ classList p' = classList p
  /\ scrollAnimationManager p' = scrollAnimationManager p
  /\ listeners p' = listeners p.
Proof.
  induction l as [|a l IH]; intros p; cbv zeta.
  - cbn. now rewrite app_nil_r.
  - cbn [fold_left map]. destruct (IH (setTimeout (g a) p)) as (H1 & H2 & H3 & H4).
    cbv zeta in *. rewrite H1, H2, H3, H4. cbn. rewrite <- app_assoc. now repeat split.
Qed.

Lemma fire_stagger ts d hs ts' p :
  timers p = (ts ++ hero_stagger d hs :: ts')%list ->
  timers (fire (List.length ts) p) = (ts ++ ts' ++ hero_reveals hs)%list
  /\ classList (fire (List.length ts) p) = classList p
  /\ scrollAnimationManager (fire (List.length ts) p) = scrollAnimationManager p
  /\ listeners (fire (List.length ts) p) = listeners p.
Proof.
  intros Ht. unfold fire. rewrite Ht, nth_error_middle, remove_middle.
  cbn [ScrollAnimationManager.run_timer].
  destruct (set_all_timers (fun ie => hero_reveal (fst ie * 100) (snd ie))
              (combine (seq 0 (List.length hs)) hs)
              (set_timers (ts ++ ts') p)) as (H1 & H2 & H3 & H4).
  cbv zeta in *. rewrite H1, H2, H3, H4. cbn. rewrite <- app_assoc. now repeat split.
Qed.

Lemma fire_reveal ts d el ts' p :
  timers p = (ts ++ hero_reveal d el :: ts')%list ->
  timers (fire (List.length ts) p) = (ts ++ ts')%list
  /\ (forall x, el = Some x -> animated x (fire (List.length ts) p) = true)
  /\ (forall x, animated x p = true -> animated x (fire (List.length ts) p) = true)
  /\ (forall x, el <> Some x -> classList (fire (List.length ts) p) x = classList p x).
Proof.
  intros Ht. unfold fire. rewrite Ht, nth_error_middle, remove_middle.
  cbn [ScrollAnimationManager.run_timer]. destruct el as [y|].
  - split; [reflexivity|]. split; [|split].
    + intros x Hx. injection Hx as ->. apply classList_contains_add_same.
    + intros x Hx. now apply animated_add.
    + intros x Hx. unfold classList_add. cbn. unfold update.
      destruct (Nat.eqb_spec x y); [congruence|reflexivity].
  - split; [reflexivity|]. split; [discriminate|]. split; [auto|reflexivity].
Qed.

Lemma fire_reveals (rs : list (nat * option elem)) : forall ts p,
  timers p
  = (ts ++ map (fun ie : nat * option elem => hero_reveal (fst ie * 100) (snd ie)) rs)%list ->
  let p' := run E (repeat (timeout (List.length ts)) (List.length rs)) p in
  timers p' = ts
  /\ (forall x, In (Some x) (map snd rs) -> animated x p' = true)
  /\ (forall x, animated x p = true -> animated x p' = true)
  /\ (forall x, ~ In (Some x) (map snd rs) -> classList p' x = classList p x).
Proof.
  induction rs as [|[i el] rs IH]; intros ts p Ht; cbv zeta.
  - cbn in *. rewrite app_nil_r in Ht. split; [exact Ht|].
    split; [intros x []|]. split; auto.
  - cbn [List.length repeat map fst snd] in *.
    change (run E (timeout (List.length ts) :: ?l) p)
      with (run E l (fire (List.length ts) p)).
    destruct (fire_reveal ts _ el _ p Ht) as (F1 & F2 & F3 & F4).
    destruct (IH ts (fire (List.length ts) p) F1) as (I1 & I2 & I3 & I4). cbv zeta in *.
    split; [exact I1|]. split; [|split].
    + intros x [Hx|Hx]; [apply I3, F2, Hx|apply I2, Hx].
    + intros x Hx. apply I3, F3, Hx.
    + intros x Hx. rewrite I4, F4; [reflexivity| |]; intros H; apply Hx; [now left|now right].
Qed.

Lemma snd_combine_seq {A} (l : list A) : forall k,
  map snd (combine (seq k (List.length l)) l) = l.
Proof.
  induction l as [|a l IH]; intros k; [reflexivity|]. cbn. now rewrite IH.
Qed.

(** X19.  The hero elements are revealed by timers alone.  After [init] on
    an engine with [IntersectionObserver], when the page has hero elements:
    the timer [init] set is the last one; when it fires it marks nothing and
    sets one timer per hero element, in document order, the [index]-th due
    after [index * 100] ms; once these have fired, every hero element
    carries [animate], the class lists of all other elements are as before
    [init], and no timer of the script is left but those the page already
    had. *)
Theorem hero_elements_revealed_by_timers (this : ScrollAnimationManagerObj) (p : Page) :
  has_IntersectionObserver E = true ->
  scrollAnimationManager p = Some this ->
  hero_scroll_animate E <> [] ->
  let k := List.length (timers p) in
  let n := List.length (hero_scroll_animate E) in
  let p1 := ScrollAnimationManager.init E p in
  let p2 := step E (timeout k) p1 in
  let p3 := run E (repeat (timeout k) n) p2 in
  timers p1 = (timers p ++ [hero_stagger 100 (map Some (hero_scroll_animate E))])%list
  /\ timers p2 = (timers p ++ hero_reveals (map Some (hero_scroll_animate E)))%list
  /\ classList p2 = classList p
  /\ timers p3 = timers p
  /\ (forall x, In x (hero_scroll_animate E) -> animated x p3 = true)
  /\ (forall x, ~ In x (hero_scroll_animate E) -> classList p3 x = classList p x).
Proof.
  intros Hio Hthis Hhero. cbv zeta.
  destruct (init_with_observer E Hio this p Hthis) as (_ & _ & Hc & _ & Ht).
  set (p1 := ScrollAnimationManager.init E p) in *.
  assert (Ht1 : timers p1
                = (timers p ++ hero_stagger 100 (map Some (hero_scroll_animate E)) :: [])%list).
  { rewrite Ht. destruct (hero_scroll_animate E); [congruence|reflexivity]. }
  destruct (fire_stagger _ _ _ _ p1 Ht1) as (F1 & F2 & _).
  cbn [step]. cbn [app] in F1. set (p2 := fire _ p1) in *.
  assert (Hlen : List.length (hero_scroll_animate E)
                 = List.length (combine (seq 0 (List.length (map Some (hero_scroll_animate E))))
                                  (map Some (hero_scroll_animate E)))).
  { rewrite length_combine, length_seq, length_map. now rewrite Nat.min_id. }
  rewrite Hlen.
  destruct (fire_reveals _ (timers p) p2 F1) as (R1 & R2 & _ & R4). cbv zeta in *.
  rewrite snd_combine_seq in R2, R4.
  split; [exact Ht1|]. split; [exact F1|]. split; [now rewrite F2|].
  split; [exact R1|]. split.
  - intros x Hx. apply R2. now apply in_map.
  - intros x Hx. rewrite R4, F2, Hc; [reflexivity|].
    intros H. apply in_map_iff in H as (y & Hy & Hin). now injection Hy as ->.
Qed.

End HeroTimers.

(** The hero element (8) of the sample document is marked once both timers
    have fired. *)
Lemma hero_elements_revealed_by_timers_witness :
  animated 8
    (run demo_env (repeat (timeout 0) 1)
       (step demo_env (timeout 0)
          (ScrollAnimationManager.init demo_env
             (set_scrollAnimationManager (Some ScrollAnimationManager.new) blank_page))))
  = true.
Proof.
  assert (Hhero : hero_scroll_animate demo_env <> []) by discriminate.
  destruct (hero_elements_revealed_by_timers demo_env ScrollAnimationManager.new
              (set_scrollAnimationManager (Some ScrollAnimationManager.new) blank_page)
              eq_refl eq_refl Hhero) as (_ & _ & _ & _ & H & _).
  apply (H 8). now left.
Defined.

Section CallbackFrame.

Lemma observed_unobserve x y this p :
  scrollAnimationManager p = Some this ->
  observed x (set_scrollAnimationManager
                (Some (ScrollAnimationManager.unobserve y this)) p)
  = negb (Nat.eqb x y) && observed x p.
Proof.
  intros Hthis. unfold observed, ScrollAnimationManager.unobserve. cbn. rewrite Hthis.
  destruct (observer this) as [targets|] eqn:Ho; cbn; rewrite ?Ho.
  - apply existsb_eqb_filter.
  - now rewrite andb_false_r.
Qed.

Lemma callback_entry_frame (entry : elem * bool) p :
  let p' := ScrollAnimationManager.callback [entry] p in
  (forall y, observed y p' = true -> observed y p = true)
  /\ (forall y, animated y p = true -> animated y p' = true)
  /\ (forall y, entry <> (y, true) ->
                classList p' y = classList p y /\ observed y p' = observed y p)
  /\ listeners p' = listeners p /\ timers p' = timers p
  /\ body_style p' = body_style p /\ data_theme p' = data_theme p.
Proof.
  destruct entry as [z b]. unfold ScrollAnimationManager.callback. cbn [fold_left fst snd].
  destruct b; [|now repeat split]. cbv zeta.
  assert (Hcl : forall y, (z, true) <> (y, true) ->
                          classList (classList_add z "animate" p) y = classList p y).
  { intros y Hy. unfold classList_add. cbn. unfold update.
    destruct (Nat.eqb_spec y z); [congruence|reflexivity]. }
  change (scrollAnimationManager (classList_add z "animate" p))
    with (scrollAnimationManager p).
  destruct (scrollAnimationManager p) as [this|] eqn:Hthis.
  - assert (Hobs : forall y,
              observed y (set_scrollAnimationManager
                            (Some (ScrollAnimationManager.unobserve z this))
                            (classList_add z "animate" p))
              = negb (Nat.eqb y z) && observed y p).
    { intros y. now rewrite (observed_unobserve y z this) by exact Hthis. }
    split; [|split; [|split]].
    + intros y. rewrite Hobs. intros H. now apply andb_true_iff in H.
    + intros y Hy. now apply animated_add.
    + intros y Hy. split; [now apply Hcl|]. rewrite Hobs.
      destruct (Nat.eqb_spec y z); [congruence|reflexivity].
    + now repeat split.
  - split; [|split; [|split]].
    + intros y. unfold observed. cbn. now rewrite Hthis.
    + intros y Hy. now apply animated_add.
    + intros y Hy. split; [now apply Hcl|]. unfold observed. cbn. now rewrite Hthis.
    + now repeat split.
Qed.

Lemma callback_cons entry entries p :
  ScrollAnimationManager.callback (entry :: entries) p
  = ScrollAnimationManager.callback entries (ScrollAnimationManager.callback [entry] p).
Proof. reflexivity. Qed.

(** X20.  What the observer's callback leaves alone.  An element for which
    the batch has no intersecting entry keeps its class list and stays
    observed or unobserved as it was, whatever else the batch reports.  For
    every element, the callback never starts an observation and never takes
    [animate] off; and it touches no listener, timer, body style or
    theme. *)
Theorem callback_leaves_the_rest (entries : list (elem * bool)) (p : Page) (x : elem) :
  ~ In (x, true) entries ->
  classList (ScrollAnimationManager.callback entries p) x = classList p x
  /\ observed x (ScrollAnimationManager.callback entries p) = observed x p
  /\ (forall y, observed y (ScrollAnimationManager.callback entries p) = true ->
                observed y p = true)
  /\ (forall y, animated y p = true ->
                animated y (ScrollAnimationManager.callback entries p) = true)
  /\ listeners (ScrollAnimationManager.callback entries p) = listeners p
  /\ timers (ScrollAnimationManager.callback entries p) = timers p
  /\ body_style (ScrollAnimationManager.callback entries p) = body_style p
  /\ data_theme (ScrollAnimationManager.callback entries p) = data_theme p.
Proof.
  revert p. induction entries as [|entry entries IH]; intros p Hx; [now repeat split|].
  rewrite callback_cons.
  destruct (callback_entry_frame entry p) as (E1 & E2 & E3 & E4 & E5 & E6 & E7).
  cbv zeta in *.
  assert (Hne : entry <> (x, true)) by (intros H; apply Hx; now left).
  assert (Hx' : ~ In (x, true) entries) by (intros H; apply Hx; now right).
  destruct (E3 x Hne) as [E3a E3b].
  destruct (IH (ScrollAnimationManager.callback [entry] p) Hx')
    as (I1 & I2 & I3 & I4 & I5 & I6 & I7 & I8).
  rewrite I1, I2, I5, I6, I7, I8, E3a, E3b, E4, E5, E6, E7.
  repeat split; auto.
Qed.

End CallbackFrame.

(** On the sample page after [init], a batch that reports element 9 as
    intersecting and element 8 as not intersecting leaves 8 observed. *)
Lemma callback_leaves_the_rest_witness :
  observed 8
    (ScrollAnimationManager.callback [(9, true); (8, false)]
       (ScrollAnimationManager.init demo_env
          (set_scrollAnimationManager (Some ScrollAnimationManager.new) blank_page)))
  = true.
Proof.
  assert (H : ~ In (8, true) [(9, true); (8, false)])
    by (intros [H|[H|[]]]; discriminate).
  destruct (callback_leaves_the_rest [(9, true); (8, false)]
              (ScrollAnimationManager.init demo_env
                 (set_scrollAnimationManager (Some ScrollAnimationManager.new) blank_page))
              8 H) as (_ & Ho & _).
  rewrite Ho. reflexivity.
Defined.

(** ** The initializer *)

Section StartupView.
Variable E : Env.
Variable p : Page.

Lemma startup_kept_same q q' :
  data_theme q' = data_theme q ->
  localStorage_theme q' = localStorage_theme q ->
  textContent q' = textContent q ->
  body_style q' = body_style q ->
  scrollY q' = scrollY q ->
  classList q' = classList q ->
  startup_kept E p q -> startup_kept E p q'.
Proof.
  intros H1 H2 H3 H4 H5 H6 (K1 & K2 & K3 & K4 & K5 & K6).
  unfold startup_kept, icon_shows_theme, classList_contains in *.
  rewrite H1, H2, H3, H4, H5, H6. now repeat split.
Qed.

Lemma startup_kept_listener t ty l q :
  startup_kept E p q -> startup_kept E p (addEventListener t ty l q).
Proof. now apply startup_kept_same. Qed.

Lemma startup_kept_clone y q :
  startup_kept E p q -> startup_kept E p (replaceWithClone E y q).
Proof. now apply startup_kept_same. Qed.

Lemma startup_kept_add y t q :
  t = "active" \/ t = "animate" ->
  startup_kept E p q -> startup_kept E p (classList_add y t q).
Proof.
  intros Ht (K1 & K2 & K3 & K4 & K5 & K6).
  repeat split; try assumption.
  intros x t' Ha Hn. rewrite classList_add_other; [now apply K6|].
  destruct Ht as [->| ->]; assumption.
Qed.

Lemma startup_kept_initializeTheme : startup_kept E p (initializeTheme E p).
Proof.
  unfold initializeTheme, startup_kept, icon_shows_theme. cbv zeta.
  destruct (theme_icon E) as [i|] eqn:Hi; cbn; repeat split; try discriminate.
  intros j Hj. injection Hj as <-. unfold update. rewrite Nat.eqb_refl.
  now destruct (localStorage_theme p) as [[|c s]|].
Qed.

Lemma startup_kept_theme_init q :
  startup_kept E p q -> startup_kept E p (ThemeManager.init E q).
Proof.
  intros (K1 & K2 & K3 & K4 & K5 & K6).
  unfold ThemeManager.init, ThemeManager.updateIcon, ThemeManager.getThemeIcon,
    ThemeManager.setTheme, ThemeManager.themeKey, ThemeManager.defaultTheme,
    startup_kept, icon_shows_theme.
  cbv zeta. rewrite K2.
  destruct (theme_icon E) as [i|] eqn:Hi; cbn; repeat split; try assumption;
    try discriminate.
  intros j Hj. injection Hj as <-. unfold update. rewrite Nat.eqb_refl.
  now destruct (localStorage_theme p) as [[|c s]|].
Qed.

Lemma startup_kept_setup q :
  startup_kept E p q -> startup_kept E p (setupMenuButton E (setupThemeButton E q)).
Proof.
  intros H.
  assert (H1 : startup_kept E p (setupThemeButton E q)).
  { unfold setupThemeButton. destruct (theme_toggle E); [|exact H].
    now apply startup_kept_listener, startup_kept_clone. }
  unfold setupMenuButton. cbv zeta.
  apply fold_left_keeps; [intros; now apply startup_kept_listener|].
  apply startup_kept_listener.
  destruct (menu_overlay E), (hamburger_icon E);
    repeat apply startup_kept_listener; exact H1.
Qed.

Lemma startup_kept_app q :
  startup_kept E p q -> startup_kept E p (PortfolioApp.init E (set_portfolioApp true q)).
Proof.
  intros H. unfold PortfolioApp.init, PortfolioApp.attachEventListeners. cbv zeta.
  assert (H1 : startup_kept E p (ThemeManager.init E (set_portfolioApp true q))).
  { apply startup_kept_theme_init. revert H. now apply startup_kept_same. }
  destruct (theme_toggle E), (hamburger_icon E), (menu_overlay E), (menu_links E);
    repeat apply startup_kept_listener; exact H1.
Qed.

Lemma startup_kept_cursor q :
  startup_kept E p q -> startup_kept E p (snd (LuxuryCursor.new E q)).
Proof.
  intros H. unfold LuxuryCursor.new.
  destruct (custom_cursor E) as [c|] eqn:Hc, (cursor_dot E) as [d|] eqn:Hd; try exact H.
  cbv zeta. destruct (negb _); [|exact H].
  unfold LuxuryCursor.init. destruct (isTouchDevice _); [exact H|].
  rewrite Hc, Hd. unfold LuxuryCursor.animate. rewrite Hc, Hd. cbv zeta. cbn [snd].
  match goal with
  | |- startup_kept E p (set_frame_requests _ (assign_transform _ _ _
                            (assign_transform _ _ _ ?r))) =>
      apply (startup_kept_same r); try reflexivity
  end.
  do 2 apply startup_kept_listener.
  apply fold_left_keeps; [intros; now do 2 apply startup_kept_listener|].
  apply startup_kept_listener.
  apply startup_kept_add; [now left|]. apply startup_kept_add; [now left|]. exact H.
Qed.

Lemma startup_kept_manager q :
  startup_kept E p q -> startup_kept E p (ScrollAnimationManager.init E q).
Proof.
  intros H. unfold ScrollAnimationManager.init.
  destruct (scrollAnimationManager q); [|exact H].
  destruct (negb (has_IntersectionObserver E)).
  - apply fold_left_keeps; [|exact H].
    intros r el Hr. apply startup_kept_add; [now right|exact Hr].
  - cbv zeta. destruct (Nat.ltb _ _); revert H; now apply startup_kept_same.
Qed.

(** X21.  Whatever the page was, and whichever of the three singletons it
    already had, after [initializeApp] the displayed theme is the stored
    one ([light] when nothing, or the empty string, is stored) and the icon
    shows it; the storage is not written.  The state of the menu is not
    touched: the body style and the scroll offset are the same, and no
    class other than [active] and [animate] is added to or removed from any
    element, so an open menu stays open over a repeated run. *)
Theorem initializeApp_theme_and_menu :
  data_theme (initializeApp E p) = Some (JS.or_else (localStorage_theme p) "light")
  /\ localStorage_theme (initializeApp E p) = localStorage_theme p
  /\ icon_shows_theme E (initializeApp E p)
  /\ body_style (initializeApp E p) = body_style p
  /\ scrollY (initializeApp E p) = scrollY p
  /\ (forall x t, t <> "active" -> t <> "animate" ->
        classList_contains x t (initializeApp E p) = classList_contains x t p)
  /\ MenuManager.isOpen E (initializeApp E p) = MenuManager.isOpen E p.
Proof.
  assert (H : startup_kept E p (initializeApp E p)).
  { unfold initializeApp. cbv zeta.
    pose proof (startup_kept_setup _ startup_kept_initializeTheme) as H1.
    set (p1 := setupMenuButton E (setupThemeButton E (initializeTheme E p))) in *.
    assert (H2 : startup_kept E p
                   (if negb (portfolioApp p1)
                    then PortfolioApp.init E (set_portfolioApp true p1) else p1)).
    { destruct (negb (portfolioApp p1)); [now apply startup_kept_app|exact H1]. }
    set (p2 := if negb (portfolioApp p1) then _ else p1) in *.
    assert (H3 : startup_kept E p
                   (match luxuryCursor p2 with
                    | None => let '(this, q) := LuxuryCursor.new E p2 in
                              set_luxuryCursor (Some this) q
                    | Some _ => p2
                    end)).
    { destruct (luxuryCursor p2); [exact H2|].
      pose proof (startup_kept_cursor p2 H2) as Hc.
      destruct (LuxuryCursor.new E p2) as [this q]. cbn [snd] in Hc.
      revert Hc. now apply startup_kept_same. }
    set (p3 := match luxuryCursor p2 with None => _ | Some _ => p2 end) in *.
    destruct (scrollAnimationManager p3); [exact H3|].
    apply startup_kept_manager. revert H3. now apply startup_kept_same. }
  destruct H as (K1 & K2 & K3 & K4 & K5 & K6).
  repeat split; try assumption.
  unfold MenuManager.isOpen, MenuManager.getOverlay.
  destruct (menu_overlay E); [|reflexivity]. now rewrite K6.
Qed.

End StartupView.

Section BarePage.
Variable E : Env.
Hypothesis Hno_toggle : theme_toggle E = None.
Hypothesis Hno_icon : theme_icon E = None.
Hypothesis Hno_hamburger : hamburger_icon E = None.
Hypothesis Hno_overlay : menu_overlay E = None.
Hypothesis Hno_links : menu_links E = None.
Hypothesis Hno_anchors : menu_link_anchors E = [].
Hypothesis Hno_cursor : custom_cursor E = None.
Hypothesis Hno_tagged : scroll_animate E = [].
Hypothesis Hno_hero : hero_scroll_animate E = [].

Lemma bare_view_same p q q' :
  listeners q' = listeners q ->
  data_theme q' = data_theme q ->
  classList q' = classList q ->
  textContent q' = textContent q ->
  style_transform q' = style_transform q ->
  timers q' = timers q ->
  frame_requests q' = frame_requests q ->
  bare_view p q -> bare_view p q'.
Proof.
  unfold bare_view. intros H1 H2 H3 H4 H5 H6 H7.
  now rewrite H1, H2, H3, H4, H5, H6, H7.
Qed.

Lemma setup_on_bare_page p :
  setupMenuButton E (setupThemeButton E (initializeTheme E p))
  = addEventListener TheDocument keydown setup_document_keydown
      (set_data_theme (Some (JS.or_else (localStorage_theme p) "light")) p).
Proof.
  unfold setupMenuButton, setupThemeButton, initializeTheme.
  now rewrite Hno_toggle, Hno_icon, Hno_hamburger, Hno_overlay, Hno_anchors.
Qed.

Lemma app_on_bare_page q :
  PortfolioApp.init E q
  = set_data_theme (Some (JS.or_else (localStorage_theme q) "light")) q.
Proof.
  unfold PortfolioApp.init, PortfolioApp.attachEventListeners, ThemeManager.init,
    ThemeManager.updateIcon, ThemeManager.getThemeIcon, ThemeManager.setTheme.
  now rewrite Hno_toggle, Hno_icon, Hno_hamburger, Hno_overlay, Hno_links.
Qed.

Lemma cursor_on_bare_page q :
  LuxuryCursor.new E q
  = (Build_LuxuryCursorObj (touch_capable E) 0 0 0 0 0 0 false None, q).
Proof. unfold LuxuryCursor.new. now rewrite Hno_cursor. Qed.

Lemma manager_on_bare_page q :
  let q' := ScrollAnimationManager.init E
              (set_scrollAnimationManager (Some ScrollAnimationManager.new) q) in
  listeners q' = listeners q
  /\ data_theme q' = data_theme q
  /\ classList q' = classList q
  /\ textContent q' = textContent q
  /\ style_transform q' = style_transform q
  /\ timers q' = timers q
  /\ frame_requests q' = frame_requests q.
Proof.
  unfold ScrollAnimationManager.init. cbn [scrollAnimationManager set_scrollAnimationManager].
  rewrite Hno_tagged, Hno_hero.
  destruct (negb (has_IntersectionObserver E)); cbn; now repeat split.
Qed.

(** X22.  On a document with none of the elements the script looks for,
    [initializeApp] still runs through: it displays the stored theme, and
    all it leaves on the page besides the three singletons is the keydown
    listener of [setupMenuButton] on the document, which then never does
    anything.  No class, text, transform, timer or frame request is
    created. *)
Theorem initializeApp_on_bare_page (p : Page) :
  listeners (initializeApp E p)
  = (listeners p ++ [Build_Registration TheDocument keydown setup_document_keydown])%list
  /\ data_theme (initializeApp E p) = Some (JS.or_else (localStorage_theme p) "light")
  /\ classList (initializeApp E p) = classList p
  /\ textContent (initializeApp E p) = textContent p
  /\ style_transform (initializeApp E p) = style_transform p
  /\ timers (initializeApp E p) = timers p
  /\ frame_requests (initializeApp E p) = frame_requests p
  /\ has_app (initializeApp E p) /\ has_cursor (initializeApp E p)
  /\ has_manager (initializeApp E p)
  /\ forall e q, handleEvent E setup_document_keydown e q = (e, q).
Proof.
  assert (Hkey : forall e q, handleEvent E setup_document_keydown e q = (e, q)).
  { intros e q. cbn [handleEvent]. rewrite Hno_overlay. now destruct (key e =? "Escape"). }
  destruct (initializeApp_guards E p) as (G1 & G2 & G3).
  assert (A : bare_view p (initializeApp E p)).
  { unfold initializeApp. cbv zeta.
    rewrite setup_on_bare_page.
    set (p1 := addEventListener TheDocument keydown setup_document_keydown
                 (set_data_theme (Some (JS.or_else (localStorage_theme p) "light")) p)).
    assert (H1 : bare_view p p1) by (unfold bare_view; now repeat split).
    assert (H2 : bare_view p (if negb (portfolioApp p1)
                              then PortfolioApp.init E (set_portfolioApp true p1)
                              else p1)).
    { destruct (negb (portfolioApp p1)); [|exact H1].
      rewrite app_on_bare_page. unfold bare_view in *. cbn.
      change (localStorage_theme p1) with (localStorage_theme p).
      now repeat split. }
    set (p2 := if negb (portfolioApp p1) then _ else p1) in *.
    assert (H3 : bare_view p
                   (match luxuryCursor p2 with
                    | None => let '(this, q) := LuxuryCursor.new E p2 in
                              set_luxuryCursor (Some this) q
                    | Some _ => p2
                    end)).
    { destruct (luxuryCursor p2); [exact H2|]. rewrite cursor_on_bare_page.
      revert H2. apply bare_view_same; reflexivity. }
    set (p3 := match luxuryCursor p2 with None => _ | Some _ => p2 end) in *.
    destruct (scrollAnimationManager p3); [exact H3|].
    pose proof (manager_on_bare_page p3) as (M1 & M2 & M3 & M4 & M5 & M6 & M7).
    revert H3. now apply bare_view_same. }
  destruct A as (A1 & A2 & A3 & A4 & A5 & A6 & A7).
  repeat split; assumption.
Qed.

End BarePage.

Lemma initializeApp_on_bare_page_witness :
  listeners (initializeApp bare_env blank_page)
  = [Build_Registration TheDocument keydown setup_document_keydown].
Proof.
  exact (proj1 (initializeApp_on_bare_page bare_env eq_refl eq_refl eq_refl eq_refl
                  eq_refl eq_refl eq_refl eq_refl eq_refl blank_page)).
Defined.

Section Controls.
Variable E : Env.
Variables themeButton hamburgerIcon menuOverlay : elem.
Hypothesis Hbutton : theme_toggle E = Some themeButton.
Hypothesis Hhamburger : hamburger_icon E = Some hamburgerIcon.
Hypothesis Hoverlay : menu_overlay E = Some menuOverlay.
Hypothesis Hicon_outside : within E themeButton hamburgerIcon = false.
Hypothesis Hoverlay_outside : within E themeButton menuOverlay = false.
Hypothesis Hdistinct : hamburgerIcon <> menuOverlay.
Hypothesis Hanchors : forall a, In a (menu_link_anchors E) ->
  a <> themeButton /\ a <> hamburgerIcon /\ a <> menuOverlay.
Hypothesis Hlinks : forall ml, menu_links E = Some ml ->
  ml <> themeButton /\ ml <> hamburgerIcon /\ ml <> menuOverlay.

Lemma listeners_at_add t ty t' ty' l q :
  listeners_at t ty (addEventListener t' ty' l q)
  = (listeners_at t ty q
     ++ if EventTarget_eqb t' t && EventType_eqb ty' ty then [l] else [])%list.
Proof.
  unfold listeners_at, addEventListener. cbn [listeners set_listeners].
  rewrite filter_app, map_app. cbn [filter reg_target reg_type].
  now destruct (EventTarget_eqb t' t && EventType_eqb ty' ty).
Qed.

Lemma listeners_at_same t ty q q' :
  listeners q' = listeners q -> listeners_at t ty q' = listeners_at t ty q.
Proof. intros H. unfold listeners_at. now rewrite H. Qed.

Lemma link_handlers_elsewhere x (anchors : list elem) : forall q,
  ~ In x anchors ->
  listeners_at (Node x) click
    (fold_left (fun (p : Page) (link : elem) =>
                  addEventListener (Node link) click setup_link_click p) anchors q)
  = listeners_at (Node x) click q.
Proof.
  induction anchors as [|a anchors IH]; intros q Hx; [reflexivity|].
  cbn [fold_left]. rewrite IH by (intros H; apply Hx; now right).
  rewrite listeners_at_add. cbn [EventTarget_eqb].
  destruct (Nat.eqb_spec a x) as [Hax|]; [|apply app_nil_r].
  exfalso. apply Hx. now left.
Qed.

Lemma button_is_not_icon : themeButton <> hamburgerIcon.
Proof.
  intros H. revert Hicon_outside. unfold within. rewrite <- H, Nat.eqb_refl. discriminate.
Qed.

Lemma button_is_not_overlay : themeButton <> menuOverlay.
Proof.
  intros H. revert Hoverlay_outside. unfold within. rewrite <- H, Nat.eqb_refl.
  discriminate.
Qed.

Lemma setupMenuButton_at x q :
  ~ In x (menu_link_anchors E) ->
  listeners_at (Node x) click (setupMenuButton E q)
  = (listeners_at (Node x) click q
     ++ (if Nat.eqb hamburgerIcon x then [setup_hamburger_click] else [])
     ++ (if Nat.eqb menuOverlay x then [setup_overlay_click menuOverlay] else []))%list.
Proof.
  intros Hx. unfold setupMenuButton. rewrite Hhamburger, Hoverlay. cbv zeta.
  rewrite link_handlers_elsewhere by exact Hx.
  rewrite !listeners_at_add. cbn [EventTarget_eqb EventType_eqb andb].
  rewrite !andb_true_r, app_nil_r, <- app_assoc. reflexivity.
Qed.

Lemma attachEventListeners_at x q :
  menu_links E <> Some x ->
  listeners_at (Node x) click (PortfolioApp.init E (set_portfolioApp true q))
  = (listeners_at (Node x) click q
     ++ (if Nat.eqb themeButton x then [app_themeToggle_click] else [])
     ++ (if Nat.eqb hamburgerIcon x then [app_hamburger_click] else [])
     ++ (if Nat.eqb menuOverlay x then [app_overlay_click] else []))%list.
Proof.
  intros Hx. unfold PortfolioApp.init, PortfolioApp.attachEventListeners.
  rewrite Hbutton, Hhamburger, Hoverlay. cbv zeta.
  assert (Hi : listeners_at (Node x) click (ThemeManager.init E (set_portfolioApp true q))
               = listeners_at (Node x) click q).
  { apply listeners_at_same.
    unfold ThemeManager.init, ThemeManager.updateIcon, ThemeManager.getThemeIcon.
    cbv zeta. now destruct (theme_icon E). }
  destruct (menu_links E) as [ml|] eqn:Hml; rewrite !listeners_at_add, Hi;
    cbn [EventTarget_eqb EventType_eqb andb]; rewrite !andb_true_r, <- !app_assoc.
  - destruct (Nat.eqb_spec ml x) as [Heq|]; [congruence|]. now rewrite app_nil_r.
  - reflexivity.
Qed.

Lemma later_steps_at x q :
  let q' := match luxuryCursor q with
            | None => let '(this, r) := LuxuryCursor.new E q in
                      set_luxuryCursor (Some this) r
            | Some _ => q
            end in
  listeners_at (Node x) click
    (match scrollAnimationManager q' with
     | None => ScrollAnimationManager.init E
                 (set_scrollAnimationManager (Some ScrollAnimationManager.new) q')
     | Some _ => q'
     end)
  = listeners_at (Node x) click q.
Proof.
  cbv zeta.
  set (q' := match luxuryCursor q with None => _ | Some _ => q end).
  assert (Hq : listeners_at (Node x) click q' = listeners_at (Node x) click q).
  { unfold q'. destruct (luxuryCursor q); [reflexivity|].
    pose proof (cursor_new_keeps E
                  (fun r => listeners_at (Node x) click r = listeners_at (Node x) click q) q)
      as Hk.
    destruct (LuxuryCursor.new E q) as [this r]. cbn [snd] in Hk.
    change (listeners_at (Node x) click r = listeners_at (Node x) click q).
    apply Hk; auto.
    intros t ty l r' Hty Hr. rewrite listeners_at_add, Hr.
    destruct ty; try congruence; cbn; now rewrite andb_false_r, app_nil_r. }
  destruct (scrollAnimationManager q'); [exact Hq|].
  rewrite <- Hq. apply listeners_at_same. now rewrite manager_init_listeners.
Qed.

Lemma initializeApp_at x p :
  ~ In x (menu_link_anchors E) ->
  menu_links E <> Some x ->
  listeners_at (Node x) click (initializeApp E p)
  = (listeners_at (Node x) click (setupThemeButton E p)
     ++ (if Nat.eqb hamburgerIcon x then [setup_hamburger_click] else [])
     ++ (if Nat.eqb menuOverlay x then [setup_overlay_click menuOverlay] else [])
     ++ if portfolioApp p then []
        else ((if Nat.eqb themeButton x then [app_themeToggle_click] else [])
              ++ (if Nat.eqb hamburgerIcon x then [app_hamburger_click] else [])
              ++ (if Nat.eqb menuOverlay x then [app_overlay_click] else [])))%list.
Proof.
  intros Ha Hl. unfold initializeApp. cbv zeta. rewrite later_steps_at.
  destruct (setup_frame E p) as (Hp & _). cbv zeta in Hp. rewrite Hp.
  assert (Hs : listeners_at (Node x) click
                 (setupMenuButton E (setupThemeButton E (initializeTheme E p)))
               = (listeners_at (Node x) click (setupThemeButton E p)
                  ++ (if Nat.eqb hamburgerIcon x then [setup_hamburger_click] else [])
                  ++ (if Nat.eqb menuOverlay x then [setup_overlay_click menuOverlay]
                      else []))%list).
  { rewrite setupMenuButton_at by exact Ha. f_equal.
    apply listeners_at_same. unfold setupThemeButton. rewrite Hbutton.
    unfold initializeTheme. cbv zeta. now destruct (theme_icon E). }
  destruct (portfolioApp p); cbn [negb].
  - rewrite Hs. now rewrite app_nil_r.
  - rewrite attachEventListeners_at by exact Hl. rewrite Hs, <- !app_assoc. reflexivity.
Qed.

(** X23.  How [initializeApp] wires the three controls, when they are
    distinct elements outside the link list and the hamburger icon and the
    overlay are not inside the theme button.  The theme button ends with
    the click listener of [setupThemeButton] alone, followed on the first
    run by the one of [PortfolioApp]; what it carried before is gone.  The
    hamburger icon and the overlay keep what they carried and get the
    listener of [setupMenuButton], followed on the first run by the one of
    [PortfolioApp]: every run adds listeners to them. *)
Theorem initializeApp_wires_controls (p : Page) :
  listeners_at (Node themeButton) click (initializeApp E p)
  = setup_themeButton_click
    :: (if portfolioApp p then [] else [app_themeToggle_click])
  /\ listeners_at (Node hamburgerIcon) click (initializeApp E p)
     = (listeners_at (Node hamburgerIcon) click p
        ++ setup_hamburger_click
           :: (if portfolioApp p then [] else [app_hamburger_click]))%list
  /\ listeners_at (Node menuOverlay) click (initializeApp E p)
     = (listeners_at (Node menuOverlay) click p
        ++ setup_overlay_click menuOverlay
           :: (if portfolioApp p then [] else [app_overlay_click]))%list.
Proof.
  pose proof button_is_not_icon as Hbi. pose proof button_is_not_overlay as Hbo.
  assert (Hna : forall x, x = themeButton \/ x = hamburgerIcon \/ x = menuOverlay ->
                          ~ In x (menu_link_anchors E) /\ menu_links E <> Some x).
  { intros x Hx. split.
    - intros Hin. destruct (Hanchors x Hin) as (H1 & H2 & H3).
      destruct Hx as [Hx|[Hx|Hx]]; congruence.
    - intros Hml. destruct (Hlinks x Hml) as (H1 & H2 & H3).
      destruct Hx as [Hx|[Hx|Hx]]; congruence. }
  split; [|split].
  - destruct (Hna themeButton (or_introl eq_refl)) as [Ha Hl].
    rewrite (initializeApp_at themeButton p Ha Hl).
    rewrite (setupThemeButton_at_button E themeButton Hbutton p click).
    rewrite Nat.eqb_refl.
    destruct (Nat.eqb_spec hamburgerIcon themeButton); [congruence|].
    destruct (Nat.eqb_spec menuOverlay themeButton); [congruence|].
    now destruct (portfolioApp p).
  - destruct (Hna hamburgerIcon (or_intror (or_introl eq_refl))) as [Ha Hl].
    rewrite (initializeApp_at hamburgerIcon p Ha Hl).
    rewrite (setupThemeButton_elsewhere E themeButton Hbutton p (Node hamburgerIcon) click)
      by exact Hicon_outside.
    rewrite Nat.eqb_refl.
    destruct (Nat.eqb_spec menuOverlay hamburgerIcon); [congruence|].
    destruct (Nat.eqb_spec themeButton hamburgerIcon); [congruence|].
    now destruct (portfolioApp p).
  - destruct (Hna menuOverlay (or_intror (or_intror eq_refl))) as [Ha Hl].
    rewrite (initializeApp_at menuOverlay p Ha Hl).
    rewrite (setupThemeButton_elsewhere E themeButton Hbutton p (Node menuOverlay) click)
      by exact Hoverlay_outside.
    rewrite Nat.eqb_refl.
    destruct (Nat.eqb_spec hamburgerIcon menuOverlay); [congruence|].
    destruct (Nat.eqb_spec themeButton menuOverlay); [congruence|].
    now destruct (portfolioApp p).
Qed.

End Controls.

(** On the sample document, a first run gives the hamburger icon (4) two
    click listeners. *)
Lemma initializeApp_wires_controls_witness :
  listeners_at (Node 4) click (initializeApp demo_env blank_page)
  = [setup_hamburger_click; app_hamburger_click].
Proof.
  assert (Hd : 4 <> 1) by discriminate.
  assert (Ha : forall a, In a (menu_link_anchors demo_env) -> a <> 5 /\ a <> 4 /\ a <> 1).
  { intros a [<-|[]]. repeat split; discriminate. }
  assert (Hl : forall ml, menu_links demo_env = Some ml -> ml <> 5 /\ ml <> 4 /\ ml <> 1).
  { intros ml H. injection H as <-. repeat split; discriminate. }
  destruct (initializeApp_wires_controls demo_env 5 4 1 eq_refl eq_refl eq_refl
              eq_refl eq_refl Hd Ha Hl blank_page) as (_ & H & _).
  exact H.
Defined.
